(** * Remind: a Telegram bill-reminder bot

    Shallow embedding of [src/bot.py], [src/database.py] and
    [src/reminder_manager.py], and the properties of the scheduling and
    adaptive-polling core that the specification states about them.

    Layout: Python values and exceptions; the calendar (naive wall-clock
    [datetime] fields, which is what the code compares and shifts); the
    sheet-backed store; the reminder manager; the bot (trigger engine, job
    registry, firing callback, polling window); the users and history
    sheets and the bot's daily status, id parsing and start-up loop; then
    the theorems. *)

From Stdlib Require Import ZArith List String Ascii Bool Lia.
From Stdlib Require Import Numbers.DecimalString Numbers.DecimalPos.
From Stdlib Require Import Sorting.Sorted.
From stdpp Require Import base option gmap strings list fin_maps.

Local Open Scope string_scope.
Local Open Scope Z_scope.
Local Open Scope list_scope.

(** ** Python values, exceptions, results *)

Module Py.

(** The dynamically typed cell and argument values the code handles. *)
Inductive PyVal : Type :=
| VNone
| VBool (b : bool)
| VInt (z : Z)
| VStr (s : string).

(** Exceptions the modelled code raises or catches. *)
Inductive Exn : Type :=
| ValueError
| TypeError
| AttributeError
| OverflowError
| UnknownTimeZoneError
| JobLookupError
| TelegramError.

(** [inl e]: the call raised [e]; [inr a]: it returned [a]. *)
Definition result (A : Type) : Type := (Exn + A)%type.

Definition ret {A} (a : A) : result A := inr a.
Definition raise {A} (e : Exn) : result A := inl e.

Definition bind {A B} (m : result A) (k : A -> result B) : result B :=
  match m with
  | inl e => inl e
  | inr a => k a
  end.

Definition Z_to_string (z : Z) : string :=
  NilZero.string_of_int (Z.to_int z).

(** [str(v)] *)
Definition str (v : PyVal) : string :=
  match v with
  | VNone => "None"
  | VBool true => "True"
  | VBool false => "False"
  | VInt z => Z_to_string z
  | VStr s => s
  end.

(** Truthiness, as in [if v:] and [not v]. *)
Definition truthy (v : PyVal) : bool :=
  match v with
  | VNone => false
  | VBool b => b
  | VInt z => negb (z =? 0)
  | VStr s => negb (String.eqb s "")
  end.

(** [a == b] on values: [True == 1] and [False == 0] hold in Python, a
    string never equals a number. *)
Definition as_number (v : PyVal) : option Z :=
  match v with
  | VBool b => Some (if b then 1 else 0)
  | VInt z => Some z
  | _ => None
  end.

Definition eqv (a b : PyVal) : bool :=
  match a, b with
  | VNone, VNone => true
  | VStr s, VStr t => String.eqb s t
  | _, _ =>
      match as_number a, as_number b with
      | Some x, Some y => x =? y
      | _, _ => false
      end
  end.

(** An integer argument of a C-implemented method ([datetime.replace]):
    anything that is not an [int] raises [TypeError]. *)
Definition as_index (v : PyVal) : result Z :=
  match as_number v with
  | Some z => ret z
  | None => raise TypeError
  end.

(** *** Strings: [strip], [split], [int], [startswith], [upper]

    A Python [str] is held as its UTF-8 bytes, so a string literal here
    reads as the Python literal with the same text. [points] gives its
    code points; [split] on an ASCII separator, [startswith] and [==] see
    the same on the bytes as on the code points. *)

Definition byte (c : ascii) : Z := Z.of_N (N_of_ascii c).
Definition chr (b : Z) : ascii := ascii_of_N (Z.to_N b).

(** A continuation byte of a UTF-8 sequence *)
Definition continues (b : Z) : bool := (128 <=? b) && (b <? 192).

(** The code points of a text. A byte that is part of no well-formed
    sequence, which no Python [str] gives, is kept as a negative number. *)
Fixpoint points (s : string) : list Z :=
  match s with
  | EmptyString => []
  | String a0 t0 =>
      let b0 := byte a0 in
      if b0 <? 128 then b0 :: points t0
      else
        let alone := (- b0) :: points t0 in
        match t0 with
        | String a1 t1 =>
            let b1 := byte a1 in
            if (194 <=? b0) && (b0 <? 224) && continues b1 then
              ((b0 - 192) * 64 + (b1 - 128)) :: points t1
            else
              match t1 with
              | String a2 t2 =>
                  let b2 := byte a2 in
                  let p3 :=
                    (b0 - 224) * 4096 + (b1 - 128) * 64 + (b2 - 128) in
                  if (224 <=? b0) && (b0 <? 240) && continues b1
                     && continues b2 && (2048 <=? p3)
                     && negb ((55296 <=? p3) && (p3 <? 57344))
                  then p3 :: points t2
                  else
                    match t2 with
                    | String a3 t3 =>
                        let b3 := byte a3 in
                        let p4 :=
                          (b0 - 240) * 262144 + (b1 - 128) * 4096
                          + (b2 - 128) * 64 + (b3 - 128) in
                        if (240 <=? b0) && (b0 <? 248) && continues b1
                           && continues b2 && continues b3
                           && (65536 <=? p4) && (p4 <? 1114112)
                        then p4 :: points t3
                        else alone
                    | EmptyString => alone
                    end
              | EmptyString => alone
              end
        | EmptyString => alone
        end
  end.

(** The bytes of one code point *)
Definition encode (p : Z) : string :=
  if p <? 0 then String (chr (- p)) EmptyString
  else if p <? 128 then String (chr p) EmptyString
  else if p <? 2048 then
    String (chr (192 + p / 64)) (String (chr (128 + p mod 64)) EmptyString)
  else if p <? 65536 then
    String (chr (224 + p / 4096))
      (String (chr (128 + (p / 64) mod 64))
         (String (chr (128 + p mod 64)) EmptyString))
  else
    String (chr (240 + p / 262144))
      (String (chr (128 + (p / 4096) mod 64))
         (String (chr (128 + (p / 64) mod 64))
            (String (chr (128 + p mod 64)) EmptyString))).

(** The text with the given code points *)
Definition text (l : list Z) : string :=
  fold_right (fun p s => encode p +:+ s) EmptyString l.

(** The code points for which [str.isspace] holds. *)
Definition is_space (p : Z) : bool :=
  ((9 <=? p) && (p <=? 13)) || ((28 <=? p) && (p <=? 32))
  || (p =? 133) || (p =? 160) || (p =? 5760)
  || ((8192 <=? p) && (p <=? 8202))
  || (p =? 8232) || (p =? 8233) || (p =? 8239) || (p =? 8287)
  || (p =? 12288).

(** The blanks [int] skips around a literal: the ASCII ones of the C
    locale, which leaves out 28 to 31, and every blank beyond ASCII. *)
Definition int_space (p : Z) : bool :=
  ((9 <=? p) && (p <=? 13)) || (p =? 32) || ((128 <=? p) && is_space p).

Fixpoint drop_blanks (blank : Z -> bool) (l : list Z) : list Z :=
  match l with
  | p :: t => if blank p then drop_blanks blank t else l
  | [] => []
  end.

(** [l] without the blanks at its two ends *)
Definition trim (blank : Z -> bool) (l : list Z) : list Z :=
  rev (drop_blanks blank (rev (drop_blanks blank l))).

(** [s.strip()] *)
Definition strip (s : string) : string := text (trim is_space (points s)).

(** [s.split(sep)] for a one-character separator: never empty. *)
Fixpoint split (sep : ascii) (s : string) : list string :=
  match s with
  | EmptyString => [EmptyString]
  | String c t =>
      if Ascii.eqb c sep then EmptyString :: split sep t
      else
        match split sep t with
        | p :: ps => String c p :: ps
        | [] => [String c EmptyString]
        end
  end.

(** The code points of the digit zero of every decimal digit set (Unicode
    14, as in CPython 3.11); the other nine digits of a set follow it. *)
Definition decimal_zeros : list Z :=
  [48; 1632; 1776; 1984; 2406; 2534; 2662; 2790; 2918; 3046; 3174; 3302;
   3430; 3558; 3664; 3792; 3872; 4160; 4240; 6112; 6160; 6470; 6608; 6784;
   6800; 6992; 7088; 7232; 7248; 42528; 43216; 43264; 43472; 43504; 43600;
   44016; 65296; 66720; 68912; 69734; 69872; 69942; 70096; 70384; 70736;
   70864; 71248; 71360; 71472; 71904; 72016; 72784; 73040; 73120; 92768;
   92864; 93008; 120782; 120792; 120802; 120812; 120822; 123200; 123632;
   125264; 130032].

(** The value of a decimal digit *)
Definition decimal_of (p : Z) : option Z :=
  match
    List.find (fun z => (z <=? p) && (p <=? z + 9)) decimal_zeros
  with
  | Some z => Some (p - z)
  | None => None
  end.

(** The digits of an integer literal, single underscores allowed between
    digits. [prev] says whether the previous character was a digit. *)
Fixpoint digits (acc : Z) (prev : bool) (l : list Z) : option Z :=
  match l with
  | [] => if prev then Some acc else None
  | p :: t =>
      match decimal_of p with
      | Some d => digits (10 * acc + d) true t
      | None => if (p =? 95) && prev then digits acc false t else None
      end
  end.

(** [int(s)] on a string; [None] stands for [ValueError]. The guard of
    the interpreter on the length of a literal (more than 4300 digits,
    from CPython 3.11 on and where it is left switched on) is outside
    the model. *)
Definition int_of_string (s : string) : option Z :=
  match trim int_space (points s) with
  | p :: t =>
      if p =? 43 then digits 0 false t
      else if p =? 45 then Z.opp <$> digits 0 false t
      else digits 0 false (p :: t)
  | [] => None
  end.

Definition startswith (s p : string) : bool := String.prefix p s.

Definition upper_char (c : ascii) : ascii :=
  let n := nat_of_ascii c in
  if ((97 <=? n) && (n <=? 122))%nat then ascii_of_nat (n - 32) else c.

Fixpoint upper (s : string) : string :=
  match s with
  | EmptyString => EmptyString
  | String c t => String (upper_char c) (upper t)
  end.

Definition lower_char (c : ascii) : ascii :=
  let n := nat_of_ascii c in
  if ((65 <=? n) && (n <=? 90))%nat then ascii_of_nat (n + 32) else c.

(** [s.lower()] and, above, [s.upper()], as far as the code uses them,
    which is to compare the result with a word in ASCII letters. Beyond
    ASCII only the Kelvin sign has such a letter as its lower case; no
    character beyond ASCII has an upper case that is part of such a
    word, and those characters are left as they are. *)
Fixpoint lower (s : string) : string :=
  match s with
  | EmptyString => EmptyString
  | String c t =>
      match t with
      | String c1 (String c2 t2) =>
          if (byte c =? 226) && (byte c1 =? 132) && (byte c2 =? 170)
          then String "k" (lower t2)
          else String (lower_char c) (lower t)
      | _ => String (lower_char c) (lower t)
      end
  end.

End Py.

Export Py.

Notation "'try!' x <- m ;; k" := (Py.bind m (fun x => k))
  (at level 10, x name, m at level 99, k at level 200).

(** ** The calendar: [datetime], [calendar.monthrange], [timedelta] *)

Module Cal.

(** The fields of a [datetime]. The code builds every instant it compares
    from one reading [now] of the clock with [replace] and day shifts, so
    both sides of a comparison carry the same zone object and Python
    compares the wall-clock fields. *)
Record datetime : Type := mkdt {
  year : Z; month : Z; day : Z;
  hour : Z; minute : Z; second : Z; microsecond : Z
}.

Definition MINYEAR : Z := 1.
Definition MAXYEAR : Z := 9999.

Definition isleap (y : Z) : bool :=
  (y mod 4 =? 0) && (negb (y mod 100 =? 0) || (y mod 400 =? 0)).

(** [calendar.monthrange(y, m)[1]] *)
Definition monthrange_last (y m : Z) : Z :=
  if m =? 2 then (if isleap y then 29 else 28)
  else if (m =? 4) || (m =? 6) || (m =? 9) || (m =? 11) then 30
  else 31.

Definition valid_date (y m d : Z) : bool :=
  (MINYEAR <=? y) && (y <=? MAXYEAR) &&
  (1 <=? m) && (m <=? 12) &&
  (1 <=? d) && (d <=? monthrange_last y m).

Definition valid_time (h mi s us : Z) : bool :=
  (0 <=? h) && (h <=? 23) && (0 <=? mi) && (mi <=? 59) &&
  (0 <=? s) && (s <=? 59) && (0 <=? us) && (us <=? 999999).

Definition valid (dt : datetime) : bool :=
  valid_date (year dt) (month dt) (day dt) &&
  valid_time (hour dt) (minute dt) (second dt) (microsecond dt).

(** An [int] that fits the C [int] the methods of [datetime] take their
    arguments as *)
Definition c_int (z : Z) : bool :=
  (-2147483648 <=? z) && (z <=? 2147483647).

(** [dt.replace(year=, month=, day=, hour=, minute=, second=,
    microsecond=)]: [None] keeps the field. An argument beyond a C [int]
    raises [OverflowError]; then the new value is validated as a whole and
    [ValueError] is raised when it is not a date. *)
Definition replace (dt : datetime) (y m d h mi s us : option Z)
  : result datetime :=
  let dt' := {| year := default (year dt) y;
                month := default (month dt) m;
                day := default (day dt) d;
                hour := default (hour dt) h;
                minute := default (minute dt) mi;
                second := default (second dt) s;
                microsecond := default (microsecond dt) us |} in
  if forallb (fun a => from_option c_int true a) [y; m; d; h; mi; s; us]
  then if valid dt' then ret dt' else raise ValueError
  else raise OverflowError.

Definition lex (c1 c2 : comparison) : comparison :=
  match c1 with Eq => c2 | _ => c1 end.

Definition compare (a b : datetime) : comparison :=
  lex (year a ?= year b)
 (lex (month a ?= month b)
 (lex (day a ?= day b)
 (lex (hour a ?= hour b)
 (lex (minute a ?= minute b)
 (lex (second a ?= second b)
      (microsecond a ?= microsecond b)))))).

(** [a <= b] and [a < b] *)
Definition leb (a b : datetime) : bool :=
  match compare a b with Gt => false | _ => true end.
Definition ltb (a b : datetime) : bool :=
  match compare a b with Lt => true | _ => false end.

(** The calendar month after the one [dt] lies in. *)
Definition next_year (dt : datetime) : Z :=
  if month dt =? 12 then year dt + 1 else year dt.

Definition next_month (dt : datetime) : Z :=
  if month dt =? 12 then 1 else month dt + 1.

(** [dt.date()] *)
Definition date (dt : datetime) : Z * Z * Z := (year dt, month dt, day dt).

(** [date.toordinal()]: days since 0001-01-01, which is day 1. *)
Definition days_before_year (y : Z) : Z :=
  let y := y - 1 in y * 365 + y / 4 - y / 100 + y / 400.

Definition days_before_month (y m : Z) : Z :=
  fold_right Z.add 0
    (map (monthrange_last y) (map Z.of_nat (seq 1 (Z.to_nat (m - 1))))).

Definition toordinal (dt : datetime) : Z :=
  days_before_year (year dt) + days_before_month (year dt) (month dt) + day dt.

(** [dt.weekday()]: Monday is 0. *)
Definition weekday (dt : datetime) : Z := (toordinal dt + 6) mod 7.

(** One calendar day back, same time of day. *)
Definition prev_day (dt : datetime) : datetime :=
  if 1 <? day dt then
    {| year := year dt; month := month dt; day := day dt - 1;
       hour := hour dt; minute := minute dt; second := second dt;
       microsecond := microsecond dt |}
  else if 1 <? month dt then
    {| year := year dt; month := month dt - 1;
       day := monthrange_last (year dt) (month dt - 1);
       hour := hour dt; minute := minute dt; second := second dt;
       microsecond := microsecond dt |}
  else
    {| year := year dt - 1; month := 12; day := 31;
       hour := hour dt; minute := minute dt; second := second dt;
       microsecond := microsecond dt |}.

(** [dt - timedelta(days=n)]: on an aware [datetime] this shifts the
    wall-clock fields and keeps the zone; leaving the supported years
    raises [OverflowError]. *)
Definition minus_days (dt : datetime) (n : nat) : result datetime :=
  let dt' := Nat.iter n prev_day dt in
  if MINYEAR <=? year dt' then ret dt' else raise OverflowError.

(** One calendar day forward, same time of day. *)
Definition next_day (dt : datetime) : datetime :=
  if day dt <? monthrange_last (year dt) (month dt) then
    {| year := year dt; month := month dt; day := day dt + 1;
       hour := hour dt; minute := minute dt; second := second dt;
       microsecond := microsecond dt |}
  else if month dt <? 12 then
    {| year := year dt; month := month dt + 1; day := 1;
       hour := hour dt; minute := minute dt; second := second dt;
       microsecond := microsecond dt |}
  else
    {| year := year dt + 1; month := 1; day := 1;
       hour := hour dt; minute := minute dt; second := second dt;
       microsecond := microsecond dt |}.

(** [dt + timedelta(minutes=k)] for [0 <= k] *)
Definition plus_minutes (dt : datetime) (k : Z) : result datetime :=
  let total := hour dt * 60 + minute dt + k in
  let dt' :=
    Nat.iter (Z.to_nat (total / 1440)) next_day
      {| year := year dt; month := month dt; day := day dt;
         hour := (total mod 1440) / 60; minute := (total mod 1440) mod 60;
         second := second dt; microsecond := microsecond dt |} in
  if year dt' <=? MAXYEAR then ret dt' else raise OverflowError.

End Cal.

(** ** The store: [src/database.py]

    The three worksheets are external; a sheet is modelled by its records
    in row order, as [get_all_records] returns them. Data row [i] (from 0)
    is sheet row [i + 2], the header being row 1. Every call that changes
    a sheet is also appended to [writes], so that "no update is issued" can
    be stated apart from "the update changed nothing". Transport failures
    of the sheet API are not modelled. *)

Module Db.

(** A row of the [Reminders] sheet, i.e. the [Dict] the rest of the code
    passes around. [day] and [timezone] are read with [.get] and may be
    missing ([None]). *)
Record Reminder : Type := mkReminder {
  id : PyVal;
  user_id : PyVal;
  text : string;
  day : option PyVal;
  time : string;
  frequency : string;
  timezone : option string;
  active : PyVal;
  created_at : string;
  last_sent : string
}.

Record LogRow : Type := mkLogRow {
  log_reminder_id : PyVal;
  log_sent_at : string;
  log_user_id : PyVal
}.

Inductive SheetWrite : Type :=
| UpdateCell (row col : nat) (value : string)
| DeleteRows (row : nat)
| AppendLog (entry : LogRow).

Record Database : Type := mkDatabase {
  reminders_sheet : list Reminder;
  logs_sheet : list LogRow;
  writes : list SheetWrite
}.

(** Row 1 of the [Reminders] sheet, in the column order [create_reminder]
    writes. *)
Definition headers : list string :=
  ["id"; "user_id"; "text"; "day"; "time"; "frequency"; "timezone";
   "active"; "created_at"; "last_sent"].

(** [headers.index(key)] *)
Fixpoint index_of (key : string) (l : list string) : option nat :=
  match l with
  | [] => None
  | h :: t => if String.eqb h key then Some O else S <$> index_of key t
  end.

(** A Python [dict] given as its items in insertion order. *)
Definition Dict : Type := list (string * PyVal).

(** [d.get(key)]; [None] also answers [key in d]. *)
Fixpoint dict_get (key : string) (d : Dict) : option PyVal :=
  match d with
  | [] => None
  | (k, v) :: t => if String.eqb k key then Some v else dict_get key t
  end.

(** [get_all_active_reminders]: the checkbox column reads back as the
    strings TRUE and FALSE. *)
Definition get_all_active_reminders (db : Database) : list Reminder :=
  List.filter (fun r => String.eqb (Py.upper (Py.str (active r))) "TRUE")
              (reminders_sheet db).

(** [get_reminder] *)
Definition get_reminder (db : Database) (reminder_id : PyVal)
  : option Reminder :=
  let reminder_id := Py.strip (Py.str reminder_id) in
  List.find (fun r => String.eqb (Py.strip (Py.str (id r))) reminder_id)
            (reminders_sheet db).

(** [reminders_sheet.find(reminder_id, in_column=1)]: the first data row
    whose first cell shows exactly [reminder_id]. The header cell is not
    matched, reminder ids being numbers. *)
Fixpoint find_row (reminder_id : string) (rows : list Reminder)
  : option nat :=
  match rows with
  | [] => None
  | r :: t =>
      if String.eqb (Py.str (id r)) reminder_id then Some O
      else S <$> find_row reminder_id t
  end.

(** The record after [update_cell] wrote [value] under column [key]. *)
Definition set_cell (key value : string) (r : Reminder) : Reminder :=
  if String.eqb key "id" then
    mkReminder (VStr value) (user_id r) (text r) (day r) (time r)
               (frequency r) (timezone r) (active r) (created_at r)
               (last_sent r)
  else if String.eqb key "user_id" then
    mkReminder (id r) (VStr value) (text r) (day r) (time r)
               (frequency r) (timezone r) (active r) (created_at r)
               (last_sent r)
  else if String.eqb key "text" then
    mkReminder (id r) (user_id r) value (day r) (time r)
               (frequency r) (timezone r) (active r) (created_at r)
               (last_sent r)
  else if String.eqb key "day" then
    mkReminder (id r) (user_id r) (text r) (Some (VStr value)) (time r)
               (frequency r) (timezone r) (active r) (created_at r)
               (last_sent r)
  else if String.eqb key "time" then
    mkReminder (id r) (user_id r) (text r) (day r) value
               (frequency r) (timezone r) (active r) (created_at r)
               (last_sent r)
  else if String.eqb key "frequency" then
    mkReminder (id r) (user_id r) (text r) (day r) (time r)
               value (timezone r) (active r) (created_at r)
               (last_sent r)
  else if String.eqb key "timezone" then
    mkReminder (id r) (user_id r) (text r) (day r) (time r)
               (frequency r) (Some value) (active r) (created_at r)
               (last_sent r)
  else if String.eqb key "active" then
    mkReminder (id r) (user_id r) (text r) (day r) (time r)
               (frequency r) (timezone r) (VStr value) (created_at r)
               (last_sent r)
  else if String.eqb key "created_at" then
    mkReminder (id r) (user_id r) (text r) (day r) (time r)
               (frequency r) (timezone r) (active r) value
               (last_sent r)
  else if String.eqb key "last_sent" then
    mkReminder (id r) (user_id r) (text r) (day r) (time r)
               (frequency r) (timezone r) (active r) (created_at r)
               value
  else r.

(** [reminders_sheet.update_cell(row_index, col_index, str(value))] for
    data row [i] *)
Definition update_cell (i col : nat) (key value : string) (db : Database)
  : Database :=
  {| reminders_sheet := alter (set_cell key value) i (reminders_sheet db);
     logs_sheet := logs_sheet db;
     writes := writes db ++ [UpdateCell (i + 2) (col + 1) value] |}.

(** [update_reminder] *)
Definition update_reminder (db : Database) (reminder_id : PyVal)
    (updates : Dict) : bool * Database :=
  let reminder_id := Py.strip (Py.str reminder_id) in
  match find_row reminder_id (reminders_sheet db) with
  | None => (false, db)
  | Some i =>
      (true,
       fold_left
         (fun db kv =>
            match index_of (fst kv) headers with
            | Some col => update_cell i col (fst kv) (Py.str (snd kv)) db
            | None => db
            end)
         updates db)
  end.

(** [delete_reminder] *)
Definition delete_reminder (db : Database) (reminder_id : PyVal)
  : bool * Database :=
  let reminder_id := Py.strip (Py.str reminder_id) in
  match find_row reminder_id (reminders_sheet db) with
  | Some i =>
      (true,
       {| reminders_sheet := delete i (reminders_sheet db);
          logs_sheet := logs_sheet db;
          writes := writes db ++ [DeleteRows (i + 2)] |})
  | None => (false, db)
  end.

(** [log_reminder_sent]; [stamp] is [datetime.now().isoformat()], read
    once for the log row and the [last_sent] cell. *)
Definition log_reminder_sent (db : Database) (reminder_id user_id : PyVal)
    (stamp : string) : Database :=
  let log_row := mkLogRow reminder_id stamp user_id in
  let db := {| reminders_sheet := reminders_sheet db;
               logs_sheet := logs_sheet db ++ [log_row];
               writes := writes db ++ [AppendLog log_row] |} in
  snd (update_reminder db reminder_id [("last_sent", VStr stamp)]).

End Db.

(** ** The manager: [src/reminder_manager.py] *)

Module Manager.

(** [_validate_time]: [split] on anything but a string raises
    [AttributeError], [int] on a malformed part raises [ValueError]; both
    are caught and answered [False]. *)
Definition _validate_time (time_str : PyVal) : bool :=
  match time_str with
  | VStr s =>
      match Py.split ":" s with
      | [p0; p1] =>
          match Py.int_of_string p0, Py.int_of_string p1 with
          | Some hour, Some minute =>
              (0 <=? hour) && (hour <=? 23) &&
              (0 <=? minute) && (minute <=? 59)
          | _, _ => false
          end
      | _ => false
      end
  | _ => false
  end.

(** [not reminder or reminder['user_id'] != user_id] *)
Definition not_owned (reminder : option Db.Reminder) (user_id : Z) : bool :=
  match reminder with
  | None => true
  | Some r => negb (Py.eqv (Db.user_id r) (VInt user_id))
  end.

(** ['time' in updates] and [not self._validate_time(updates['time'])] *)
Definition time_rejected (updates : Db.Dict) : bool :=
  match Db.dict_get "time" updates with
  | Some t => negb (_validate_time t)
  | None => false
  end.

(** ['frequency' in updates] and
    [updates['frequency'] not in ['once', 'daily', 'weekly']] *)
Definition frequency_rejected (updates : Db.Dict) : bool :=
  match Db.dict_get "frequency" updates with
  | Some f =>
      negb (existsb (fun a => Py.eqv f (VStr a)) ["once"; "daily"; "weekly"])
  | None => false
  end.

(** [edit_reminder] *)
Definition edit_reminder (db : Db.Database) (user_id : Z)
    (reminder_id : PyVal) (updates : Db.Dict) : bool * Db.Database :=
  let reminder := Db.get_reminder db reminder_id in
  if not_owned reminder user_id then (false, db)
  else if time_rejected updates then (false, db)
  else if frequency_rejected updates then (false, db)
  else (true, snd (Db.update_reminder db reminder_id updates)).

(** [delete_reminder] *)
Definition delete_reminder (db : Db.Database) (user_id : Z)
    (reminder_id : PyVal) : bool * Db.Database :=
  let reminder := Db.get_reminder db reminder_id in
  if not_owned reminder user_id then (false, db)
  else Db.delete_reminder db reminder_id.

(** [toggle_reminder] *)
Definition toggle_reminder (db : Db.Database) (user_id : Z)
    (reminder_id : PyVal) : bool * Db.Database :=
  match Db.get_reminder db reminder_id with
  | None => (false, db)
  | Some reminder =>
      if negb (Py.eqv (Db.user_id reminder) (VInt user_id)) then (false, db)
      else
        let new_status := VBool (negb (Py.truthy (Db.active reminder))) in
        Db.update_reminder db reminder_id [("active", new_status)]
  end.

(** Following the specification's words: a time value "of the form
    hour:minute with 0 <= hour <= 23 and 0 <= minute <= 59" is a string made
    of an integer literal, a colon and an integer literal, both in range. *)
Definition is_hour_minute (value : PyVal) : Prop :=
  exists (sh sm : string) (hour minute : Z),
    value = VStr (sh +:+ String ":" sm) /\
    Py.int_of_string sh = Some hour /\
    Py.int_of_string sm = Some minute /\
    0 <= hour <= 23 /\ 0 <= minute <= 59.

(** Following the specification's words: a frequency value "outside
    {'once', 'daily', 'weekly'}". *)
Definition outside_editable_frequencies (value : PyVal) : Prop :=
  value <> VStr "once" /\ value <> VStr "daily" /\ value <> VStr "weekly".

End Manager.

(** ** The bot: [src/bot.py] *)

Module Bot.

Import Cal.

(** A resolved zone object. *)
Inductive tzinfo : Type := TZ (name : string).

(** [datetime.now(tz)]: the wall-clock reading in each zone at the moment
    of the call. *)
Definition Clock : Type := tzinfo -> datetime.

(** A trigger as the code hands it to the scheduler. *)
Inductive Trigger : Type :=
| DateTrigger (run_date : datetime) (timezone : tzinfo)
| CronTrigger (hour minute : Z) (day_of_week : option string)
              (day : option PyVal) (timezone : tzinfo).

(** A registry entry for [send_reminder_job]:
    [args=(reminder['user_id'], reminder, offset_days)]. *)
Record Job : Type := mkJob {
  trigger : Trigger;
  args : PyVal * Db.Reminder * nat;
  misfire_grace_time : Z
}.

(** The scheduler's job store, keyed by job id. *)
Abbreviation Scheduler := (gmap string Job).

(** [scheduler.add_job(..., id=job_id, replace_existing=True)] *)
Definition add_job (job_id : string) (job : Job) (s : Scheduler)
  : Scheduler := <[job_id := job]> s.

(** [scheduler.remove_job(job_id)] raises when there is no such job. *)
Definition remove_job (job_id : string) (s : Scheduler) : result Scheduler :=
  match s !! job_id with
  | Some _ => ret (delete job_id s)
  | None => raise JobLookupError
  end.

(** [try: scheduler.remove_job(job_id)] with the exception dropped *)
Definition try_remove_job (job_id : string) (s : Scheduler) : Scheduler :=
  match remove_job job_id s with
  | inr s' => s'
  | inl _ => s
  end.

(** [f"reminder_{reminder['id']}"] *)
Definition job_id (reminder : Db.Reminder) : string :=
  "reminder_" +:+ Py.str (Db.id reminder).

(** [f"{job_id}_dminus{offset}"] *)
Definition offset_job_id (reminder : Db.Reminder) (offset : nat) : string :=
  job_id reminder +:+ "_dminus" +:+ Py.Z_to_string (Z.of_nat offset).

(** [f"reminder_{reminder['id']}_"] *)
Definition job_prefix (reminder : Db.Reminder) : string :=
  "reminder_" +:+ Py.str (Db.id reminder) +:+ "_".

(** The attributes [__init__] sets that the modelled methods read. *)
Record ReminderBot : Type := mkBot {
  vn_tz : tzinfo;
  debug_always_on : bool;
  window_only : bool;
  active_start_hm : Z * Z;
  active_end_hm : Z * Z;
  notify_hm : Z * Z;
  inactivity_minutes : Z
}.

(** A text of decimal digits only, and the number it reads as *)
Definition plain_number (expr : string) : option Z :=
  let l := Py.points expr in
  if forallb (fun p => match Py.decimal_of p with
                       | Some _ => true
                       | None => false
                       end) l
  then Py.digits 0 false l
  else None.

Section Zones.

(** The zone names [pytz] resolves; its database is not part of the
    repository. *)
Variable known_zone : string -> bool.

(** The schedule expressions, by field name, that are neither [*] nor a
    plain number: what the scheduler library makes of them is not part of
    the repository either. *)
Variable cron_text : string -> string -> bool.

(** [pytz.timezone(name)] *)
Definition pytz_timezone (name : string) : result tzinfo :=
  if known_zone name then ret (TZ name) else raise UnknownTimeZoneError.

(** [__init__]; the two flags come from the environment. *)
Definition init (debug_always_on window_only : bool)
  : result ReminderBot :=
  try! vn <- pytz_timezone "Asia/Ho_Chi_Minh" ;;
  ret {| vn_tz := vn;
         debug_always_on := debug_always_on;
         window_only := window_only;
         active_start_hm := (7, 30);
         active_end_hm := (7, 40);
         notify_hm := (7, 35);
         inactivity_minutes := 3 |}.

(** [DateTrigger(run_date=..., timezone=name)] given a zone name: the
    trigger resolves the name itself. *)
Definition DateTrigger_named (run_date : datetime) (name : string)
  : result Trigger :=
  try! tz <- pytz_timezone name ;;
  ret (DateTrigger run_date tz).

(** *** Trigger engine *)

(** [_compute_next_month_event] *)
Definition _compute_next_month_event (self : ReminderBot) (clock : Clock)
    (reminder : Db.Reminder) : result datetime :=
  try! user_tz <-
    pytz_timezone (default "Asia/Ho_Chi_Minh" (Db.timezone reminder)) ;;
  let now := clock user_tz in
  let '(hour, minute) := notify_hm self in
  let target_day := default (VInt (Cal.day now)) (Db.day reminder) in
  try! run_dt <-
    match
      (try! d <- Py.as_index target_day ;;
       replace now None None (Some d) (Some hour) (Some minute)
               (Some 0) (Some 0))
    with
    | inl ValueError =>
        let last_day := monthrange_last (year now) (month now) in
        replace now None None (Some last_day) (Some hour) (Some minute)
                (Some 0) (Some 0)
    | r => r
    end ;;
  if leb run_dt now then
    let year := year run_dt + (if month run_dt =? 12 then 1 else 0) in
    let month := if month run_dt =? 12 then 1 else month run_dt + 1 in
    let last_day := monthrange_last year month in
    try! d <- Py.as_index target_day ;;
    let day := Z.min d last_day in
    replace run_dt (Some year) (Some month) (Some day)
            None None None None
  else ret run_dt.

(** The [run_date] that the [once] branch of [_schedule_single_reminder]
    computes at the head of its [try] block. *)
Definition once_run_date (now : datetime) (day : option PyVal)
    (hour minute : Z) : result datetime :=
  let target_day :=
    match day with
    | None | Some VNone => VInt (Cal.day now)
    | Some v => v
    end in
  try! d <- Py.as_index target_day ;;
  try! run_date <-
    replace now None None (Some d) (Some hour) (Some minute)
            (Some 0) (Some 0) ;;
  if leb run_date now then
    try! run_date <-
      (if month now =? 12
       then replace run_date (Some (year now + 1)) (Some 1)
                    None None None None None
       else replace run_date None (Some (month now + 1))
                    None None None None None) ;;
    match replace run_date None None (Some d) None None None None with
    | inl ValueError =>
        let last_day :=
          monthrange_last (year run_date) (month run_date) in
        replace run_date None None (Some last_day) None None None None
    | r => r
    end
  else ret run_date.

(** *** Reminder scheduler *)

(** What [CronTrigger] makes of the value given for the field [name],
    whose numbers run from [lo] to [hi]: [None] leaves the field out; any
    other value is compiled from [str(value).strip()], where [*] stands
    for every value and a plain number has to lie in the range of the
    field. Neither a negative integer nor [True] or [False] is an
    expression of any field. *)
Definition cron_field (name : string) (lo hi : Z) (value : PyVal) : bool :=
  match value with
  | VNone => true
  | VBool _ => false
  | VInt z => (lo <=? z) && (z <=? hi)
  | VStr s =>
      let expr := Py.strip s in
      if String.eqb expr "*" then true
      else
        match plain_number expr with
        | Some n => (lo <=? n) && (n <=? hi)
        | None => cron_text name expr
        end
  end.

(** [CronTrigger(hour=, minute=, timezone=, day_of_week=, day=)]: every
    field is compiled and validated when the trigger is built, and
    [ValueError] is raised for a field that is not accepted. *)
Definition new_CronTrigger (hour minute : Z) (day_of_week : option string)
    (day : option PyVal) (timezone : tzinfo) : result Trigger :=
  if cron_field "day" 1 31 (default VNone day)
     && cron_field "day_of_week" 0 6 (from_option VStr VNone day_of_week)
     && cron_field "hour" 0 23 (VInt hour)
     && cron_field "minute" 0 59 (VInt minute)
  then ret (CronTrigger hour minute day_of_week day timezone)
  else raise ValueError.

(** [_schedule_offset_job]: the old job is dropped before the zone is
    resolved, so the registry is returned also when the call raises. *)
Definition _schedule_offset_job (reminder : Db.Reminder)
    (run_dt : datetime) (offset_days : nat) (s : Scheduler)
  : result unit * Scheduler :=
  let job_base := offset_job_id reminder offset_days in
  let s := try_remove_job job_base s in
  match
    pytz_timezone (default "Asia/Ho_Chi_Minh" (Db.timezone reminder))
  with
  | inl e => (inl e, s)
  | inr tz =>
      let trigger := DateTrigger run_dt tz in
      (ret tt,
       add_job job_base
               (mkJob trigger (Db.user_id reminder, reminder, offset_days)
                      300) s)
  end.

(** The body of the [try] block of the [once] branch, after
    [run_date] is known: three date jobs, each built from the stored
    zone name. *)
Definition once_jobs (user_timezone : string) (reminder : Db.Reminder)
    (run_date : datetime) (s : Scheduler) : result unit * Scheduler :=
  let job_args := fun offset => (Db.user_id reminder, reminder, offset) in
  match DateTrigger_named run_date user_timezone with
  | inl e => (inl e, s)
  | inr trigger =>
  let s := add_job (offset_job_id reminder 0)
                   (mkJob trigger (job_args 0%nat) 300) s in
  match minus_days run_date 1 with
  | inl e => (inl e, s)
  | inr run_date_1d =>
  match DateTrigger_named run_date_1d user_timezone with
  | inl e => (inl e, s)
  | inr trigger_1d =>
  let s := add_job (offset_job_id reminder 1)
                   (mkJob trigger_1d (job_args 1%nat) 300) s in
  match minus_days run_date 2 with
  | inl e => (inl e, s)
  | inr run_date_2d =>
  match DateTrigger_named run_date_2d user_timezone with
  | inl e => (inl e, s)
  | inr trigger_2d =>
  (ret tt,
   add_job (offset_job_id reminder 2)
           (mkJob trigger_2d (job_args 2%nat) 300) s)
  end end end end end.

(** The [monthly] branch after the cron job is installed: the two
    pre-due date jobs; any exception is logged and dropped. *)
Definition monthly_offsets (self : ReminderBot) (clock : Clock)
    (reminder : Db.Reminder) (s : Scheduler) : Scheduler :=
  match _compute_next_month_event self clock reminder with
  | inl _ => s
  | inr next_event =>
  match minus_days next_event 1 with
  | inl _ => s
  | inr run_dt_1 =>
  match _schedule_offset_job reminder run_dt_1 1 s with
  | (inl _, s) => s
  | (inr _, s) =>
  match minus_days next_event 2 with
  | inl _ => s
  | inr run_dt_2 => snd (_schedule_offset_job reminder run_dt_2 2 s)
  end end end end.

(** The loop [for offset in [0, 1, 2]] at the head of
    [_schedule_single_reminder] that drops the reminder's old jobs. *)
Definition remove_offset_jobs (reminder : Db.Reminder) (s : Scheduler)
  : Scheduler :=
  foldl (fun s offset => try_remove_job (offset_job_id reminder offset) s)
        s [0; 1; 2]%nat.

(** [_schedule_single_reminder]. Only the [once] branch catches what its
    trigger raises: a cron trigger that is refused ends the call after
    the old jobs were dropped. *)
Definition _schedule_single_reminder (self : ReminderBot) (clock : Clock)
    (reminder : Db.Reminder) (s : Scheduler) : result unit * Scheduler :=
  let user_timezone := default "Asia/Ho_Chi_Minh" (Db.timezone reminder) in
  let s := remove_offset_jobs reminder s in
  let '(hour, minute) := notify_hm self in
  match
    match pytz_timezone user_timezone with
    | inl UnknownTimeZoneError => pytz_timezone "Asia/Ho_Chi_Minh"
    | r => r
    end
  with
  | inl e => (inl e, s)
  | inr tz =>
  let job_args := (Db.user_id reminder, reminder, 0%nat) in
  if String.eqb (Db.frequency reminder) "once" then
    let now := clock tz in
    match
      match once_run_date now (Db.day reminder) hour minute with
      | inl e => (inl e, s)
      | inr run_date => once_jobs user_timezone reminder run_date s
      end
    with
    | (inl UnknownTimeZoneError, s) | (inl ValueError, s) => (ret tt, s)
    | r => r
    end
  else if String.eqb (Db.frequency reminder) "daily" then
    match new_CronTrigger hour minute None None tz with
    | inl e => (inl e, s)
    | inr trigger =>
        (ret tt,
         add_job (offset_job_id reminder 0) (mkJob trigger job_args 300) s)
    end
  else if String.eqb (Db.frequency reminder) "weekly" then
    match new_CronTrigger hour minute (Some "0") None tz with
    | inl e => (inl e, s)
    | inr trigger =>
        (ret tt,
         add_job (offset_job_id reminder 0) (mkJob trigger job_args 300) s)
    end
  else if String.eqb (Db.frequency reminder) "monthly" then
    match
      new_CronTrigger hour minute None
                      (Some (default (VStr "*") (Db.day reminder))) tz
    with
    | inl e => (inl e, s)
    | inr trigger =>
        let s :=
          add_job (offset_job_id reminder 0) (mkJob trigger job_args 300) s in
        (ret tt, monthly_offsets self clock reminder s)
    end
  else (ret tt, s)
  end.

(** The offsets among 0, 1 and 2 under which the registry holds a job of
    [reminder]. *)
Definition installed_offsets (reminder : Db.Reminder) (s : Scheduler)
  : list nat :=
  List.filter
    (fun offset =>
       bool_decide (is_Some (s !! offset_job_id reminder offset)))
    [0; 1; 2]%nat.

(** *** Firing callback *)

Inductive Title : Type := TwoDaysLeft | OneDayLeft | DueToday.

(** What [send_message] is asked to deliver; the wording of the text is
    left out, its parts are kept. *)
Record Notification : Type := mkNotification {
  chat_id : PyVal;
  title : Title;
  reminder_text : string;
  reminder_frequency : string
}.

Record World : Type := mkWorld {
  db : Db.Database;
  scheduler : Scheduler;
  sent : list Notification
}.

(** The loop over [scheduler.get_jobs()] that removes the jobs whose id
    starts with [prefix]. *)
Definition remove_jobs_with_prefix (prefix : string) (s : Scheduler)
  : Scheduler :=
  foldl (fun s job =>
           if Py.startswith (fst job) prefix
           then try_remove_job (fst job) s else s)
        s (map_to_list s).

(** [send_reminder_job]. [send] is what [send_message] did (it raises
    [TelegramError] when the transport fails) and [stamp] the time
    written to the log. *)
Definition send_reminder_job (self : ReminderBot) (clock : Clock)
    (send : result unit) (stamp : string) (user_id : PyVal)
    (reminder : Db.Reminder) (offset_days : nat) (w : World) : World :=
  let title :=
    if (offset_days =? 2)%nat then TwoDaysLeft
    else if (offset_days =? 1)%nat then OneDayLeft
    else DueToday in
  match send with
  | inl _ => w
  | inr _ =>
  let w :=
    {| db := Db.log_reminder_sent (db w) (Db.id reminder) user_id stamp;
       scheduler := scheduler w;
       sent := sent w ++
               [mkNotification user_id title (Db.text reminder)
                               (Db.frequency reminder)] |} in
  let w :=
    if String.eqb (Db.frequency reminder) "once" && (offset_days =? 0)%nat
    then
      {| db := snd (Db.delete_reminder (db w) (Db.id reminder));
         scheduler :=
           remove_jobs_with_prefix (job_prefix reminder) (scheduler w);
         sent := sent w |}
    else w in
  if String.eqb (Db.frequency reminder) "monthly" then
    match _compute_next_month_event self clock reminder with
    | inl _ => w
    | inr next_event =>
    match minus_days next_event offset_days with
    | inl _ => w
    | inr run_dt =>
        {| db := db w;
           scheduler :=
             snd (_schedule_offset_job reminder run_dt offset_days
                                       (scheduler w));
           sent := sent w |}
    end end
  else w
  end.

(** [_reminder_due_today] *)
Definition _reminder_due_today (self : ReminderBot) (clock : Clock)
    (reminder : Db.Reminder) : result bool :=
  let tz_name := default "Asia/Ho_Chi_Minh" (Db.timezone reminder) in
  let tz :=
    match pytz_timezone tz_name with
    | inr tz => tz
    | inl _ => vn_tz self
    end in
  let now := clock tz in
  let today := date now in
  let frequency := Py.lower (Db.frequency reminder) in
  if String.eqb frequency "daily" then ret true
  else if String.eqb frequency "weekly" then ret (weekday now =? 0)
  else if String.eqb frequency "monthly" || String.eqb frequency "once" then
    match _compute_next_month_event self clock reminder with
    | inl _ => ret false
    | inr next_event =>
        try! d1 <- minus_days next_event 1 ;;
        try! d2 <- minus_days next_event 2 ;;
        ret (existsb
               (fun d => match d, today with
                         | (y, m, dd), (y', m', dd') =>
                             (y =? y') && (m =? m') && (dd =? dd')
                         end)
               [date next_event; date d1; date d2])
    end
  else ret false.

End Zones.

(** *** Creation dialogue *)

(** [freq_map.get(query.data, 'once')] in [frequency_handler]: the
    frequency a new reminder is created with. *)
Definition freq_map_get (data : string) : string :=
  if String.eqb data "freq_once" then "once"
  else if String.eqb data "freq_daily" then "daily"
  else if String.eqb data "freq_weekly" then "weekly"
  else if String.eqb data "freq_monthly" then "monthly"
  else "once".

(** *** Active-window controller *)

(** [asyncio.Task]: [Pending] while [done()] is false. *)
Inductive Task : Type := Pending | Finished.

(** The calls that open or close the receive loop or touch the inactivity
    waiter, oldest first. *)
Inductive Event : Type :=
| StartPolling
| StopPolling
| CancelTimer
| ArmTimer.

Record Polling : Type := mkPolling {
  running : bool;
  last_activity_vn : option datetime;
  inactivity_task : option Task;
  peek_offset : option Z;
  events : list Event
}.

Definition set_running (b : bool) (e : Event) (st : Polling) : Polling :=
  {| running := b;
     last_activity_vn := last_activity_vn st;
     inactivity_task := inactivity_task st;
     peek_offset := peek_offset st;
     events := events st ++ [e] |}.

(** [task.cancel()] on the outstanding waiter, when there is one *)
Definition cancel_pending (st : Polling) : Polling :=
  match inactivity_task st with
  | Some Pending =>
      {| running := running st;
         last_activity_vn := last_activity_vn st;
         inactivity_task := Some Finished;
         peek_offset := peek_offset st;
         events := events st ++ [CancelTimer] |}
  | _ => st
  end.

(** [_is_active_hours] called without argument *)
Definition _is_active_hours (self : ReminderBot) (clock : Clock)
  : result bool :=
  if debug_always_on self then ret true
  else
    let now_vn := clock (vn_tz self) in
    let '(sh, sm) := active_start_hm self in
    let '(eh, em) := active_end_hm self in
    try! start <- replace now_vn None None None (Some sh) (Some sm)
                          (Some 0) (Some 0) ;;
    try! end_ <- replace now_vn None None None (Some eh) (Some em)
                         (Some 0) (Some 0) ;;
    ret (leb start now_vn && ltb now_vn end_).

(** [_start_polling_if_needed], run under the polling lock *)
Definition _start_polling_if_needed (self : ReminderBot) (clock : Clock)
    (source : string) (st : Polling) : result unit * Polling :=
  if running st then (ret tt, st)
  else
    let st := set_running true StartPolling st in
    match _is_active_hours self clock with
    | inl e => (inl e, st)
    | inr true => (ret tt, cancel_pending st)
    | inr false => (ret tt, st)
    end.

(** [_stop_polling_if_needed], run under the polling lock *)
Definition _stop_polling_if_needed (self : ReminderBot) (clock : Clock)
    (reason : string) (st : Polling) : result unit * Polling :=
  if negb (running st) then (ret tt, st)
  else
    match _is_active_hours self clock with
    | inl e => (inl e, st)
    | inr true => (ret tt, st)
    | inr false => (ret tt, set_running false StopPolling st)
    end.

(** [_schedule_inactivity_timer] *)
Definition _schedule_inactivity_timer (st : Polling) : Polling :=
  let st := cancel_pending st in
  {| running := running st;
     last_activity_vn := last_activity_vn st;
     inactivity_task := Some Pending;
     peek_offset := peek_offset st;
     events := events st ++ [ArmTimer] |}.

(** [_register_activity] *)
Definition _register_activity (self : ReminderBot) (clock : Clock)
    (st : Polling) : result unit * Polling :=
  let now := clock (vn_tz self) in
  let st := {| running := running st;
               last_activity_vn := Some now;
               inactivity_task := inactivity_task st;
               peek_offset := peek_offset st;
               events := events st |} in
  match _is_active_hours self clock with
  | inl e => (inl e, st)
  | inr false => (ret tt, _schedule_inactivity_timer st)
  | inr true => (ret tt, st)
  end.

(** [_wake_job] and [_sleep_job]: the clock-driven requests; an exception
    is logged and dropped. *)
Definition _wake_job (self : ReminderBot) (clock : Clock) (st : Polling)
  : Polling := snd (_start_polling_if_needed self clock "schedule" st).

Definition _sleep_job (self : ReminderBot) (clock : Clock) (st : Polling)
  : Polling := snd (_stop_polling_if_needed self clock "schedule" st).

(** The waiter finished (returned or died with an exception). *)
Definition task_done (st : Polling) : Polling :=
  {| running := running st;
     last_activity_vn := last_activity_vn st;
     inactivity_task := Some Finished;
     peek_offset := peek_offset st;
     events := events st |}.

(** [_inactivity_countdown]: one wake-up of the waiter per clock reading in
    [clocks]; when they run out the waiter is still asleep. The length of
    each nap (between 1 and 30 seconds) is not modelled. *)
Fixpoint _inactivity_countdown (self : ReminderBot) (clocks : list Clock)
    (st : Polling) : Polling :=
  match clocks with
  | [] => st
  | clock :: clocks =>
      match last_activity_vn st with
      | None => task_done st
      | Some last_activity =>
          match plus_minutes last_activity (inactivity_minutes self) with
          | inl _ => task_done st
          | inr wake_deadline =>
              let now := clock (vn_tz self) in
              if leb wake_deadline now then
                task_done (snd (_stop_polling_if_needed self clock
                                                        "timeout" st))
              else
                match _is_active_hours self clock with
                | inr false => _inactivity_countdown self clocks st
                | _ => task_done st
                end
          end
      end
  end.

(** The openings and closings of the receive loop among the events. *)
Definition transitions (evs : list Event) : list Event :=
  List.filter (fun e => match e with
                        | StartPolling | StopPolling => true
                        | _ => false
                        end) evs.

(** An inbound item as the probe sees it. *)
Record Update : Type := mkUpdate { update_id : Z }.

(** [bot.get_updates(offset=..., limit=..., timeout=0)]: the messaging
    collaborator. It raises [TelegramError] when the transport fails. *)
Definition GetUpdates : Type := option Z -> nat -> result (list Update).

(** The collaborator's contract on a queue of waiting items, oldest first:
    the first [limit] items from [offset] on, nothing consumed. *)
Definition get_updates (waiting : list Update) : GetUpdates :=
  fun offset limit =>
    ret (take limit
           (List.filter (fun u => match offset with
                                  | Some o => o <=? update_id u
                                  | None => true
                                  end) waiting)).

(** [_peek_updates_job]. The three clocks are the readings at the window
    test, inside the wake and at the activity event. The second component
    is what the probe observed: the items [get_updates] returned, nothing
    when the call was not made or failed. *)
Definition _peek_updates_job (self : ReminderBot)
    (clock clock_wake clock_activity : Clock) (api : GetUpdates)
    (st : Polling) : Polling * list Update :=
  match _is_active_hours self clock with
  | inl _ => (st, [])
  | inr true => (st, [])
  | inr false =>
      if running st then (st, [])
      else
        let offset :=
          match peek_offset st with
          | Some o => if o =? 0 then None else Some (o + 1)
          | None => None
          end in
        match api offset 1%nat with
        | inl _ => (st, [])
        | inr updates =>
            match last updates with
            | None => (st, updates)
            | Some u =>
                let last_id := update_id u in
                let st := {| running := running st;
                             last_activity_vn := last_activity_vn st;
                             inactivity_task := inactivity_task st;
                             peek_offset := Some last_id;
                             events := events st |} in
                match _start_polling_if_needed self clock_wake "message" st
                with
                | (inl _, st) => (st, updates)
                | (inr _, st) =>
                    (snd (_register_activity self clock_activity st), updates)
                end
            end
        end
  end.

End Bot.

(** ** The rest of the store: users and send history in [src/database.py]

    The [Users] sheet is a state of its own, passed explicitly. *)

Module DbRest.

(** A row of the [Users] sheet, in the column order [add_user] writes. *)
Record User : Type := mkUser {
  id : PyVal;
  first_name : string;
  joined_at : string;
  timezone : string
}.

(** [_normalize_user_id]: [int(value)], [None] when that raises. *)
Definition _normalize_user_id (value : PyVal) : option Z :=
  match value with
  | VNone => None
  | VBool b => Some (if b then 1 else 0)
  | VInt z => Some z
  | VStr s => Py.int_of_string s
  end.

(** [user_id in user_ids] for the set of normalised ids of the sheet *)
Definition known_user (users : list User) (user_id : Z) : bool :=
  existsb (fun u => match _normalize_user_id (id u) with
                    | Some z => z =? user_id
                    | None => false
                    end) users.

(** [add_user]; [stamp] is [datetime.now().isoformat()]. *)
Definition add_user (users : list User) (user_id : Z)
    (first_name stamp : string) : list User :=
  if known_user users user_id then users
  else users ++ [mkUser (VInt user_id) first_name stamp "Asia/Ho_Chi_Minh"].

(** [users_sheet.find(str(user_id), in_column=1)]: the first data row whose
    first cell shows the id. *)
Fixpoint find_user (shown : string) (users : list User) : option nat :=
  match users with
  | [] => None
  | u :: t =>
      if String.eqb (Py.str (id u)) shown then Some O
      else S <$> find_user shown t
  end.

(** [get_user_timezone]. [row_values] drops the trailing blank cells of a
    row, so reading the fourth cell of a row whose zone is blank raises
    [IndexError]; that is the outer [None]. *)
Definition get_user_timezone (users : list User) (user_id : Z)
  : option string :=
  match find_user (Py.Z_to_string user_id) users with
  | Some i =>
      match users !! i with
      | Some u =>
          if String.eqb (timezone u) "" then None else Some (timezone u)
      | None => Some "UTC"
      end
  | None => Some "UTC"
  end.

(** [set_user_timezone] *)
Definition set_user_timezone (users : list User) (user_id : Z)
    (tz : string) : list User :=
  match find_user (Py.Z_to_string user_id) users with
  | Some i =>
      alter (fun u => mkUser (id u) (first_name u) (joined_at u) tz) i users
  | None => users
  end.

(** [get_user_reminders] *)
Definition get_user_reminders (db : Db.Database) (user_id : Z)
  : list Db.Reminder :=
  List.filter
    (fun r => match _normalize_user_id (Db.user_id r) with
              | Some z => z =? user_id
              | None => false
              end)
    (Db.reminders_sheet db).

(** [get_reminder_history] *)
Definition get_reminder_history (db : Db.Database) (reminder_id : PyVal)
  : list Db.LogRow :=
  let reminder_id := Py.strip (Py.str reminder_id) in
  List.filter
    (fun log =>
       String.eqb (Py.strip (Py.str (Db.log_reminder_id log))) reminder_id)
    (Db.logs_sheet db).

End DbRest.

(** ** Further methods of [src/bot.py] *)

Module BotRest.

Import Bot.

(** [f"{n:02d}"] *)
Definition format_02d (n : Z) : string :=
  let s := Py.Z_to_string n in
  if (String.length s <? 2)%nat then "0" +:+ s else s.

(** [_default_time_str] *)
Definition _default_time_str (self : ReminderBot) : string :=
  let '(hour, minute) := notify_hm self in
  format_02d hour +:+ ":" +:+ format_02d minute.

(** [_pre_sleep_hm] *)
Definition _pre_sleep_hm (self : ReminderBot) : Z * Z :=
  let '(eh, em) := active_end_hm self in
  if em =? 0 then ((eh - 1) mod 24, 59) else (eh, em - 1).

(** [_parse_user_id]: [int(str(value).strip())], [None] when that raises. *)
Definition _parse_user_id (value : PyVal) : option Z :=
  Py.int_of_string (Py.strip (Py.str value)).

(** [set.add] on a set kept in ascending order *)
Fixpoint set_add (z : Z) (l : list Z) : list Z :=
  match l with
  | [] => [z]
  | x :: t =>
      if z <? x then z :: l
      else if z =? x then l
      else x :: set_add z t
  end.

(** [sorted(set(l))] *)
Definition sorted_set (l : list Z) : list Z := foldr set_add [] l.

(** [_get_all_user_ids]; [reminders] is the optional argument. *)
Definition _get_all_user_ids (users : list DbRest.User) (db : Db.Database)
    (reminders : option (list Db.Reminder)) : list Z :=
  let from_users := omap (fun u => _parse_user_id (DbRest.id u)) users in
  let reminders :=
    match reminders with
    | Some rs => rs
    | None => Db.get_all_active_reminders db
    end in
  let from_reminders :=
    omap (fun r => _parse_user_id (Db.user_id r)) reminders in
  sorted_set (from_users ++ from_reminders).

(** The validation in [reminder_day_handler]: the day kept for the new
    reminder, or [None] when the user is asked again. *)
Definition accept_day (day_str : string) : option Z :=
  match Py.int_of_string day_str with
  | Some day => if (1 <=? day) && (day <=? 31) then Some day else None
  | None => None
  end.

Section Zones.

Variable known_zone : string -> bool.
Variable cron_text : string -> string -> bool.

(** [any(self._reminder_due_today(r) for r in user_reminders)]: it stops
    at the first reminder that is due, and an exception ends it. *)
Fixpoint any_due_today (self : ReminderBot) (clock : Clock)
    (user_reminders : list Db.Reminder) : result bool :=
  match user_reminders with
  | [] => ret false
  | r :: rest =>
      match _reminder_due_today known_zone self clock r with
      | inl e => inl e
      | inr true => ret true
      | inr false => any_due_today self clock rest
      end
  end.

(** [reminders_by_user.get(user_id, [])] *)
Definition reminders_by_user (reminders : list Db.Reminder) (user_id : Z)
  : list Db.Reminder :=
  List.filter
    (fun r => match _parse_user_id (Db.user_id r) with
              | Some z => z =? user_id
              | None => false
              end) reminders.

(** The loop of [_daily_no_reminders_job] over the user ids: the chat ids
    the status message is sent to, in order, and how the loop ended. A
    failed send is logged and the loop goes on. *)
Fixpoint status_round (self : ReminderBot) (clock : Clock)
    (reminders : list Db.Reminder) (user_ids : list Z)
  : list Z * result unit :=
  match user_ids with
  | [] => ([], ret tt)
  | user_id :: rest =>
      match any_due_today self clock (reminders_by_user reminders user_id)
      with
      | inl e => ([], inl e)
      | inr true => status_round self clock reminders rest
      | inr false =>
          let '(sent, r) := status_round self clock reminders rest in
          (user_id :: sent, r)
      end
  end.

(** [_daily_no_reminders_job] *)
Definition _daily_no_reminders_job (self : ReminderBot) (clock : Clock)
    (users : list DbRest.User) (db : Db.Database) : list Z * result unit :=
  let reminders := Db.get_all_active_reminders db in
  status_round self clock reminders
               (_get_all_user_ids users db (Some reminders)).

(** The loop of [schedule_reminders] over [reminders]; [clock_at i] is the
    clock the [i]-th call reads. An exception leaves the loop. *)
Fixpoint schedule_loop (self : ReminderBot) (clock_at : nat -> Clock)
    (i : nat) (reminders : list Db.Reminder) (s : Scheduler)
  : result unit * Scheduler :=
  match reminders with
  | [] => (ret tt, s)
  | reminder :: rest =>
      match
        _schedule_single_reminder known_zone cron_text self (clock_at i) reminder s
      with
      | (inl e, s) => (inl e, s)
      | (inr _, s) => schedule_loop self clock_at (S i) rest s
      end
  end.

(** [schedule_reminders] up to its last line: the housekeeping jobs that
    line adds run other callbacks and are not entries of this registry. *)
Definition schedule_reminders (self : ReminderBot) (clock_at : nat -> Clock)
    (db : Db.Database) (s : Scheduler) : result unit * Scheduler :=
  schedule_loop self clock_at 0 (Db.get_all_active_reminders db) s.

End Zones.

End BotRest.

(** ** Sample data

    Concrete inputs on which the properties below are exercised. *)

Module Samples.

Import Bot.

(** A zone database that knows two names. *)
Definition zones (name : string) : bool :=
  String.eqb name "Asia/Ho_Chi_Minh" || String.eqb name "UTC".

(** A scheduler library that, of the expressions in words, knows [last]
    for the day of the month. *)
Definition expressions (name expr : string) : bool :=
  String.eqb name "day" && String.eqb expr "last".

(** The bot [__init__] builds when both environment flags are unset. *)
Definition bot : ReminderBot :=
  mkBot (TZ "Asia/Ho_Chi_Minh") false false (7, 30) (7, 40) (7, 35) 3.

(** A clock that reads [dt] in every zone. *)
Definition reads (dt : Cal.datetime) : Clock := fun _ => dt.

(** Reminder 7 of user 100. *)
Definition reminder (day : Z) (frequency timezone : string) : Db.Reminder :=
  Db.mkReminder (VInt 7) (VInt 100) "rent" (Some (VInt day)) "07:35"
                frequency (Some timezone) (VStr "TRUE")
                "2024-01-01T00:00:00" "".

Definition store (r : Db.Reminder) : Db.Database :=
  Db.mkDatabase [r] [] [].

(** The loop closed, nothing seen yet. *)
Definition asleep : Polling := mkPolling false None None None [].

(** The loop open. *)
Definition awake : Polling := mkPolling true None None None [StartPolling].

(** Reminder 8 of the same user, due every day. *)
Definition other : Db.Reminder :=
  Db.mkReminder (VInt 8) (VInt 100) "water" (Some (VInt 3)) "07:35"
                "daily" (Some "UTC") (VStr "TRUE")
                "2024-02-01T00:00:00" "".

(** Both reminders stored and scheduled on 2024-05-10 at 09:00, reminder 7
    with frequency [frequency]. *)
Definition world (frequency : string) : World :=
  let clock := reads (Cal.mkdt 2024 5 10 9 0 0 0) in
  let r := reminder 15 frequency "UTC" in
  mkWorld
    (Db.mkDatabase [r; other] [] [])
    (snd (_schedule_single_reminder zones expressions bot clock other
            (snd (_schedule_single_reminder zones expressions bot clock r ∅))))
    [].

End Samples.

(** ** More sample data *)

Module MoreSamples.

Import Bot.

(** The [Users] sheet with two users; the id of the second was typed as
    text. *)
Definition users : list DbRest.User :=
  [DbRest.mkUser (VInt 100) "An" "2024-01-01T00:00:00" "Asia/Ho_Chi_Minh";
   DbRest.mkUser (VStr "200") "Binh" "2024-02-01T00:00:00" "UTC"].

(** Reminder 9 of user 300, due on the 20th of every month. *)
Definition third : Db.Reminder :=
  Db.mkReminder (VInt 9) (VInt 300) "power" (Some (VInt 20)) "07:35"
                "monthly" (Some "UTC") (VStr "TRUE")
                "2024-03-01T00:00:00" "".

(** Reminders 7 (monthly, the 15th) and 8 (daily) of user 100 and
    reminder 9 of user 300. *)
Definition book : Db.Database :=
  Db.mkDatabase [Samples.reminder 15 "monthly" "UTC"; Samples.other; third]
                [] [].

(** Reminder 10 of user 100, the owner cell typed as text. *)
Definition typed : Db.Reminder :=
  Db.mkReminder (VInt 10) (VStr "100") "gas" (Some (VInt 5)) "07:35"
                "daily" (Some "UTC") (VStr "TRUE")
                "2024-04-01T00:00:00" "".

Definition typed_book : Db.Database :=
  Db.mkDatabase [Samples.other; typed] [] [].

(** The loop open, the last activity seen at 22:00. *)
Definition active_at_22 : Polling :=
  mkPolling true (Some (Cal.mkdt 2024 5 14 22 0 0 0)) (Some Pending) None
            [StartPolling; ArmTimer].

End MoreSamples.

(** * Properties *)

(** ** Strings *)

Module StringFacts.

#[local] Arguments String.append !_ _ / : simpl nomatch.

Lemma split_nonempty (sep : ascii) (s : string) : Py.split sep s <> [].
Proof.
  destruct s as [|c t]; simpl; [discriminate|].
  destruct (Ascii.eqb c sep); [discriminate|].
  destruct (Py.split sep t); discriminate.
Qed.

Lemma split_one (sep : ascii) (s b : string) :
  Py.split sep s = [b] -> s = b.
Proof.
  revert b. induction s as [|c t IH]; intros b; simpl.
  - intros [= <-]. reflexivity.
  - destruct (Ascii.eqb c sep).
    + intros [= _ H]. now apply split_nonempty in H.
    + destruct (Py.split sep t) as [|p ps] eqn:E.
      * now apply split_nonempty in E.
      * intros [= <- ->]. f_equal. now apply IH.
Qed.

Lemma split_two (sep : ascii) (s a b : string) :
  Py.split sep s = [a; b] -> s = a +:+ String sep b.
Proof.
  revert a. induction s as [|c t IH]; intros a; simpl.
  - discriminate.
  - destruct (Ascii.eqb c sep) eqn:Ec.
    + apply Ascii.eqb_eq in Ec. subst c.
      intros [= <- H]. apply split_one in H. now subst.
    + destruct (Py.split sep t) as [|p ps] eqn:E.
      * discriminate.
      * intros [= <- ->]. simpl. now rewrite (IH p eq_refl).
Qed.

Lemma prefix_append (p s : string) : String.prefix p (p +:+ s) = true.
Proof.
  induction p as [|c p IH]; simpl.
  - now destruct s.
  - destruct (ascii_dec c c); [exact IH | congruence].
Qed.

Lemma append_assoc (a b c : string) : (a +:+ b) +:+ c = a +:+ (b +:+ c).
Proof. induction a as [|x a IH]; simpl; [reflexivity | now rewrite IH]. Qed.

Lemma append_inj_l (p a b : string) : p +:+ a = p +:+ b -> a = b.
Proof. induction p as [|c p IH]; simpl; [auto | intros [= H]; auto]. Qed.

Lemma byte_range (a : ascii) : 0 <= Py.byte a < 256.
Proof.
  unfold Py.byte. pose proof (N_ascii_bounded a). lia.
Qed.

Lemma chr_byte (a : ascii) : Py.chr (Py.byte a) = a.
Proof.
  unfold Py.chr, Py.byte. rewrite N2Z.id. apply ascii_N_embedding.
Qed.

Lemma points_ascii_head (a : ascii) (t : string) :
  Py.byte a < 128 -> Py.points (String a t) = Py.byte a :: Py.points t.
Proof.
  intros H. cbn [Py.points]. cbv zeta.
  destruct (Z.ltb_spec (Py.byte a) 128); [reflexivity | lia].
Qed.

(** The code points of a text in ASCII are its bytes. *)
Lemma points_ascii (s : string) :
  Forall (fun a => Py.byte a < 128) (list_ascii_of_string s) ->
  Py.points s = map Py.byte (list_ascii_of_string s).
Proof.
  induction s as [|a t IH]; [reflexivity|].
  cbn [list_ascii_of_string map]. intros H.
  apply Forall_cons_1 in H as [Ha Ht].
  rewrite (points_ascii_head a t Ha), (IH Ht). reflexivity.
Qed.

Lemma text_ascii (s : string) :
  Forall (fun a => Py.byte a < 128) (list_ascii_of_string s) ->
  Py.text (map Py.byte (list_ascii_of_string s)) = s.
Proof.
  induction s as [|a t IH]; [reflexivity|].
  cbn [list_ascii_of_string map Py.text fold_right]. intros H.
  apply Forall_cons_1 in H as [Ha Ht].
  change (fold_right (fun p s => Py.encode p +:+ s) EmptyString
            (map Py.byte (list_ascii_of_string t)))
    with (Py.text (map Py.byte (list_ascii_of_string t))).
  rewrite (IH Ht). unfold Py.encode.
  pose proof (byte_range a).
  destruct (Z.ltb_spec (Py.byte a) 0); [lia|].
  destruct (Z.ltb_spec (Py.byte a) 128); [|lia].
  rewrite chr_byte. reflexivity.
Qed.

(** An ASCII character of a text is one of its code points: the bytes of
    a longer sequence are all beyond ASCII. *)
Lemma points_keep_ascii (c : ascii) (n : nat) (s : string) :
  (String.length s <= n)%nat ->
  Py.byte c < 128 -> In c (list_ascii_of_string s) ->
  In (Py.byte c) (Py.points s).
Proof.
  intros Hn Hc. revert s Hn.
  induction n as [|n IH]; intros s Hn.
  { destruct s; [intros [] | simpl in Hn; lia]. }
  destruct s as [|a0 t0]; [intros []|].
  cbn [String.length] in Hn.
  assert (H0 : forall s', (String.length s' <= String.length t0)%nat ->
                 In c (list_ascii_of_string s') ->
                 In (Py.byte c) (Py.points s')).
  { intros s' Hs'. apply IH. lia. }
  cbn [Py.points]. cbv zeta.
  destruct (Z.ltb_spec (Py.byte a0) 128) as [Ha|Ha].
  { intros [<- | Hin]; [now left | right; apply H0; auto]. }
  assert (Halone : In c (list_ascii_of_string (String a0 t0)) ->
                   In (Py.byte c) (- Py.byte a0 :: Py.points t0)).
  { intros [<- | Hin]; [lia | right; apply H0; auto]. }
  destruct t0 as [|a1 t1]; [exact Halone|].
  destruct (_ && Py.continues (Py.byte a1)) eqn:E2.
  { apply andb_true_iff in E2 as [_ E2]. unfold Py.continues in E2.
    apply andb_true_iff in E2 as [E2 _]. apply Z.leb_le in E2.
    intros [<- | [<- | Hin]]; [lia | lia |].
    right. apply H0; [cbn [String.length]; lia | auto]. }
  clear E2.
  destruct t1 as [|a2 t2]; [exact Halone|].
  match goal with |- context [if ?b then _ else _] => destruct b eqn:E3 end.
  { rewrite !andb_true_iff in E3.
    destruct E3 as [[[[[_ _] E1] E2] _] _].
    unfold Py.continues in E1, E2.
    apply andb_true_iff in E1 as [E1 _]. apply Z.leb_le in E1.
    apply andb_true_iff in E2 as [E2 _]. apply Z.leb_le in E2.
    intros [<- | [<- | [<- | Hin]]]; [lia | lia | lia |].
    right. apply H0; [cbn [String.length]; lia | auto]. }
  clear E3.
  destruct t2 as [|a3 t3]; [exact Halone|].
  match goal with |- context [if ?b then _ else _] => destruct b eqn:E4 end;
    [|exact Halone].
  rewrite !andb_true_iff in E4.
  destruct E4 as [[[[[[_ _] E1] E2] E3] _] _].
  unfold Py.continues in E1, E2, E3.
  apply andb_true_iff in E1 as [E1 _]. apply Z.leb_le in E1.
  apply andb_true_iff in E2 as [E2 _]. apply Z.leb_le in E2.
  apply andb_true_iff in E3 as [E3 _]. apply Z.leb_le in E3.
  intros [<- | [<- | [<- | [<- | Hin]]]]; [lia | lia | lia | lia |].
  right. apply H0; [cbn [String.length]; lia | auto].
Qed.

Lemma drop_blanks_In (blank : Z -> bool) (l : list Z) (p : Z) :
  In p l -> blank p = true \/ In p (Py.drop_blanks blank l).
Proof.
  induction l as [|a t IH]; [intros []|].
  cbn [Py.drop_blanks]. intros [<- | H].
  - destruct (blank a) eqn:E; [auto | right; now left].
  - destruct (blank a) eqn:E; [auto | right; now right].
Qed.

Lemma trim_In (blank : Z -> bool) (l : list Z) (p : Z) :
  In p l -> blank p = true \/ In p (Py.trim blank l).
Proof.
  intros H. unfold Py.trim.
  destruct (drop_blanks_In blank l p H) as [|H1]; [auto|].
  apply in_rev in H1.
  destruct (drop_blanks_In blank _ p H1) as [|H2]; [auto|].
  right. now apply in_rev in H2.
Qed.

Lemma drop_blanks_clean (blank : Z -> bool) (l : list Z) :
  Forall (fun p => blank p = false) l -> Py.drop_blanks blank l = l.
Proof.
  destruct l as [|a t]; [reflexivity|]. intros H.
  apply Forall_cons_1 in H as [Ha _]. cbn [Py.drop_blanks]. now rewrite Ha.
Qed.

Lemma trim_clean (blank : Z -> bool) (l : list Z) :
  Forall (fun p => blank p = false) l -> Py.trim blank l = l.
Proof.
  intros H. unfold Py.trim. rewrite (drop_blanks_clean blank l H).
  rewrite drop_blanks_clean; [apply rev_involutive|].
  apply Forall_forall. intros p Hp. apply list_elem_of_In, in_rev in Hp.
  rewrite Forall_forall in H. apply H. now apply list_elem_of_In.
Qed.

Lemma digits_points (acc : Z) (prev : bool) (l : list Z) (z : Z) :
  Py.digits acc prev l = Some z -> ~ In 58 l.
Proof.
  revert acc prev. induction l as [|p t IH]; intros acc prev; [tauto|].
  cbn [Py.digits]. intros H [-> | Hin].
  - vm_compute in H. discriminate.
  - revert H. destruct (Py.decimal_of p).
    + intros H. exact (IH _ _ H Hin).
    + destruct ((p =? 95) && prev); [|discriminate].
      intros H. exact (IH _ _ H Hin).
Qed.

(** What [int] reads as a number holds no colon. *)
Lemma int_of_string_chars (s : string) (z : Z) (c : ascii) :
  Py.int_of_string s = Some z -> In c (list_ascii_of_string s) ->
  c <> ":"%char.
Proof.
  unfold Py.int_of_string. intros H Hin ->.
  apply (points_keep_ascii _ (String.length s)) in Hin;
    [|lia | vm_compute; reflexivity].
  change (Py.byte ":") with 58 in Hin.
  destruct (trim_In Py.int_space _ _ Hin) as [Hs | Hin1]; [discriminate|].
  destruct (Py.trim Py.int_space (Py.points s)) as [|p t]; [discriminate|].
  destruct (Z.eqb_spec p 43) as [-> | _].
  { destruct Hin1 as [|Hin1]; [discriminate|].
    exact (digits_points _ _ _ _ H Hin1). }
  destruct (Z.eqb_spec p 45) as [-> | _].
  { destruct Hin1 as [|Hin1]; [discriminate|].
    destruct (Py.digits 0 false t) eqn:E; [|discriminate].
    exact (digits_points _ _ _ _ E Hin1). }
  exact (digits_points _ _ _ _ H Hin1).
Qed.

Lemma split_no_sep (sep : ascii) (s : string) :
  ~ In sep (list_ascii_of_string s) -> Py.split sep s = [s].
Proof.
  induction s as [|a t IH]; simpl; [reflexivity|].
  intros H. destruct (Ascii.eqb_spec a sep); [tauto|].
  rewrite IH; tauto.
Qed.

Lemma split_app (sep : ascii) (s t : string) :
  ~ In sep (list_ascii_of_string s) ->
  Py.split sep (s +:+ String sep t) = s :: Py.split sep t.
Proof.
  induction s as [|a u IH]; simpl.
  - intros _. now rewrite Ascii.eqb_refl.
  - intros H. destruct (Ascii.eqb_spec a sep); [tauto|].
    rewrite IH; tauto.
Qed.

(** The characters of a printed number: a minus sign and digits. *)
Lemma uint_chars (d : Decimal.uint) :
  Forall (fun a => 48 <= Py.byte a <= 57)
         (list_ascii_of_string (NilEmpty.string_of_uint d)).
Proof.
  induction d; cbn [NilEmpty.string_of_uint list_ascii_of_string];
    constructor; auto; vm_compute; split; discriminate.
Qed.

Lemma Z_to_string_chars (z : Z) :
  Forall (fun a => Py.byte a = 45 \/ 48 <= Py.byte a <= 57)
         (list_ascii_of_string (Py.Z_to_string z)).
Proof.
  assert (Hu : forall d,
             Forall (fun a => Py.byte a = 45 \/ 48 <= Py.byte a <= 57)
                    (list_ascii_of_string (NilEmpty.string_of_uint d))).
  { intros d. eapply Forall_impl; [apply uint_chars|]. cbv beta. auto. }
  assert (Hn : forall d,
             Forall (fun a => Py.byte a = 45 \/ 48 <= Py.byte a <= 57)
                    (list_ascii_of_string (NilZero.string_of_uint d))).
  { intros d. unfold NilZero.string_of_uint.
    destruct d; try apply Hu.
    cbn [list_ascii_of_string].
    constructor; [right; vm_compute; split; discriminate | constructor]. }
  unfold Py.Z_to_string, NilZero.string_of_int.
  destruct (Z.to_int z) as [d|d]; [apply Hn|].
  cbn [list_ascii_of_string]. constructor; [now left | apply Hn].
Qed.

Lemma Z_to_string_ascii (z : Z) :
  Forall (fun a => Py.byte a < 128) (list_ascii_of_string (Py.Z_to_string z)).
Proof.
  eapply Forall_impl; [apply Z_to_string_chars|]. cbv beta. lia.
Qed.

Lemma sign_or_digit_no_space (p : Z) :
  p = 45 \/ 48 <= p <= 57 ->
  Py.is_space p = false /\ Py.int_space p = false.
Proof.
  intros H.
  assert (E : p = 45 \/ p = 48 \/ p = 49 \/ p = 50 \/ p = 51 \/ p = 52 \/
              p = 53 \/ p = 54 \/ p = 55 \/ p = 56 \/ p = 57) by lia.
  repeat destruct E as [-> | E]; try subst p; split; reflexivity.
Qed.

Lemma Z_to_string_points (z : Z) :
  Py.points (Py.Z_to_string z)
  = map Py.byte (list_ascii_of_string (Py.Z_to_string z)) /\
  Forall (fun p => Py.is_space p = false /\ Py.int_space p = false)
         (Py.points (Py.Z_to_string z)).
Proof.
  rewrite (points_ascii _ (Z_to_string_ascii z)). split; [reflexivity|].
  apply Forall_map. eapply Forall_impl; [apply Z_to_string_chars|].
  cbv beta. intros a. apply sign_or_digit_no_space.
Qed.

(** [str(z).strip() == str(z)] *)
Lemma strip_number (z : Z) : Py.strip (Py.str (VInt z)) = Py.str (VInt z).
Proof.
  cbn [Py.str]. unfold Py.strip.
  destruct (Z_to_string_points z) as [E H].
  rewrite trim_clean.
  - rewrite E. apply text_ascii, Z_to_string_ascii.
  - eapply Forall_impl; [exact H|]. cbv beta. tauto.
Qed.

End StringFacts.

(** ** The manager *)

Module ManagerFacts.

Import Manager.

Lemma validated_is_hour_minute (value : PyVal) :
  _validate_time value = true -> is_hour_minute value.
Proof.
  destruct value as [| |z|s]; simpl; try discriminate.
  destruct (Py.split ":" s) as [|p0 [|p1 [|p2 ps]]] eqn:E; try discriminate.
  destruct (Py.int_of_string p0) as [hour|] eqn:E0; try discriminate.
  destruct (Py.int_of_string p1) as [minute|] eqn:E1; try discriminate.
  intros H. apply StringFacts.split_two in E.
  rewrite !andb_true_iff, !Z.leb_le in H.
  subst s. exists p0, p1, hour, minute. repeat split; auto; lia.
Qed.

Lemma is_hour_minute_validated (value : PyVal) :
  is_hour_minute value -> _validate_time value = true.
Proof.
  intros (sh & sm & hour & minute & -> & Hh & Hm & Rh & Rm). simpl.
  rewrite StringFacts.split_app, StringFacts.split_no_sep.
  - rewrite Hh, Hm. rewrite !andb_true_iff, !Z.leb_le. lia.
  - intros Hin. exact (StringFacts.int_of_string_chars _ _ _ Hm Hin eq_refl).
  - intros Hin. exact (StringFacts.int_of_string_chars _ _ _ Hh Hin eq_refl).
Qed.

(** The check in the code accepts exactly the values of that form. *)
Lemma validate_time_spec (value : PyVal) :
  _validate_time value = true <-> is_hour_minute value.
Proof.
  split; [apply validated_is_hour_minute | apply is_hour_minute_validated].
Qed.

Lemma outside_rejected (updates : Db.Dict) (value : PyVal) :
  Db.dict_get "frequency" updates = Some value ->
  outside_editable_frequencies value ->
  frequency_rejected updates = true.
Proof.
  intros Hget (H1 & H2 & H3). unfold frequency_rejected. rewrite Hget.
  destruct value as [| |z|s]; try reflexivity. simpl.
  destruct (String.eqb_spec s "once"); [congruence|].
  destruct (String.eqb_spec s "daily"); [congruence|].
  destruct (String.eqb_spec s "weekly"); [congruence|].
  reflexivity.
Qed.

(** C9: when no reminder carries the given id, or the stored reminder's
    [user_id] differs from the caller's, [edit_reminder], [delete_reminder]
    and [toggle_reminder] all return [False] and leave the store as it was:
    same rows and no write issued. *)
Theorem foreign_or_missing_reminder_untouched
    (db : Db.Database) (user_id : Z) (reminder_id : PyVal)
    (updates : Db.Dict) :
  Db.get_reminder db reminder_id = None \/
  (exists r, Db.get_reminder db reminder_id = Some r /\
             Py.eqv (Db.user_id r) (VInt user_id) = false) ->
  edit_reminder db user_id reminder_id updates = (false, db) /\
  delete_reminder db user_id reminder_id = (false, db) /\
  toggle_reminder db user_id reminder_id = (false, db).
Proof.
  unfold edit_reminder, delete_reminder, toggle_reminder, not_owned.
  intros [-> | (r & -> & Hne)]; [auto|].
  rewrite Hne. simpl. auto.
Qed.

(** C10: [edit_reminder] returns [False] and issues no store update when
    the updates carry a [time] that is not of the form hour:minute in
    range, or a [frequency] outside once, daily and weekly; in particular
    an edit to [monthly] is always rejected. *)
Theorem edit_rejects_bad_time_or_frequency
    (db : Db.Database) (user_id : Z) (reminder_id : PyVal)
    (updates : Db.Dict) :
  (exists t, Db.dict_get "time" updates = Some t /\ ~ is_hour_minute t) \/
  (exists f, Db.dict_get "frequency" updates = Some f /\
             outside_editable_frequencies f) \/
  Db.dict_get "frequency" updates = Some (VStr "monthly") ->
  edit_reminder db user_id reminder_id updates = (false, db).
Proof.
  intros H. unfold edit_reminder.
  destruct (not_owned _ _); [reflexivity|].
  destruct H as [(t & Ht & Hbad) | H].
  - unfold time_rejected. rewrite Ht.
    destruct (_validate_time t) eqn:E; [|reflexivity].
    now apply validated_is_hour_minute in E.
  - destruct (time_rejected updates); [reflexivity|].
    assert (frequency_rejected updates = true) as ->; [|reflexivity].
    destruct H as [(f & Hf & Hout) | Hm].
    + eapply outside_rejected; eauto.
    + eapply outside_rejected; eauto. repeat split; discriminate.
Qed.

(** The creation dialogue does offer [monthly]. *)
Lemma monthly_offered_at_creation :
  Bot.freq_map_get "freq_monthly" = "monthly".
Proof. reflexivity. Qed.

Lemma foreign_or_missing_reminder_untouched_witness :
  edit_reminder (Samples.store (Samples.reminder 15 "monthly" "UTC")) 200
                (VInt 7) [("text", VStr "water")]
    = (false, Samples.store (Samples.reminder 15 "monthly" "UTC")) /\
  delete_reminder (Samples.store (Samples.reminder 15 "monthly" "UTC")) 200
                  (VInt 7)
    = (false, Samples.store (Samples.reminder 15 "monthly" "UTC")) /\
  toggle_reminder (Samples.store (Samples.reminder 15 "monthly" "UTC")) 200
                  (VInt 7)
    = (false, Samples.store (Samples.reminder 15 "monthly" "UTC")).
Proof.
  apply foreign_or_missing_reminder_untouched.
  right. eexists. split; reflexivity.
Defined.

Lemma edit_rejects_bad_time_or_frequency_witness :
  ~ is_hour_minute (VStr "25:61") /\
  edit_reminder (Samples.store (Samples.reminder 15 "weekly" "UTC")) 100
                (VInt 7) [("text", VStr "water"); ("time", VStr "25:61")]
    = (false, Samples.store (Samples.reminder 15 "weekly" "UTC")).
Proof.
  assert (Hbad : ~ is_hour_minute (VStr "25:61")).
  { intros H. apply is_hour_minute_validated in H. discriminate H. }
  split; [exact Hbad|].
  apply edit_rejects_bad_time_or_frequency.
  left. exists (VStr "25:61"). split; [reflexivity | exact Hbad].
Defined.

End ManagerFacts.

(** ** The store *)

Module StoreFacts.
Import Db.

Lemma find_row_None (q : string) (rows : list Reminder) :
  find_row q rows = None -> forall r, In r rows -> Py.str (id r) <> q.
Proof.
  induction rows as [|r0 t IH]; simpl; [tauto|].
  destruct (String.eqb_spec (Py.str (id r0)) q); [discriminate|].
  destruct (find_row q t); [discriminate|].
  intros _ r [<- | Hin]; auto.
Qed.

Lemma delete_found_absent (q : string) (rows : list Reminder) (i : nat) :
  find_row q rows = Some i ->
  NoDup (map (fun r => Py.str (id r)) rows) ->
  forall r, In r (delete i rows) -> Py.str (id r) <> q.
Proof.
  revert i. induction rows as [|r0 t IH]; intros i; simpl; [discriminate|].
  destruct (String.eqb_spec (Py.str (id r0)) q) as [E|E].
  - intros [= <-] Hnd r Hin. simpl in Hin.
    apply NoDup_cons in Hnd as [Hnot _].
    intros Hq. apply Hnot. rewrite E, <- Hq.
    apply list_elem_of_In. now apply (in_map (fun r => Py.str (id r))).
  - destruct (find_row q t) as [j|] eqn:Ej; [|discriminate].
    intros [= <-] Hnd r. simpl. apply NoDup_cons in Hnd as [_ Hnd].
    intros [<- | Hin]; [exact E | eauto].
Qed.

Lemma delete_keeps_others (q : string) (rows : list Reminder) (i : nat) :
  find_row q rows = Some i ->
  forall r, In r rows -> Py.str (id r) <> q -> In r (delete i rows).
Proof.
  revert i. induction rows as [|r0 t IH]; intros i; simpl; [discriminate|].
  destruct (String.eqb_spec (Py.str (id r0)) q) as [E|E].
  - intros [= <-] r [<- | Hin] Hne; [contradiction | exact Hin].
  - destruct (find_row q t) as [j|] eqn:Ej; [|discriminate].
    intros [= <-] r [<- | Hin] Hne; simpl; [now left | right; eauto].
Qed.

Lemma alter_keeps_others (f : Reminder -> Reminder) (q : string)
    (rows : list Reminder) (i : nat) :
  find_row q rows = Some i ->
  forall r, In r rows -> Py.str (id r) <> q -> In r (alter f i rows).
Proof.
  revert i. induction rows as [|r0 t IH]; intros i; simpl; [discriminate|].
  destruct (String.eqb_spec (Py.str (id r0)) q) as [E|E].
  - intros [= <-] r [<- | Hin] Hne; [contradiction | simpl; now right].
  - destruct (find_row q t) as [j|] eqn:Ej; [|discriminate].
    intros [= <-] r [<- | Hin] Hne; simpl; [now left | right; eauto].
Qed.

Lemma alter_keeps_ids (f : Reminder -> Reminder) (rows : list Reminder)
    (i : nat) :
  (forall r, id (f r) = id r) ->
  map (fun r => Py.str (id r)) (alter f i rows)
  = map (fun r => Py.str (id r)) rows.
Proof.
  intros Hf. revert i. induction rows as [|r0 t IH]; intros [|i]; simpl;
    try reflexivity.
  - now rewrite Hf.
  - f_equal. apply IH.
Qed.

Lemma log_keeps_ids (db : Database) (rid uid : PyVal) (stamp : string) :
  map (fun r => Py.str (id r))
      (reminders_sheet (log_reminder_sent db rid uid stamp))
  = map (fun r => Py.str (id r)) (reminders_sheet db).
Proof.
  unfold log_reminder_sent, update_reminder. simpl.
  destruct (find_row _ _) as [i|]; simpl; [|reflexivity].
  now apply alter_keeps_ids.
Qed.

Lemma log_keeps_others (db : Database) (rid uid : PyVal) (stamp : string) :
  forall r, In r (reminders_sheet db) ->
            Py.str (id r) <> Py.strip (Py.str rid) ->
            In r (reminders_sheet (log_reminder_sent db rid uid stamp)).
Proof.
  unfold log_reminder_sent, update_reminder. simpl.
  destruct (find_row _ _) as [i|] eqn:E; simpl; [|auto].
  intros r. now apply alter_keeps_others.
Qed.

Lemma delete_reminder_absent (db : Database) (rid : PyVal) :
  NoDup (map (fun r => Py.str (id r)) (reminders_sheet db)) ->
  forall r, In r (reminders_sheet (snd (delete_reminder db rid))) ->
            Py.str (id r) <> Py.strip (Py.str rid).
Proof.
  unfold delete_reminder.
  destruct (find_row _ _) as [i|] eqn:E; simpl.
  - intros Hnd. now apply delete_found_absent.
  - intros _. now apply find_row_None.
Qed.

Lemma delete_reminder_keeps_others (db : Database) (rid : PyVal) :
  forall r, In r (reminders_sheet db) ->
            Py.str (id r) <> Py.strip (Py.str rid) ->
            In r (reminders_sheet (snd (delete_reminder db rid))).
Proof.
  unfold delete_reminder.
  destruct (find_row _ _) as [i|] eqn:E; simpl; [|auto].
  intros r. now apply delete_keeps_others.
Qed.

Lemma active_listed (db : Database) (r : Reminder) :
  In r (get_all_active_reminders db) -> In r (reminders_sheet db).
Proof.
  unfold get_all_active_reminders. intros H. now apply List.filter_In in H.
Qed.

End StoreFacts.

(** ** The job registry *)

Module RegistryFacts.

Import Bot.

Lemma try_remove_job_delete (k : string) (s : gmap string Job) :
  try_remove_job k s = delete k s.
Proof.
  unfold try_remove_job, remove_job. destruct (s !! k) eqn:E; [reflexivity|].
  symmetry. now apply delete_id.
Qed.

Lemma remove_loop_lookup (p : string) (l : list (string * Job))
    (s : gmap string Job) (k : string) :
  foldl (fun s job =>
           if Py.startswith (fst job) p
           then try_remove_job (fst job) s else s) s l !! k
  = if Py.startswith k p && bool_decide (k ∈ l.*1) then None else s !! k.
Proof.
  revert s. induction l as [|[k' j] l IH]; intros s.
  - simpl. now rewrite andb_false_r.
  - rewrite fmap_cons. cbn [foldl fst]. rewrite IH.
    destruct (Py.startswith k p) eqn:Ek; cbn [andb].
    + destruct (decide (k = k')) as [<-|Hne].
      * rewrite Ek, try_remove_job_delete, lookup_delete_eq.
        rewrite (bool_decide_eq_true_2 (k ∈ k :: l.*1)) by constructor.
        now destruct (bool_decide _).
      * assert (Hs : (if Py.startswith k' p
                      then try_remove_job k' s else s) !! k = s !! k).
        { destruct (Py.startswith k' p); [|reflexivity].
          rewrite try_remove_job_delete. now apply lookup_delete_ne. }
        rewrite Hs. destruct (decide (k ∈ l.*1)) as [Hin|Hin].
        -- rewrite !bool_decide_eq_true_2 by (now try constructor).
           reflexivity.
        -- rewrite !bool_decide_eq_false_2;
             [reflexivity | | exact Hin].
           intros H. inversion H; subst; contradiction.
    + destruct (decide (k = k')) as [<-|Hne].
      * now rewrite Ek.
      * destruct (Py.startswith k' p); [|reflexivity].
        rewrite try_remove_job_delete. now apply lookup_delete_ne.
Qed.

Lemma remove_jobs_with_prefix_lookup (p : string) (s : gmap string Job)
    (k : string) :
  remove_jobs_with_prefix p s !! k
  = if Py.startswith k p then None else s !! k.
Proof.
  unfold remove_jobs_with_prefix. rewrite remove_loop_lookup.
  destruct (Py.startswith k p); simpl; [|reflexivity].
  destruct (s !! k) as [j|] eqn:E.
  - rewrite bool_decide_eq_true_2; [reflexivity|].
    apply list_elem_of_fmap. exists (k, j). split; [reflexivity|].
    now apply elem_of_map_to_list.
  - now destruct (bool_decide _).
Qed.

Lemma offset_job_id_prefixed (reminder : Db.Reminder) (offset : nat) :
  Py.startswith (offset_job_id reminder offset) (job_prefix reminder) = true.
Proof.
  unfold Py.startswith, offset_job_id, job_id, job_prefix.
  change ("_dminus" +:+ Py.Z_to_string (Z.of_nat offset))
    with ("_" +:+ ("dminus" +:+ Py.Z_to_string (Z.of_nat offset))).
  rewrite <- (StringFacts.append_assoc _ "_").
  rewrite (StringFacts.append_assoc "reminder_").
  apply StringFacts.prefix_append.
Qed.

End RegistryFacts.

(** ** The calendar and the trigger engine *)

Module CalFacts.

Import Cal.

Lemma monthrange_last_bounds (y m : Z) : 28 <= monthrange_last y m <= 31.
Proof.
  unfold monthrange_last.
  destruct (m =? 2); [destruct (isleap y); lia|].
  destruct ((m =? 4) || (m =? 6) || (m =? 9) || (m =? 11)); lia.
Qed.

Lemma valid_spec (dt : datetime) :
  valid dt = true <->
  (1 <= year dt <= 9999 /\ 1 <= month dt <= 12 /\
   1 <= day dt <= monthrange_last (year dt) (month dt)) /\
  (0 <= hour dt <= 23 /\ 0 <= minute dt <= 59 /\
   0 <= second dt <= 59 /\ 0 <= microsecond dt <= 999999).
Proof.
  unfold valid, valid_date, valid_time, MINYEAR, MAXYEAR.
  rewrite !andb_true_iff, !Z.leb_le. tauto.
Qed.

Lemma c_int_spec (z : Z) :
  -2147483648 <= z <= 2147483647 -> c_int z = true.
Proof.
  intros Hz. unfold c_int. apply andb_true_iff. rewrite !Z.leb_le. lia.
Qed.

Lemma replace_inr (dt dt' : datetime) (y m d h mi s us : option Z) :
  replace dt y m d h mi s us = inr dt' ->
  dt' = {| year := default (year dt) y; month := default (month dt) m;
           day := default (day dt) d; hour := default (hour dt) h;
           minute := default (minute dt) mi; second := default (second dt) s;
           microsecond := default (microsecond dt) us |} /\
  valid dt' = true.
Proof.
  unfold replace. destruct (forallb _ _); [|discriminate].
  destruct (valid _) eqn:E; [|discriminate].
  intros [= <-]. auto.
Qed.

Lemma replace_valid (dt : datetime) (y m d h mi s us : option Z) :
  valid {| year := default (year dt) y; month := default (month dt) m;
           day := default (day dt) d; hour := default (hour dt) h;
           minute := default (minute dt) mi; second := default (second dt) s;
           microsecond := default (microsecond dt) us |} = true ->
  replace dt y m d h mi s us
  = inr {| year := default (year dt) y; month := default (month dt) m;
           day := default (day dt) d; hour := default (hour dt) h;
           minute := default (minute dt) mi; second := default (second dt) s;
           microsecond := default (microsecond dt) us |}.
Proof.
  intros H. unfold replace. rewrite H.
  apply valid_spec in H. cbn [year month day hour minute second microsecond]
    in H. pose proof (monthrange_last_bounds (default (year dt) y)
                        (default (month dt) m)) as Hl.
  pose proof c_int_spec as Hc.
  assert (E : forallb (fun a => from_option c_int true a)
                [y; m; d; h; mi; s; us] = true); [|now rewrite E].
  destruct y, m, d, h, mi, s, us; cbn [default from_option id] in H, Hl;
    cbn [forallb from_option]; rewrite ?Hc; try reflexivity; lia.
Qed.

(** [replace] raises [ValueError] or [OverflowError] only. *)
Lemma replace_inl (dt : datetime) (y m d h mi s us : option Z) (e : Exn) :
  replace dt y m d h mi s us = inl e -> e = ValueError \/ e = OverflowError.
Proof.
  unfold replace. destruct (forallb _ _); [|intros [= <-]; auto].
  destruct (valid _); [discriminate | intros [= <-]; auto].
Qed.

(** Within the C [int] range it is [ValueError]. *)
Lemma replace_inl_c_int (dt : datetime) (y m d h mi s us : option Z)
    (e : Exn) :
  forallb (fun a => from_option c_int true a) [y; m; d; h; mi; s; us]
    = true ->
  replace dt y m d h mi s us = inl e -> e = ValueError.
Proof.
  unfold replace. intros ->.
  destruct (valid _); [discriminate | now intros [= <-]].
Qed.

Lemma compare_antisym (a b : datetime) :
  compare b a = CompOpp (compare a b).
Proof.
  unfold compare.
  rewrite (Z.compare_antisym (year a)), (Z.compare_antisym (month a)),
    (Z.compare_antisym (day a)), (Z.compare_antisym (hour a)),
    (Z.compare_antisym (minute a)), (Z.compare_antisym (second a)),
    (Z.compare_antisym (microsecond a)).
  destruct (year a ?= year b), (month a ?= month b), (day a ?= day b),
    (hour a ?= hour b), (minute a ?= minute b), (second a ?= second b),
    (microsecond a ?= microsecond b); reflexivity.
Qed.

Lemma not_leb_ltb (a b : datetime) : leb a b = false -> ltb b a = true.
Proof.
  unfold leb, ltb. rewrite (compare_antisym a b).
  now destruct (compare a b).
Qed.

Lemma ltb_year (a b : datetime) : year a < year b -> ltb a b = true.
Proof.
  intros H. unfold ltb, compare.
  apply Z.compare_lt_iff in H. now rewrite H.
Qed.

Lemma ltb_month (a b : datetime) :
  year a = year b -> month a < month b -> ltb a b = true.
Proof.
  intros Hy H. unfold ltb, compare.
  apply Z.compare_lt_iff in H. apply Z.compare_eq_iff in Hy.
  now rewrite Hy, H.
Qed.

Lemma ltb_irrefl (a : datetime) : ltb a a = false.
Proof. unfold ltb, compare. now rewrite !Z.compare_refl. Qed.

End CalFacts.

Module TriggerFacts.

Import Cal Bot.

Section Zones.

Variable known_zone : string -> bool.
Variable cron_text : string -> string -> bool.

Lemma once_day_missing_this_month (now : datetime) (d hour minute : Z) :
  monthrange_last (year now) (month now) < d <= 2147483647 ->
  0 <= hour <= 23 -> 0 <= minute <= 59 ->
  once_run_date now (Some (VInt d)) hour minute = raise ValueError.
Proof.
  intros H Hh Hm. unfold once_run_date.
  pose proof (CalFacts.monthrange_last_bounds (year now) (month now)) as Hb.
  cbn [Py.bind Py.as_index Py.as_number Py.ret].
  unfold replace at 1. cbn [default from_option id forallb].
  rewrite !CalFacts.c_int_spec by lia. cbn [andb].
  assert (valid {| year := year now; month := month now; day := d;
                   hour := hour; minute := minute; second := 0;
                   microsecond := 0 |} = false) as ->; [|reflexivity].
  apply not_true_is_false. intros Hx.
  apply CalFacts.valid_spec in Hx. simpl in Hx. lia.
Qed.

Lemma once_candidate (now : datetime) (d hour minute : Z) :
  valid now = true -> 1 <= d <= monthrange_last (year now) (month now) ->
  0 <= hour <= 23 -> 0 <= minute <= 59 ->
  replace now None None (Some d) (Some hour) (Some minute) (Some 0) (Some 0)
  = inr {| year := year now; month := month now; day := d;
           hour := hour; minute := minute; second := 0; microsecond := 0 |}.
Proof.
  intros Hv Hd Hh Hm. apply CalFacts.valid_spec in Hv.
  rewrite CalFacts.replace_valid; [reflexivity|].
  apply CalFacts.valid_spec. simpl. lia.
Qed.

Lemma once_in_future (now : datetime) (d hour minute : Z) :
  valid now = true -> 1 <= d <= monthrange_last (year now) (month now) ->
  0 <= hour <= 23 -> 0 <= minute <= 59 ->
  leb {| year := year now; month := month now; day := d;
         hour := hour; minute := minute; second := 0; microsecond := 0 |}
      now = false ->
  once_run_date now (Some (VInt d)) hour minute
  = inr {| year := year now; month := month now; day := d;
           hour := hour; minute := minute; second := 0; microsecond := 0 |}.
Proof.
  intros Hv Hd Hh Hm Hle. unfold once_run_date.
  cbn [Py.bind Py.as_index Py.as_number Py.ret].
  rewrite once_candidate by assumption. cbn [Py.bind]. now rewrite Hle.
Qed.

Lemma once_day_missing_next_month (now : datetime) (d hour minute : Z) :
  valid now = true -> 1 <= d <= monthrange_last (year now) (month now) ->
  0 <= hour <= 23 -> 0 <= minute <= 59 ->
  leb {| year := year now; month := month now; day := d;
         hour := hour; minute := minute; second := 0; microsecond := 0 |}
      now = true ->
  monthrange_last (next_year now) (next_month now) < d ->
  once_run_date now (Some (VInt d)) hour minute = raise ValueError.
Proof.
  intros Hv Hd Hh Hm Hle Hover. unfold once_run_date.
  cbn [Py.bind Py.as_index Py.as_number Py.ret].
  rewrite once_candidate by assumption. cbn [Py.bind]. rewrite Hle.
  unfold next_year, next_month in Hover.
  pose proof Hv as Hv'. apply CalFacts.valid_spec in Hv'.
  pose proof (CalFacts.monthrange_last_bounds (year now) (month now)) as Hb.
  destruct (Z.eqb_spec (month now) 12) as [E|E].
  - unfold replace at 1.
    cbn [default from_option id Cal.year Cal.month Cal.day Cal.hour
         Cal.minute Cal.second Cal.microsecond forallb].
    rewrite !CalFacts.c_int_spec by lia. cbn [andb].
    match goal with
    | |- context [valid ?x] => assert (valid x = false) as ->
    end; [|reflexivity].
    apply not_true_is_false. intros Hx.
    apply CalFacts.valid_spec in Hx. simpl in Hx. lia.
  - unfold replace at 1.
    cbn [default from_option id Cal.year Cal.month Cal.day Cal.hour
         Cal.minute Cal.second Cal.microsecond forallb].
    rewrite !CalFacts.c_int_spec by lia. cbn [andb].
    match goal with
    | |- context [valid ?x] => assert (valid x = false) as ->
    end; [|reflexivity].
    apply not_true_is_false. intros Hx.
    apply CalFacts.valid_spec in Hx. simpl in Hx. lia.
Qed.

Lemma once_rolls_to_next_month (now : datetime) (d hour minute : Z) :
  valid now = true -> 1 <= d <= monthrange_last (year now) (month now) ->
  0 <= hour <= 23 -> 0 <= minute <= 59 ->
  leb {| year := year now; month := month now; day := d;
         hour := hour; minute := minute; second := 0; microsecond := 0 |}
      now = true ->
  d <= monthrange_last (next_year now) (next_month now) ->
  next_year now <= MAXYEAR ->
  let run_date := {| year := next_year now; month := next_month now;
                     day := d; hour := hour; minute := minute; second := 0;
                     microsecond := 0 |} in
  once_run_date now (Some (VInt d)) hour minute = inr run_date /\
  ltb now run_date = true.
Proof.
  intros Hv Hd Hh Hm Hle Hfits Hy run_date.
  assert (Hlt : ltb now run_date = true).
  { unfold run_date, next_year, next_month.
    destruct (Z.eqb_spec (month now) 12) as [E|E].
    - apply CalFacts.ltb_year. simpl. lia.
    - apply CalFacts.ltb_month; simpl; lia. }
  split; [|exact Hlt].
  unfold once_run_date.
  cbn [Py.bind Py.as_index Py.as_number Py.ret].
  rewrite once_candidate by assumption. cbn [Py.bind]. rewrite Hle.
  pose proof Hv as Hv'. apply CalFacts.valid_spec in Hv'.
  unfold run_date, next_year, next_month, MAXYEAR in *.
  destruct (Z.eqb_spec (month now) 12) as [E|E].
  - rewrite CalFacts.replace_valid;
      [|apply CalFacts.valid_spec; simpl; lia].
    cbn [Py.bind default from_option id Cal.year Cal.month Cal.day Cal.hour
         Cal.minute Cal.second Cal.microsecond].
    rewrite CalFacts.replace_valid;
      [|apply CalFacts.valid_spec; simpl; lia].
    reflexivity.
  - rewrite CalFacts.replace_valid;
      [|apply CalFacts.valid_spec; simpl; lia].
    cbn [Py.bind default from_option id Cal.year Cal.month Cal.day Cal.hour
         Cal.minute Cal.second Cal.microsecond].
    rewrite CalFacts.replace_valid;
      [|apply CalFacts.valid_spec; simpl; lia].
    reflexivity.
Qed.
(** Whatever [_compute_next_month_event] returns lies strictly after the
    clock reading it was computed from. *)
Lemma next_event_in_future (self : ReminderBot) (clock : Clock)
    (reminder : Db.Reminder) (next_event : datetime) :
  _compute_next_month_event known_zone self clock reminder = inr next_event ->
  exists tz,
    pytz_timezone known_zone
      (default "Asia/Ho_Chi_Minh" (Db.timezone reminder)) = inr tz /\
    ltb (clock tz) next_event = true.
Proof.
  unfold _compute_next_month_event. intros H.
  destruct (pytz_timezone _ _) as [e|tz]; cbn [Py.bind] in H;
    [discriminate H|].
  destruct (notify_hm self) as [hour minute].
  set (now := clock tz) in *.
  set (target := default (VInt (day now)) (Db.day reminder)) in *.
  exists tz. split; [reflexivity|]. fold now. clearbody target now.
  match type of H with
  | Py.bind ?m _ = _ => destruct m as [e|run_dt] eqn:Erun
  end; cbn [Py.bind] in H; [discriminate H|].
  assert (Hsame : year run_dt = year now /\ month run_dt = month now).
  { unfold Py.as_index in Erun.
    destruct (Py.as_number target) as [d|]; simpl in Erun;
      [|discriminate Erun].
    destruct (replace now None None (Some d) _ _ _ _) as [e|r] eqn:E1.
    - destruct e; try discriminate.
      apply CalFacts.replace_inr in Erun as [-> _]. auto.
    - injection Erun as <-.
      apply CalFacts.replace_inr in E1 as [-> _]. auto. }
  destruct Hsame as [Hy Hm].
  destruct (leb run_dt now) eqn:Hle.
  - destruct (Py.as_index target) as [e|d]; cbn [Py.bind] in H;
      [discriminate H|].
    apply CalFacts.replace_inr in H as [-> _].
    destruct (Z.eqb_spec (month run_dt) 12) as [E12|E12].
    + apply CalFacts.ltb_year. simpl. lia.
    + apply CalFacts.ltb_month; simpl; lia.
  - injection H as <-. now apply CalFacts.not_leb_ltb.
Qed.

(** The candidate in the current month, clamped to the month's last day. *)
Lemma clamped_candidate (now : datetime) (d hour minute : Z) :
  valid now = true -> 1 <= d <= 2147483647 ->
  0 <= hour <= 23 -> 0 <= minute <= 59 ->
  match
    (try! d' <- Py.as_index (VInt d) ;;
     replace now None None (Some d') (Some hour) (Some minute)
             (Some 0) (Some 0))
  with
  | inl ValueError =>
      replace now None None (Some (monthrange_last (year now) (month now)))
              (Some hour) (Some minute) (Some 0) (Some 0)
  | r => r
  end
  = inr {| year := year now; month := month now;
           day := Z.min d (monthrange_last (year now) (month now));
           hour := hour; minute := minute; second := 0; microsecond := 0 |}.
Proof.
  intros Hv Hd Hh Hm. apply CalFacts.valid_spec in Hv.
  pose proof (CalFacts.monthrange_last_bounds (year now) (month now)) as Hb.
  simpl. destruct (Z.le_gt_cases d (monthrange_last (year now) (month now))).
  - rewrite CalFacts.replace_valid; simpl.
    + now rewrite Z.min_l.
    + apply CalFacts.valid_spec. simpl. lia.
  - unfold replace at 1. cbn [forallb from_option].
    rewrite !CalFacts.c_int_spec by lia. simpl.
    assert (valid {| year := year now; month := month now; day := d;
                     hour := hour; minute := minute; second := 0;
                     microsecond := 0 |} = false) as ->.
    { apply not_true_is_false. intros Hx.
      apply CalFacts.valid_spec in Hx. simpl in Hx. lia. }
    simpl. rewrite CalFacts.replace_valid; simpl.
    + rewrite Z.min_r by lia. reflexivity.
    + apply CalFacts.valid_spec. simpl. lia.
Qed.

(** What holds of the monthly next-occurrence computation: with a zone
    name that resolves and a day of month between 1 and 31 it does not
    raise, and the day of the instant it returns is the target day clamped
    to the last day of the month the instant falls in. *)
Lemma next_event_clamps (self : ReminderBot) (clock : Clock)
    (reminder : Db.Reminder) (tz : tzinfo) (d hour minute : Z) :
  pytz_timezone known_zone
    (default "Asia/Ho_Chi_Minh" (Db.timezone reminder)) = inr tz ->
  notify_hm self = (hour, minute) ->
  0 <= hour <= 23 -> 0 <= minute <= 59 ->
  Db.day reminder = Some (VInt d) -> 1 <= d <= 31 ->
  valid (clock tz) = true -> year (clock tz) < MAXYEAR ->
  exists next_event,
    _compute_next_month_event known_zone self clock reminder
      = inr next_event /\
    valid next_event = true /\
    day next_event
      = Z.min d (monthrange_last (year next_event) (month next_event)) /\
    ltb (clock tz) next_event = true.
Proof.
  intros Htz Hhm Hh Hm Hday Hd Hv Hy.
  assert (Hex : exists next_event,
             _compute_next_month_event known_zone self clock reminder
               = inr next_event /\
             valid next_event = true /\
             day next_event
               = Z.min d (monthrange_last (year next_event)
                                          (month next_event))).
  { unfold _compute_next_month_event. rewrite Htz, Hhm, Hday.
    cbn [Py.bind default from_option id].
    rewrite (clamped_candidate (clock tz) d hour minute) by (auto; lia).
    cbn [Py.bind].
    set (run_dt := {| year := year (clock tz); month := month (clock tz);
                      day := Z.min d (monthrange_last (year (clock tz))
                                                      (month (clock tz)));
                      hour := hour; minute := minute; second := 0;
                      microsecond := 0 |}).
    pose proof (CalFacts.monthrange_last_bounds
                  (year (clock tz)) (month (clock tz))) as Hb.
    apply CalFacts.valid_spec in Hv.
    assert (Hvr : valid run_dt = true).
    { apply CalFacts.valid_spec. simpl. lia. }
    destruct (leb run_dt (clock tz)).
    - cbn [Py.bind Py.as_index Py.as_number Py.ret].
      set (y' := year run_dt + (if month run_dt =? 12 then 1 else 0)).
      set (m' := if month run_dt =? 12 then 1 else month run_dt + 1).
      pose proof (CalFacts.monthrange_last_bounds y' m') as Hb'.
      assert (Hym : 1 <= y' <= 9999 /\ 1 <= m' <= 12).
      { unfold y', m', MAXYEAR in *. simpl.
        destruct (Z.eqb_spec (month (clock tz)) 12); lia. }
      rewrite CalFacts.replace_valid.
      + eexists. split; [reflexivity|]. split; [|reflexivity].
        apply CalFacts.valid_spec. simpl. lia.
      + apply CalFacts.valid_spec. simpl. lia.
    - exists run_dt. auto. }
  destruct Hex as (next_event & Heq & Hvalid & Hclamp).
  exists next_event. repeat split; auto.
  destruct (next_event_in_future self clock reminder next_event Heq)
    as (tz' & Htz' & Hlt).
  rewrite Htz in Htz'. now injection Htz' as <-.
Qed.

End Zones.

End TriggerFacts.

(** ** The reminder scheduler *)

Module SchedulingFacts.

Import Cal Bot.

Lemma offset_job_id_inj (reminder : Db.Reminder) (a b : nat) :
  (a <= 2)%nat -> (b <= 2)%nat ->
  offset_job_id reminder a = offset_job_id reminder b -> a = b.
Proof.
  intros Ha Hb H. unfold offset_job_id in H.
  apply StringFacts.append_inj_l in H.
  destruct a as [|[|[|a]]]; try lia; destruct b as [|[|[|b]]]; try lia;
    try reflexivity; vm_compute in H; discriminate H.
Qed.

Lemma removed_offsets (reminder : Db.Reminder) (s : gmap string Job)
    (offset : nat) :
  (offset <= 2)%nat ->
  remove_offset_jobs reminder s !! offset_job_id reminder offset = None.
Proof.
  intros H. unfold remove_offset_jobs. simpl.
  rewrite !RegistryFacts.try_remove_job_delete.
  destruct offset as [|[|[|o]]]; try lia.
  - do 2 (rewrite lookup_delete_ne
            by (intros E; apply offset_job_id_inj in E; lia)).
    apply lookup_delete_eq.
  - rewrite lookup_delete_ne
      by (intros E; apply offset_job_id_inj in E; lia).
    apply lookup_delete_eq.
  - apply lookup_delete_eq.
Qed.

Lemma removed_others (reminder : Db.Reminder) (s : gmap string Job)
    (key : string) :
  (forall offset, (offset <= 2)%nat -> key <> offset_job_id reminder offset) ->
  remove_offset_jobs reminder s !! key = s !! key.
Proof.
  intros H. unfold remove_offset_jobs. simpl.
  rewrite !RegistryFacts.try_remove_job_delete.
  rewrite !lookup_delete_ne; [reflexivity | | |];
    intros E; symmetry in E; revert E; apply H; lia.
Qed.

Lemma prev_day_year (dt : datetime) :
  year dt - 1 <= year (prev_day dt) /\
  (1 < day dt -> year (prev_day dt) = year dt) /\
  (year (prev_day dt) < year dt -> day (prev_day dt) = 31).
Proof.
  unfold prev_day.
  destruct (Z.ltb_spec 1 (day dt)); [cbn [year day]; lia|].
  destruct (Z.ltb_spec 1 (month dt)); cbn [year day]; lia.
Qed.

Lemma minus_days_ok (dt : datetime) (n : nat) :
  (n <= 2)%nat -> 1 < year dt ->
  minus_days dt n = inr (Nat.iter n prev_day dt).
Proof.
  intros Hn Hy. unfold minus_days.
  assert (H : MINYEAR <= year (Nat.iter n prev_day dt)).
  { unfold MINYEAR. destruct n as [|[|[|n]]]; [| | |lia].
    - change (Nat.iter 0 prev_day dt) with dt. lia.
    - change (Nat.iter 1 prev_day dt) with (prev_day dt).
      pose proof (prev_day_year dt). lia.
    - change (Nat.iter 2 prev_day dt) with (prev_day (prev_day dt)).
      pose proof (prev_day_year dt) as (H1 & _ & H3).
      pose proof (prev_day_year (prev_day dt)) as (H4 & H5 & _).
      destruct (Z.lt_ge_cases (year (prev_day dt)) (year dt)); lia. }
  apply Z.leb_le in H. now rewrite H.
Qed.

Lemma minus_one_day (dt : datetime) :
  1 < year dt -> minus_days dt 1 = inr (prev_day dt).
Proof. intros H. now rewrite minus_days_ok by (auto; lia). Qed.

Lemma minus_two_days (dt : datetime) :
  1 < year dt -> minus_days dt 2 = inr (prev_day (prev_day dt)).
Proof. intros H. now rewrite minus_days_ok by (auto; lia). Qed.

Lemma installed_insert0 (reminder : Db.Reminder) (job : Job)
    (s : gmap string Job) :
  installed_offsets reminder
    (<[offset_job_id reminder 0 := job]> (remove_offset_jobs reminder s))
  = [0%nat].
Proof.
  unfold installed_offsets. simpl.
  rewrite lookup_insert_eq.
  rewrite !lookup_insert_ne
    by (intros E; apply offset_job_id_inj in E; lia).
  rewrite !removed_offsets by lia.
  reflexivity.
Qed.

Lemma installed_all (reminder : Db.Reminder) (j0 j1 j2 : Job)
    (s : gmap string Job) :
  installed_offsets reminder
    (<[offset_job_id reminder 2 := j2]>
       (<[offset_job_id reminder 1 := j1]>
          (<[offset_job_id reminder 0 := j0]> s))) = [0; 1; 2]%nat.
Proof.
  unfold installed_offsets. simpl.
  rewrite lookup_insert_eq.
  rewrite (lookup_insert_ne _ (offset_job_id reminder 2)
                           (offset_job_id reminder 1))
    by (intros E; apply offset_job_id_inj in E; lia).
  rewrite lookup_insert_eq.
  rewrite !(lookup_insert_ne _ _ (offset_job_id reminder 0))
    by (intros E; apply offset_job_id_inj in E; lia).
  rewrite lookup_insert_eq.
  reflexivity.
Qed.

Lemma installed_none (reminder : Db.Reminder) (s : gmap string Job) :
  installed_offsets reminder (remove_offset_jobs reminder s) = [].
Proof.
  unfold installed_offsets. simpl.
  rewrite !removed_offsets by lia. reflexivity.
Qed.

Section Zones.

Variable known_zone : string -> bool.
Variable cron_text : string -> string -> bool.

Lemma unknown_zone_raises (self : ReminderBot) (clock : Clock)
    (reminder : Db.Reminder) (name : string) :
  Db.timezone reminder = Some name -> known_zone name = false ->
  _compute_next_month_event known_zone self clock reminder
  = raise UnknownTimeZoneError.
Proof.
  intros Htz Hk. unfold _compute_next_month_event, pytz_timezone.
  rewrite Htz. simpl. now rewrite Hk.
Qed.

Lemma once_unknown_zone (self : ReminderBot) (clock : Clock)
    (reminder : Db.Reminder) (name : string) (s : gmap string Job) :
  Db.timezone reminder = Some name -> known_zone name = false ->
  Db.frequency reminder = "once" ->
  snd (_schedule_single_reminder known_zone cron_text self clock reminder s)
  = remove_offset_jobs reminder s.
Proof.
  intros Htz Hk Hf. unfold _schedule_single_reminder.
  rewrite Htz, Hf. simpl.
  destruct (notify_hm self) as [hour minute].
  unfold pytz_timezone at 1. rewrite Hk.
  destruct (pytz_timezone known_zone "Asia/Ho_Chi_Minh") as [e|tz];
    [reflexivity|].
  simpl.
  destruct (once_run_date _ _ _ _) as [[]|run_date]; try reflexivity.
  unfold once_jobs, DateTrigger_named, pytz_timezone. rewrite Hk.
  reflexivity.
Qed.

Lemma resolve_known (name : string) :
  known_zone name = true ->
  match pytz_timezone known_zone name with
  | inl UnknownTimeZoneError => pytz_timezone known_zone "Asia/Ho_Chi_Minh"
  | r => r
  end = inr (TZ name).
Proof. intros H. unfold pytz_timezone. now rewrite H. Qed.

Lemma resolve_fallback (name : string) :
  known_zone "Asia/Ho_Chi_Minh" = true ->
  exists tz,
    match pytz_timezone known_zone name with
    | inl UnknownTimeZoneError => pytz_timezone known_zone "Asia/Ho_Chi_Minh"
    | r => r
    end = inr tz.
Proof.
  intros H. unfold pytz_timezone.
  destruct (known_zone name); [eauto|]. rewrite H. eauto.
Qed.

(** [CronTrigger] raises [ValueError] only, and what it builds holds the
    values it was given. *)
Lemma new_CronTrigger_inl (hour minute : Z) (day_of_week : option string)
    (day : option PyVal) (tz : tzinfo) (e : Exn) :
  new_CronTrigger cron_text hour minute day_of_week day tz = inl e ->
  e = ValueError.
Proof.
  unfold new_CronTrigger.
  destruct (_ && _); [discriminate | now intros [= <-]].
Qed.

Lemma new_CronTrigger_inr (hour minute : Z) (day_of_week : option string)
    (day : option PyVal) (tz : tzinfo) (t : Trigger) :
  new_CronTrigger cron_text hour minute day_of_week day tz = inr t ->
  t = CronTrigger hour minute day_of_week day tz.
Proof.
  unfold new_CronTrigger.
  destruct (_ && _); [now intros [= <-] | discriminate].
Qed.

Lemma cron_field_number (name : string) (lo hi z : Z) :
  lo <= z <= hi -> cron_field cron_text name lo hi (VInt z) = true.
Proof.
  intros H. cbn [cron_field]. apply andb_true_iff.
  rewrite !Z.leb_le. lia.
Qed.

(** The triggers of the [daily] and the [weekly] branch are accepted when
    the notification time is a time of day. *)
Lemma new_CronTrigger_recurring (hour minute : Z) (weekly : bool)
    (tz : tzinfo) :
  0 <= hour <= 23 -> 0 <= minute <= 59 ->
  let day_of_week := if weekly then Some "0" else None in
  new_CronTrigger cron_text hour minute day_of_week None tz
  = inr (CronTrigger hour minute day_of_week None tz).
Proof.
  intros Hh Hm day_of_week. unfold new_CronTrigger.
  rewrite (cron_field_number "hour" 0 23 hour Hh).
  rewrite (cron_field_number "minute" 0 59 minute Hm).
  assert (E : cron_field cron_text "day_of_week" 0 6
                (from_option VStr VNone day_of_week) = true).
  { subst day_of_week. destruct weekly; vm_compute; reflexivity. }
  rewrite E. reflexivity.
Qed.

(** The trigger of the [monthly] branch is accepted when, besides, the
    day is. *)
Lemma new_CronTrigger_monthly (hour minute : Z) (day : PyVal) (tz : tzinfo) :
  0 <= hour <= 23 -> 0 <= minute <= 59 ->
  cron_field cron_text "day" 1 31 day = true ->
  new_CronTrigger cron_text hour minute None (Some day) tz
  = inr (CronTrigger hour minute None (Some day) tz).
Proof.
  intros Hh Hm Hd. unfold new_CronTrigger.
  rewrite (cron_field_number "hour" 0 23 hour Hh).
  rewrite (cron_field_number "minute" 0 59 minute Hm).
  cbn [default from_option id]. rewrite Hd. reflexivity.
Qed.

(** A day that the trigger refuses ends the [monthly] branch with
    [ValueError], after the old jobs were dropped and before any job is
    added. *)
Lemma monthly_refused_day (self : ReminderBot) (clock : Clock)
    (reminder : Db.Reminder) (s : gmap string Job) :
  known_zone "Asia/Ho_Chi_Minh" = true ->
  Db.frequency reminder = "monthly" ->
  cron_field cron_text "day" 1 31 (default (VStr "*") (Db.day reminder))
    = false ->
  _schedule_single_reminder known_zone cron_text self clock reminder s
  = (raise ValueError, remove_offset_jobs reminder s).
Proof.
  intros Hvn Hf Hd. unfold _schedule_single_reminder.
  destruct (notify_hm self) as [hour minute].
  destruct (resolve_fallback
              (default "Asia/Ho_Chi_Minh" (Db.timezone reminder)) Hvn)
    as (tz & ->).
  rewrite Hf. simpl String.eqb. cbn iota.
  unfold new_CronTrigger. cbn [default from_option id].
  rewrite Hd. reflexivity.
Qed.

Lemma monthly_unknown_zone (self : ReminderBot) (clock : Clock)
    (reminder : Db.Reminder) (name : string) (s : gmap string Job) :
  Db.timezone reminder = Some name -> known_zone name = false ->
  known_zone "Asia/Ho_Chi_Minh" = true ->
  Db.frequency reminder = "monthly" ->
  0 <= fst (notify_hm self) <= 23 -> 0 <= snd (notify_hm self) <= 59 ->
  cron_field cron_text "day" 1 31 (default (VStr "*") (Db.day reminder))
    = true ->
  exists job,
    snd (_schedule_single_reminder known_zone cron_text self clock
           reminder s)
    = <[offset_job_id reminder 0 := job]> (remove_offset_jobs reminder s).
Proof.
  intros Htz Hk Hvn Hf Hh Hm Hd. unfold _schedule_single_reminder.
  rewrite Htz, Hf. cbn [default from_option id] in Hd |- *.
  destruct (notify_hm self) as [hour minute] eqn:Hhm. cbn [fst snd] in Hh, Hm.
  unfold pytz_timezone. rewrite Hk, Hvn.
  cbn [Py.raise Py.ret]. simpl String.eqb. cbn iota.
  rewrite (new_CronTrigger_monthly hour minute _ _ Hh Hm Hd).
  unfold monthly_offsets.
  rewrite (unknown_zone_raises self clock reminder name Htz Hk).
  eexists. reflexivity.
Qed.

(** [_schedule_offset_job] with a zone name that resolves: the job
    replaces whatever was under its key. *)
Lemma offset_job_known (reminder : Db.Reminder) (run_dt : datetime)
    (offset : nat) (s : gmap string Job) (name : string) :
  Db.timezone reminder = Some name -> known_zone name = true ->
  _schedule_offset_job known_zone reminder run_dt offset s
  = (inr tt,
     <[offset_job_id reminder offset :=
         mkJob (DateTrigger run_dt (TZ name))
               (Db.user_id reminder, reminder, offset) 300]> s).
Proof.
  intros Htz Hk. unfold _schedule_offset_job, pytz_timezone.
  rewrite Htz. cbn [default from_option id]. rewrite Hk.
  rewrite RegistryFacts.try_remove_job_delete. unfold add_job, ret.
  f_equal. apply insert_delete_eq.
Qed.

(** What holds of [daily] and [weekly] reminders: exactly the offset-0
    job, whatever the stored zone name. *)
Lemma recurring_one_job (self : ReminderBot) (clock : Clock)
    (reminder : Db.Reminder) (s : gmap string Job) :
  known_zone "Asia/Ho_Chi_Minh" = true ->
  0 <= fst (notify_hm self) <= 23 -> 0 <= snd (notify_hm self) <= 59 ->
  Db.frequency reminder = "daily" \/ Db.frequency reminder = "weekly" ->
  installed_offsets reminder
    (snd (_schedule_single_reminder known_zone cron_text self clock
            reminder s))
  = [0%nat].
Proof.
  intros Hvn Hh Hm Hf. unfold _schedule_single_reminder.
  destruct (notify_hm self) as [hour minute]. cbn [fst snd] in Hh, Hm.
  destruct (resolve_fallback
              (default "Asia/Ho_Chi_Minh" (Db.timezone reminder)) Hvn)
    as (tz & ->).
  destruct Hf as [-> | ->]; simpl String.eqb; cbn iota.
  - rewrite (new_CronTrigger_recurring hour minute false tz Hh Hm).
    apply installed_insert0.
  - rewrite (new_CronTrigger_recurring hour minute true tz Hh Hm).
    apply installed_insert0.
Qed.

(** X29: what holds of a [once] reminder whose zone name resolves and
    whose on-time instant could be computed: the three date jobs, at the
    instant and one and two days before it. *)
Lemma once_three_jobs (self : ReminderBot) (clock : Clock)
    (reminder : Db.Reminder) (s : gmap string Job) (name : string)
    (run_date : datetime) :
  Db.frequency reminder = "once" ->
  Db.timezone reminder = Some name -> known_zone name = true ->
  once_run_date (clock (TZ name)) (Db.day reminder)
                (fst (notify_hm self)) (snd (notify_hm self))
    = inr run_date ->
  1 < year run_date ->
  let s' :=
    snd (_schedule_single_reminder known_zone cron_text self clock
           reminder s) in
  installed_offsets reminder s' = [0; 1; 2]%nat /\
  trigger <$> s' !! offset_job_id reminder 0
    = Some (DateTrigger run_date (TZ name)) /\
  trigger <$> s' !! offset_job_id reminder 1
    = Some (DateTrigger (prev_day run_date) (TZ name)) /\
  trigger <$> s' !! offset_job_id reminder 2
    = Some (DateTrigger (prev_day (prev_day run_date)) (TZ name)).
Proof.
  intros Hf Htz Hk Hrun Hy s'. subst s'. unfold _schedule_single_reminder.
  destruct (notify_hm self) as [hour minute]. simpl in Hrun.
  rewrite Htz. cbn [default from_option id].
  rewrite (resolve_known name Hk), Hf. simpl String.eqb. cbn iota.
  rewrite Hrun. unfold once_jobs, DateTrigger_named, pytz_timezone.
  rewrite Hk. cbn [Py.bind Py.ret].
  rewrite minus_one_day, minus_two_days by exact Hy. cbn [snd Py.ret].
  unfold add_job. split; [apply installed_all|].
  rewrite lookup_insert_eq.
  rewrite (lookup_insert_ne _ (offset_job_id reminder 2)
                           (offset_job_id reminder 1))
    by (intros E; apply offset_job_id_inj in E; lia).
  rewrite lookup_insert_eq.
  rewrite !(lookup_insert_ne _ _ (offset_job_id reminder 0))
    by (intros E; apply offset_job_id_inj in E; lia).
  rewrite lookup_insert_eq. auto.
Qed.

(** When the on-time instant of a [once] reminder cannot be computed, the
    error is logged and nothing is scheduled. *)
Lemma once_value_error_no_job (self : ReminderBot) (clock : Clock)
    (reminder : Db.Reminder) (s : gmap string Job) (name : string) :
  Db.frequency reminder = "once" ->
  Db.timezone reminder = Some name -> known_zone name = true ->
  once_run_date (clock (TZ name)) (Db.day reminder)
                (fst (notify_hm self)) (snd (notify_hm self))
    = raise ValueError ->
  _schedule_single_reminder known_zone cron_text self clock reminder s
  = (ret tt, remove_offset_jobs reminder s).
Proof.
  intros Hf Htz Hk Hrun. unfold _schedule_single_reminder.
  destruct (notify_hm self) as [hour minute]. simpl in Hrun.
  rewrite Htz. cbn [default from_option id].
  rewrite (resolve_known name Hk), Hf. simpl String.eqb. cbn iota.
  now rewrite Hrun.
Qed.

(** The notification time with which [_compute_next_month_event] comes
    to a result is a time of day. *)
Lemma next_event_time_of_day (self : ReminderBot) (clock : Clock)
    (reminder : Db.Reminder) (next_event : datetime) :
  _compute_next_month_event known_zone self clock reminder = inr next_event ->
  0 <= fst (notify_hm self) <= 23 /\ 0 <= snd (notify_hm self) <= 59.
Proof.
  unfold _compute_next_month_event. intros H.
  destruct (pytz_timezone _ _) as [e|tz]; cbn [Py.bind] in H;
    [discriminate H|].
  destruct (notify_hm self) as [hour minute]. cbn [fst snd].
  match type of H with
  | Py.bind ?m _ = _ => destruct m as [e|run_dt] eqn:Erun
  end; cbn [Py.bind] in H; [discriminate H|]. clear H.
  assert (Hv : valid run_dt = true /\ Cal.hour run_dt = hour /\
               Cal.minute run_dt = minute).
  { unfold Py.as_index in Erun.
    destruct (Py.as_number _) as [d|]; simpl in Erun; [|discriminate Erun].
    destruct (replace _ None None (Some d) _ _ _ _) as [e|r] eqn:E1.
    - destruct e; try discriminate.
      apply CalFacts.replace_inr in Erun as [-> Hv]. auto.
    - injection Erun as <-.
      apply CalFacts.replace_inr in E1 as [-> Hv]. auto. }
  destruct Hv as (Hv & <- & <-). apply CalFacts.valid_spec in Hv. lia.
Qed.

(** X30: what holds of a [monthly] reminder whose zone name resolves,
    whose day the cron trigger accepts (for a number from 1 to 31) and
    whose next occurrence could be computed: the cron job and the two
    pre-due date jobs. *)
Lemma monthly_three_jobs (self : ReminderBot) (clock : Clock)
    (reminder : Db.Reminder) (s : gmap string Job) (name : string)
    (next_event : datetime) :
  Db.frequency reminder = "monthly" ->
  Db.timezone reminder = Some name -> known_zone name = true ->
  cron_field cron_text "day" 1 31 (default (VStr "*") (Db.day reminder))
    = true ->
  _compute_next_month_event known_zone self clock reminder
    = inr next_event ->
  1 < year next_event ->
  let s' :=
    snd (_schedule_single_reminder known_zone cron_text self clock
           reminder s) in
  installed_offsets reminder s' = [0; 1; 2]%nat /\
  trigger <$> s' !! offset_job_id reminder 0
    = Some (CronTrigger (fst (notify_hm self)) (snd (notify_hm self)) None
                        (Some (default (VStr "*") (Db.day reminder)))
                        (TZ name)) /\
  trigger <$> s' !! offset_job_id reminder 1
    = Some (DateTrigger (prev_day next_event) (TZ name)) /\
  trigger <$> s' !! offset_job_id reminder 2
    = Some (DateTrigger (prev_day (prev_day next_event)) (TZ name)).
Proof.
  intros Hf Htz Hk Hd Hev Hy s'. subst s'.
  destruct (next_event_time_of_day self clock reminder next_event Hev)
    as [Hh Hm].
  unfold _schedule_single_reminder.
  destruct (notify_hm self) as [hour minute]. cbn [fst snd] in Hh, Hm.
  rewrite Htz. cbn [default from_option id] in Hd |- *.
  rewrite (resolve_known name Hk), Hf. simpl String.eqb. cbn iota.
  rewrite (new_CronTrigger_monthly hour minute _ _ Hh Hm Hd).
  unfold monthly_offsets. rewrite Hev.
  rewrite minus_one_day, minus_two_days by exact Hy.
  rewrite (offset_job_known reminder _ 1 _ name Htz Hk).
  rewrite (offset_job_known reminder _ 2 _ name Htz Hk).
  cbn [snd fst]. unfold add_job.
  split; [apply installed_all|].
  rewrite lookup_insert_eq.
  rewrite (lookup_insert_ne _ (offset_job_id reminder 2)
                           (offset_job_id reminder 1))
    by (intros E; apply offset_job_id_inj in E; lia).
  rewrite lookup_insert_eq.
  rewrite !(lookup_insert_ne _ _ (offset_job_id reminder 0))
    by (intros E; apply offset_job_id_inj in E; lia).
  rewrite lookup_insert_eq. auto.
Qed.

End Zones.

End SchedulingFacts.

(** ** The active-window controller *)

Module PollingFacts.

Import Bot.

Lemma transitions_app (a b : list Event) :
  transitions (a ++ b) = transitions a ++ transitions b.
Proof. apply List.filter_app. Qed.

Lemma stop_refused (self : ReminderBot) (clock : Clock) (reason : string)
    (st : Polling) :
  running st = false \/ _is_active_hours self clock = ret true ->
  _stop_polling_if_needed self clock reason st = (ret tt, st).
Proof.
  unfold _stop_polling_if_needed. intros [H | H].
  - now rewrite H.
  - rewrite H. now destruct (running st).
Qed.

(** C6: a sleep request made while the clock is inside the active window
    (or while the loop is already stopped) changes nothing, whether it
    comes from the window-end job or from the inactivity waiter: the loop
    keeps its state and no start or stop is issued. *)
Theorem sleep_request_inside_window_is_refused
    (self : ReminderBot) (clock : Clock) (clocks : list Clock)
    (reason : string) (st : Polling) :
  running st = false \/
  (_is_active_hours self clock = ret true /\
   Forall (fun c => _is_active_hours self c = ret true) clocks) ->
  _stop_polling_if_needed self clock reason st = (ret tt, st) /\
  _sleep_job self clock st = st /\
  running (_inactivity_countdown self clocks st) = running st /\
  events (_inactivity_countdown self clocks st) = events st.
Proof.
  intros H.
  assert (Hstop : forall r, _stop_polling_if_needed self clock r st
                            = (ret tt, st)).
  { intros r. apply stop_refused. tauto. }
  split; [apply Hstop|]. split; [unfold _sleep_job; now rewrite Hstop|].
  assert (Hall : forall c, In c clocks ->
                 _stop_polling_if_needed self c "timeout" st = (ret tt, st)).
  { intros c Hc. apply stop_refused. destruct H as [H | [_ H]]; [auto|].
    right. rewrite List.Forall_forall in H. auto. }
  clear H Hstop. induction clocks as [|c clocks IH]; simpl; [auto|].
  destruct (last_activity_vn st) as [la|]; [|auto].
  destruct (Cal.plus_minutes la (inactivity_minutes self)) as [e|dl]; [auto|].
  destruct (Cal.leb dl (c (vn_tz self))).
  - rewrite Hall by (now left). auto.
  - destruct (_is_active_hours self c) as [e|[|]]; auto.
    apply IH. intros c' Hc'. apply Hall. now right.
Qed.

Lemma sleep_request_inside_window_is_refused_witness :
  _is_active_hours Samples.bot
    (Samples.reads (Cal.mkdt 2024 5 14 7 39 59 0)) = ret true /\
  _stop_polling_if_needed Samples.bot
    (Samples.reads (Cal.mkdt 2024 5 14 7 39 59 0)) "timeout" Samples.awake
    = (ret tt, Samples.awake) /\
  _sleep_job Samples.bot (Samples.reads (Cal.mkdt 2024 5 14 7 39 59 0))
             Samples.awake = Samples.awake.
Proof.
  split; [reflexivity|].
  pose proof (sleep_request_inside_window_is_refused Samples.bot
                (Samples.reads (Cal.mkdt 2024 5 14 7 39 59 0)) []
                "timeout" Samples.awake) as H.
  destruct H as (H1 & H2 & _).
  - right. split; [reflexivity | constructor].
  - split; [exact H1 | exact H2].
Defined.

Lemma start_when_stopped (self : ReminderBot) (clock : Clock)
    (source : string) (st : Polling) :
  running st = false ->
  let st' := snd (_start_polling_if_needed self clock source st) in
  running st' = true /\
  peek_offset st' = peek_offset st /\
  transitions (events st') = transitions (events st) ++ [StartPolling].
Proof.
  intros H. unfold _start_polling_if_needed. rewrite H.
  destruct (_is_active_hours self clock) as [e|[|]]; simpl;
    try (rewrite transitions_app; simpl; auto).
  unfold cancel_pending. simpl.
  destruct (inactivity_task st) as [[|]|]; simpl;
    rewrite ?transitions_app; simpl; rewrite ?transitions_app; simpl;
    rewrite ?app_nil_r; auto.
Qed.

Lemma register_activity_keeps (self : ReminderBot) (clock : Clock)
    (st : Polling) :
  let st' := snd (_register_activity self clock st) in
  running st' = running st /\
  peek_offset st' = peek_offset st /\
  transitions (events st') = transitions (events st).
Proof.
  unfold _register_activity.
  destruct (_is_active_hours self clock) as [e|[|]]; simpl; auto.
  unfold _schedule_inactivity_timer, cancel_pending. simpl.
  destruct (inactivity_task st) as [[|]|]; simpl;
    rewrite ?transitions_app; simpl; rewrite ?transitions_app; simpl;
    rewrite ?app_nil_r; auto.
Qed.

Lemma nothing_newer (waiting : list Update) (cursor : Z) :
  Forall (fun u => update_id u <= cursor) waiting ->
  List.filter (fun u => cursor + 1 <=? update_id u) waiting = [].
Proof.
  induction 1 as [|u l Hu _ IH]; simpl; [reflexivity|].
  destruct (Z.leb_spec (cursor + 1) (update_id u)); [lia | exact IH].
Qed.

Lemma probe_sees_nothing_new (self : ReminderBot)
    (clock clock_wake clock_activity : Clock) (waiting : list Update)
    (st : Polling) (cursor : Z) :
  peek_offset st = Some cursor -> cursor <> 0 ->
  Forall (fun u => update_id u <= cursor) waiting ->
  _peek_updates_job self clock clock_wake clock_activity
                    (get_updates waiting) st = (st, []).
Proof.
  intros Hc Hz Hw. unfold _peek_updates_job.
  destruct (_is_active_hours self clock) as [e|[|]]; try reflexivity.
  destruct (running st); [reflexivity|].
  rewrite Hc. destruct (Z.eqb_spec cursor 0); [contradiction|].
  unfold get_updates, ret. now rewrite nothing_newer.
Qed.

(** C7: a probe tick that runs outside the window while the loop is
    stopped and to which the messaging service hands items reports exactly
    those items, opens the loop with exactly one start and moves the cursor
    to the id of the newest of them; after that a probe tick that finds no
    newer item waiting observes nothing and changes nothing. A tick reports
    items only when it made that call in that state and these are the
    items the service returned. A tick that finds the loop running, or
    observes nothing, leaves the state as it was. Item ids are positive, as
    the messaging service numbers them. *)
Theorem probe_tick_wakes_once
    (self : ReminderBot) (clock clock_wake clock_activity : Clock)
    (api : GetUpdates) (st : Polling) :
  let offset :=
    match peek_offset st with
    | Some o => if o =? 0 then None else Some (o + 1)
    | None => None
    end in
  let tick := _peek_updates_job self clock clock_wake clock_activity api st in
  (forall (updates : list Update) (newest : Update),
     _is_active_hours self clock = inr false -> running st = false ->
     api offset 1%nat = inr updates -> last updates = Some newest ->
     snd tick = updates /\
     running (fst tick) = true /\
     transitions (events (fst tick))
       = transitions (events st) ++ [StartPolling] /\
     peek_offset (fst tick) = Some (update_id newest) /\
     (0 < update_id newest ->
      forall (c c1 c2 : Clock) (waiting : list Update) (later : Polling),
        peek_offset later = Some (update_id newest) ->
        Forall (fun u => update_id u <= update_id newest) waiting ->
        _peek_updates_job self c c1 c2 (get_updates waiting) later
          = (later, []))) /\
  (snd tick <> [] ->
   _is_active_hours self clock = inr false /\ running st = false /\
   api offset 1%nat = inr (snd tick)) /\
  (running st = true \/ snd tick = [] -> fst tick = st).
Proof.
  intros offset tick. subst tick offset. unfold _peek_updates_job.
  split; [|split].
  - intros updates newest Hact Hrun Hapi Hlast.
    rewrite Hact, Hrun, Hapi, Hlast.
    set (st1 := {| running := false;
                   last_activity_vn := last_activity_vn st;
                   inactivity_task := inactivity_task st;
                   peek_offset := Some (update_id newest);
                   events := events st |}).
    pose proof (start_when_stopped self clock_wake "message" st1 eq_refl)
      as (Hr & Hp & Ht).
    assert (Hlater :
      0 < update_id newest ->
      forall (c c1 c2 : Clock) (waiting : list Update) (later : Polling),
        peek_offset later = Some (update_id newest) ->
        Forall (fun u => update_id u <= update_id newest) waiting ->
        _peek_updates_job self c c1 c2 (get_updates waiting) later
          = (later, [])).
    { intros Hpos c c1 c2 waiting later Hl Hw.
      apply (probe_sees_nothing_new self c c1 c2 waiting later
               (update_id newest)); [exact Hl | lia | exact Hw]. }
    destruct (_start_polling_if_needed self clock_wake "message" st1)
      as [[e|?] st2]; cbn [fst snd] in Hr, Hp, Ht |- *.
    + rewrite Hr, Hp, Ht. auto.
    + pose proof (register_activity_keeps self clock_activity st2)
        as (Hr' & Hp' & Ht').
      cbn zeta in Hr', Hp', Ht'. rewrite Hr', Hp', Ht', Hr, Hp, Ht. auto.
  - destruct (_is_active_hours self clock) as [e|[|]];
      try (intros H; now elim H).
    destruct (running st); [intros H; now elim H|].
    destruct (api _ _) as [e|updates]; [intros H; now elim H|].
    destruct (last updates) as [u|] eqn:Hlast.
    + destruct (_start_polling_if_needed _ _ _ _) as [[e|?] st2];
        cbn [snd]; auto.
    + cbn [snd]. auto.
  - destruct (_is_active_hours self clock) as [e|[|]]; try reflexivity.
    destruct (running st); [reflexivity|].
    destruct (api _ _) as [e|updates]; [reflexivity|].
    destruct (last updates) as [u|] eqn:Hlast; [|reflexivity].
    assert (Hne : updates <> []).
    { intros ->. discriminate Hlast. }
    destruct (_start_polling_if_needed _ _ _ _) as [[e|?] st2];
      cbn [fst snd]; intros [Hx | Hx]; try discriminate Hx;
      now elim Hne.
Qed.

Lemma probe_tick_wakes_once_witness :
  let tick :=
    _peek_updates_job Samples.bot
      (Samples.reads (Cal.mkdt 2024 5 14 22 0 0 0))
      (Samples.reads (Cal.mkdt 2024 5 14 22 0 1 0))
      (Samples.reads (Cal.mkdt 2024 5 14 22 0 2 0))
      (get_updates [mkUpdate 41]) Samples.asleep in
  let later := mkPolling false None None (Some 41) [] in
  snd tick = [mkUpdate 41] /\
  running (fst tick) = true /\
  transitions (events (fst tick)) = [StartPolling] /\
  peek_offset (fst tick) = Some 41 /\
  _peek_updates_job Samples.bot
    (Samples.reads (Cal.mkdt 2024 5 14 22 1 0 0))
    (Samples.reads (Cal.mkdt 2024 5 14 22 1 1 0))
    (Samples.reads (Cal.mkdt 2024 5 14 22 1 2 0))
    (get_updates [mkUpdate 41]) later = (later, []).
Proof.
  intros tick later.
  destruct (probe_tick_wakes_once Samples.bot
              (Samples.reads (Cal.mkdt 2024 5 14 22 0 0 0))
              (Samples.reads (Cal.mkdt 2024 5 14 22 0 1 0))
              (Samples.reads (Cal.mkdt 2024 5 14 22 0 2 0))
              (get_updates [mkUpdate 41]) Samples.asleep) as [H _].
  destruct (H [mkUpdate 41] (mkUpdate 41) eq_refl eq_refl eq_refl eq_refl)
    as (H0 & H1 & H2 & H3 & H4).
  split; [exact H0|]. split; [exact H1|]. split; [exact H2|].
  split; [exact H3|].
  apply H4; [reflexivity | reflexivity |].
  constructor; [cbn; lia | constructor].
Defined.

End PollingFacts.

(** ** The firing callback *)

Module FiringFacts.

Import Bot.

Section Zones.

Variable known_zone : string -> bool.
Variable cron_text : string -> string -> bool.

Lemma fire_once_due (self : ReminderBot) (clock : Clock) (stamp : string)
    (user_id : PyVal) (reminder : Db.Reminder) (w : World) :
  Db.frequency reminder = "once" ->
  send_reminder_job known_zone self clock (ret tt) stamp user_id reminder
                    0 w
  = {| db := snd (Db.delete_reminder
                    (Db.log_reminder_sent (db w) (Db.id reminder) user_id
                                          stamp)
                    (Db.id reminder));
       scheduler := remove_jobs_with_prefix (job_prefix reminder)
                                            (scheduler w);
       sent := sent w ++ [mkNotification user_id DueToday
                                         (Db.text reminder) "once"] |}.
Proof. intros H. unfold send_reminder_job. rewrite H. reflexivity. Qed.

(** C5: firing offset 0 of a [once] reminder with a successful send leaves
    no row carrying the reminder's id in the store, so none in the listing
    of active reminders, and no job whose key starts with the reminder's
    prefix, in particular none of its offset jobs. The rows and jobs of
    other reminders stay. Ids are numbers, unique in the sheet. *)
Theorem once_reminder_retired_on_due_notice
    (self : ReminderBot) (clock : Clock) (stamp : string) (user_id : PyVal)
    (reminder : Db.Reminder) (n : Z) (w : World) :
  Db.frequency reminder = "once" ->
  Db.id reminder = VInt n ->
  NoDup (map (fun r => Py.str (Db.id r)) (Db.reminders_sheet (db w))) ->
  let w' := send_reminder_job known_zone self clock (ret tt) stamp user_id
                              reminder 0 w in
  (forall r, In r (Db.reminders_sheet (db w')) ->
             Py.str (Db.id r) <> Py.str (VInt n)) /\
  (forall r, In r (Db.get_all_active_reminders (db w')) ->
             Py.str (Db.id r) <> Py.str (VInt n)) /\
  (forall key, Py.startswith key (job_prefix reminder) = true ->
               scheduler w' !! key = None) /\
  (forall offset, scheduler w' !! offset_job_id reminder offset = None) /\
  (forall r, In r (Db.reminders_sheet (db w)) ->
             Py.str (Db.id r) <> Py.str (VInt n) ->
             In r (Db.reminders_sheet (db w'))) /\
  (forall key, Py.startswith key (job_prefix reminder) = false ->
               scheduler w' !! key = scheduler w !! key).
Proof.
  intros Hfreq Hid Hnd w'. subst w'. rewrite fire_once_due by exact Hfreq.
  cbn [db scheduler]. rewrite Hid.
  pose proof (StringFacts.strip_number n) as Hs.
  assert (Hrows : forall r,
            In r (Db.reminders_sheet
                    (snd (Db.delete_reminder
                            (Db.log_reminder_sent (db w) (VInt n) user_id
                                                  stamp) (VInt n)))) ->
            Py.str (Db.id r) <> Py.str (VInt n)).
  { rewrite <- Hs. apply StoreFacts.delete_reminder_absent.
    now rewrite StoreFacts.log_keeps_ids. }
  assert (Hkeys : forall key,
            Py.startswith key (job_prefix reminder) = true ->
            remove_jobs_with_prefix (job_prefix reminder) (scheduler w)
              !! key = None).
  { intros key Hk.
    now rewrite RegistryFacts.remove_jobs_with_prefix_lookup, Hk. }
  repeat split.
  - exact Hrows.
  - intros r Hr. apply Hrows. now apply StoreFacts.active_listed.
  - exact Hkeys.
  - intros offset. apply Hkeys. apply RegistryFacts.offset_job_id_prefixed.
  - intros r Hr Hne. rewrite <- Hs in Hne.
    apply StoreFacts.delete_reminder_keeps_others; [|exact Hne].
    now apply StoreFacts.log_keeps_others.
  - intros key Hk.
    now rewrite RegistryFacts.remove_jobs_with_prefix_lookup, Hk.
Qed.

(** What the callback does for a [monthly] reminder after a successful
    send: the job of the fired offset is replaced by a date job at the next
    occurrence minus the offset. *)
Lemma monthly_rearmed (self : ReminderBot) (clock : Clock) (stamp : string)
    (user_id : PyVal) (reminder : Db.Reminder) (offset : nat) (w : World)
    (name : string) (next_event run_dt : Cal.datetime) :
  Db.frequency reminder = "monthly" ->
  Db.timezone reminder = Some name -> known_zone name = true ->
  _compute_next_month_event known_zone self clock reminder
    = inr next_event ->
  Cal.minus_days next_event offset = inr run_dt ->
  scheduler (send_reminder_job known_zone self clock (ret tt) stamp user_id
                               reminder offset w)
  = <[offset_job_id reminder offset :=
        mkJob (DateTrigger run_dt (TZ name))
              (Db.user_id reminder, reminder, offset) 300]> (scheduler w).
Proof.
  intros Hf Htz Hk Hev Hrun. unfold send_reminder_job.
  rewrite Hf. simpl String.eqb. cbn [andb]. cbn iota.
  rewrite Hev, Hrun. cbn [scheduler].
  unfold _schedule_offset_job, pytz_timezone. rewrite Htz.
  cbn [default from_option id]. rewrite Hk. cbn [snd].
  rewrite RegistryFacts.try_remove_job_delete. unfold add_job.
  apply insert_delete_eq.
Qed.

(** For offset 0 the new instant is the next occurrence itself, which lies
    strictly after the clock reading of the firing. *)
Lemma monthly_due_job_rearmed_later (self : ReminderBot) (clock : Clock)
    (stamp : string) (user_id : PyVal) (reminder : Db.Reminder) (w : World)
    (name : string) (next_event : Cal.datetime) :
  Db.frequency reminder = "monthly" ->
  Db.timezone reminder = Some name -> known_zone name = true ->
  _compute_next_month_event known_zone self clock reminder
    = inr next_event ->
  1 <= Cal.year next_event ->
  trigger <$> scheduler (send_reminder_job known_zone self clock (ret tt)
                           stamp user_id reminder 0 w)
                !! offset_job_id reminder 0
    = Some (DateTrigger next_event (TZ name)) /\
  Cal.ltb (clock (TZ name)) next_event = true.
Proof.
  intros Hf Htz Hk Hev Hy. split.
  - rewrite (monthly_rearmed self clock stamp user_id reminder 0 w name
                             next_event next_event Hf Htz Hk Hev).
    + now rewrite lookup_insert_eq.
    + unfold Cal.minus_days, Cal.MINYEAR. simpl.
      apply Z.leb_le in Hy. now rewrite Hy.
  - destruct (TriggerFacts.next_event_in_future known_zone self clock
                reminder next_event Hev) as (tz & Hz & Hlt).
    unfold pytz_timezone in Hz. rewrite Htz in Hz.
    cbn [default from_option id] in Hz. rewrite Hk in Hz.
    now injection Hz as <-.
Qed.

End Zones.

Lemma once_reminder_retired_on_due_notice_witness :
  NoDup (map (fun r => Py.str (Db.id r))
             (Db.reminders_sheet (db (Samples.world "once")))) /\
  (forall r,
      In r (Db.get_all_active_reminders
              (db (send_reminder_job Samples.zones Samples.bot
                     (Samples.reads (Cal.mkdt 2024 5 15 7 35 0 0)) (ret tt)
                     "2024-05-15T07:35:00" (VInt 100)
                     (Samples.reminder 15 "once" "UTC") 0
                     (Samples.world "once")))) ->
      Py.str (Db.id r) <> Py.str (VInt 7)) /\
  (forall offset,
      scheduler (send_reminder_job Samples.zones Samples.bot
                   (Samples.reads (Cal.mkdt 2024 5 15 7 35 0 0)) (ret tt)
                   "2024-05-15T07:35:00" (VInt 100)
                   (Samples.reminder 15 "once" "UTC") 0
                   (Samples.world "once"))
        !! offset_job_id (Samples.reminder 15 "once" "UTC") offset = None).
Proof.
  assert (Hnd : NoDup (map (fun r => Py.str (Db.id r))
                           (Db.reminders_sheet (db (Samples.world "once"))))).
  { apply (bool_decide_unpack _). vm_compute. exact I. }
  split; [exact Hnd|].
  destruct (once_reminder_retired_on_due_notice Samples.zones Samples.bot
              (Samples.reads (Cal.mkdt 2024 5 15 7 35 0 0))
              "2024-05-15T07:35:00" (VInt 100)
              (Samples.reminder 15 "once" "UTC") 7 (Samples.world "once")
              eq_refl eq_refl Hnd) as (_ & H2 & _ & H4 & _).
  split; [exact H2 | exact H4].
Defined.

End FiringFacts.

(** ** Reading numbers back *)

Module ParsingFacts.

Import DbRest BotRest.

Lemma digits_acc (d : Decimal.uint) (acc : positive) :
  Py.digits (Zpos acc) true
    (map Py.byte (list_ascii_of_string (NilEmpty.string_of_uint d)))
  = Some (Zpos (Pos.of_uint_acc d acc)).
Proof.
  revert acc. induction d; intros acc; try reflexivity.
  all: cbn [NilEmpty.string_of_uint list_ascii_of_string map Py.digits
            Pos.of_uint_acc].
  all: match goal with |- context [Py.decimal_of ?c] =>
         let v := eval vm_compute in (Py.decimal_of c) in
         change (Py.decimal_of c) with v end; cbv match.
  all: match goal with
       | |- Py.digits ?a _ _ = Some (Zpos (Pos.of_uint_acc _ ?b)) =>
           replace a with (Zpos b) by (cbv delta [Pos.of_uint_acc]; lia)
       end; apply IHd.
Qed.

Lemma digits_uint (d : Decimal.uint) :
  Py.digits 0 true
    (map Py.byte (list_ascii_of_string (NilEmpty.string_of_uint d)))
  = Some (Z.of_N (Pos.of_uint d)).
Proof.
  induction d; try reflexivity.
  all: cbn [NilEmpty.string_of_uint list_ascii_of_string map Py.digits
            Pos.of_uint].
  all: match goal with |- context [Py.decimal_of ?c] =>
         let v := eval vm_compute in (Py.decimal_of c) in
         change (Py.decimal_of c) with v end; cbv match.
  all: try exact IHd.
  all: cbn [Z.of_N];
       match goal with |- Py.digits ?a _ _ = _ =>
         let v := eval vm_compute in a in change a with v end;
       apply digits_acc.
Qed.

Lemma uint_start (d : Decimal.uint) :
  d <> Decimal.Nil ->
  exists p t,
    map Py.byte (list_ascii_of_string (NilEmpty.string_of_uint d)) = p :: t /\
    (p =? 43) = false /\ (p =? 45) = false /\
    Py.digits 0 false (p :: t) = Py.digits 0 true (p :: t).
Proof.
  destruct d; [congruence|..]; intros _;
    cbn [NilEmpty.string_of_uint list_ascii_of_string map];
    eexists _, _; (split; [reflexivity|]); repeat split; reflexivity.
Qed.

Lemma to_uint_nonnil (p : positive) : Pos.to_uint p <> Decimal.Nil.
Proof.
  intros H. pose proof (DecimalPos.Unsigned.of_to p) as E.
  rewrite H in E. discriminate.
Qed.

(** [int(str(z)) == z] *)
Lemma int_of_Z_to_string (z : Z) :
  Py.int_of_string (Py.Z_to_string z) = Some z.
Proof.
  unfold Py.int_of_string.
  destruct (StringFacts.Z_to_string_points z) as [E H].
  rewrite StringFacts.trim_clean, E;
    [|eapply Forall_impl; [exact H|]; cbv beta; tauto].
  clear E H. unfold Py.Z_to_string.
  destruct z as [|p|p]; [reflexivity|..];
    cbn [Z.to_int NilZero.string_of_int]; unfold NilZero.string_of_uint;
    pose proof (to_uint_nonnil p) as Hn;
    pose proof (DecimalPos.Unsigned.of_to p) as E;
    pose proof (digits_uint (Pos.to_uint p)) as Hd;
    destruct (uint_start _ Hn) as (q & t & El & E43 & E45 & Hs);
    rewrite E in Hd; rewrite El in Hd;
    destruct (Pos.to_uint p) eqn:Eu; try congruence.
  all: cbn [list_ascii_of_string map].
  all: try (rewrite El, E43, E45, Hs; exact Hd).
  all: change (Py.byte "-" =? 43) with false;
       change (Py.byte "-" =? 45) with true; cbv match;
       rewrite El, Hs, Hd; reflexivity.
Qed.

Lemma Z_to_string_inj (a b : Z) :
  Py.Z_to_string a = Py.Z_to_string b -> a = b.
Proof.
  intros H. pose proof (int_of_Z_to_string a) as Ha.
  rewrite H, int_of_Z_to_string in Ha. congruence.
Qed.

Lemma parse_number (z : Z) : _parse_user_id (VInt z) = Some z.
Proof.
  unfold _parse_user_id. rewrite StringFacts.strip_number.
  apply int_of_Z_to_string.
Qed.

(** X1: the two id parsers, [Database._normalize_user_id] and
    [ReminderBot._parse_user_id], on a cell that holds an integer, a
    boolean, nothing or a text: both read an integer as it is and read
    nothing from an empty cell; a boolean is read as 0 or 1 by the first
    and not at all by the second; and on a text they can differ the other
    way round, [int] skipping fewer blanks than [strip] removes: the
    text made of the character 28 and the digits 12 is read as 12 by the
    second only. *)
Theorem parsers_agree_on_integers_and_differ_on_booleans :
  (forall z, _normalize_user_id (VInt z) = Some z /\
             _parse_user_id (VInt z) = Some z) /\
  (_normalize_user_id VNone = None /\ _parse_user_id VNone = None) /\
  (forall b, _normalize_user_id (VBool b) = Some (if b then 1 else 0) /\
             _parse_user_id (VBool b) = None) /\
  (_normalize_user_id (VStr (String (ascii_of_nat 28) "12")) = None /\
   _parse_user_id (VStr (String (ascii_of_nat 28) "12")) = Some 12).
Proof.
  split; [|split; [|split]].
  - intros z. split; [reflexivity | apply parse_number].
  - split; reflexivity.
  - intros b. split; [reflexivity | now destruct b].
  - split; vm_compute; reflexivity.
Qed.

End ParsingFacts.

(** ** Who is told what every day *)

Module StatusFacts.

Import Cal Bot BotRest.

Lemma set_add_In (z x : Z) (l : list Z) :
  In x (set_add z l) <-> x = z \/ In x l.
Proof.
  induction l as [|a l IH]; simpl; [intuition|].
  destruct (Z.ltb_spec z a); [simpl; intuition|].
  destruct (Z.eqb_spec z a); [subst; simpl; intuition|].
  simpl. rewrite IH. intuition.
Qed.

Lemma set_add_sorted (z : Z) (l : list Z) :
  StronglySorted Z.lt l -> StronglySorted Z.lt (set_add z l).
Proof.
  induction 1 as [|a l Hs IH Ha]; simpl.
  - repeat constructor.
  - destruct (Z.ltb_spec z a).
    + constructor; [now constructor|].
      constructor; [assumption|].
      eapply Forall_impl; [exact Ha|]. simpl. lia.
    + destruct (Z.eqb_spec z a); [now constructor|].
      constructor; [assumption|].
      apply Forall_forall. intros x Hx.
      rewrite list_elem_of_In, set_add_In in Hx.
      destruct Hx as [-> | Hx]; [lia|].
      rewrite Forall_forall in Ha. now apply Ha, list_elem_of_In.
Qed.

Lemma sorted_set_In (x : Z) (l : list Z) : In x (sorted_set l) <-> In x l.
Proof.
  unfold sorted_set. induction l as [|a l IH]; simpl; [tauto|].
  rewrite set_add_In, IH. intuition.
Qed.

Lemma sorted_set_sorted (l : list Z) : StronglySorted Z.lt (sorted_set l).
Proof.
  unfold sorted_set. induction l as [|a l IH]; simpl;
    [constructor | now apply set_add_sorted].
Qed.

Lemma sorted_NoDup (l : list Z) : StronglySorted Z.lt l -> List.NoDup l.
Proof.
  induction 1 as [|a l Hs IH Ha]; constructor; [|assumption].
  intros Hin. rewrite Forall_forall in Ha.
  apply list_elem_of_In, Ha in Hin. lia.
Qed.

Lemma omap_In {A B} (f : A -> option B) (l : list A) (y : B) :
  In y (omap f l) <-> exists x, In x l /\ f x = Some y.
Proof.
  rewrite <- list_elem_of_In, list_elem_of_omap.
  split; intros (x & H1 & H2); exists x; split; auto;
    now apply list_elem_of_In.
Qed.

(** X2: [_get_all_user_ids] returns, in strictly ascending order and so
    without repetition, exactly the numbers [_parse_user_id] reads from
    the id cells of the [Users] sheet and from the [user_id] cells of the
    reminders it is given (the active ones when it is given none). *)
Theorem all_user_ids_sorted_and_exact
    (users : list DbRest.User) (db : Db.Database)
    (reminders : option (list Db.Reminder)) (z : Z) :
  StronglySorted Z.lt (_get_all_user_ids users db reminders) /\
  (In z (_get_all_user_ids users db reminders) <->
   (exists u, In u users /\ _parse_user_id (DbRest.id u) = Some z) \/
   (exists r, In r (default (Db.get_all_active_reminders db) reminders) /\
              _parse_user_id (Db.user_id r) = Some z)).
Proof.
  unfold _get_all_user_ids. split; [apply sorted_set_sorted|].
  rewrite sorted_set_In, in_app_iff, !omap_In.
  destruct reminders; reflexivity.
Qed.

Section Zones.

Variable known_zone : string -> bool.
Variable cron_text : string -> string -> bool.

Lemma any_due_false (self : ReminderBot) (clock : Clock)
    (l : list Db.Reminder) :
  any_due_today known_zone self clock l = inr false ->
  forall r, In r l -> _reminder_due_today known_zone self clock r = inr false.
Proof.
  induction l as [|a l IH]; simpl; [tauto|].
  destruct (_reminder_due_today known_zone self clock a) as [e|[]] eqn:E;
    try discriminate.
  intros H r [<- | Hr]; auto.
Qed.

Lemma any_due_total (self : ReminderBot) (clock : Clock)
    (l : list Db.Reminder) :
  (forall r, In r l ->
             exists b, _reminder_due_today known_zone self clock r = inr b) ->
  exists b, any_due_today known_zone self clock l = inr b /\
            (b = false <->
             forall r, In r l ->
                       _reminder_due_today known_zone self clock r
                       = inr false).
Proof.
  induction l as [|a l IH]; intros H; simpl.
  - exists false. split; [reflexivity|]. split; [tauto | reflexivity].
  - destruct (H a (or_introl eq_refl)) as [b Hb]. rewrite Hb.
    destruct b.
    + exists true. split; [reflexivity|]. split; [discriminate|].
      intros Hall. specialize (Hall a (or_introl eq_refl)). congruence.
    + destruct IH as (b & Hb' & Hiff); [intros r Hr; apply H; now right|].
      exists b. split; [exact Hb'|]. rewrite Hiff. split.
      * intros Hall r [<- | Hr]; auto.
      * intros Hall r Hr. apply Hall. now right.
Qed.

Lemma reminders_by_user_In (reminders : list Db.Reminder) (u : Z)
    (r : Db.Reminder) :
  In r (reminders_by_user reminders u)
  <-> In r reminders /\ _parse_user_id (Db.user_id r) = Some u.
Proof.
  unfold reminders_by_user. rewrite filter_In.
  destruct (_parse_user_id (Db.user_id r)) as [z|]; [|intuition discriminate].
  destruct (Z.eqb_spec z u); [subst; tauto|].
  split; [intros [_ [=]] | intros [_ [=]]; congruence].
Qed.

Lemma status_round_sent (self : ReminderBot) (clock : Clock)
    (reminders : list Db.Reminder) (ids : list Z) (u : Z) :
  In u (fst (status_round known_zone self clock reminders ids)) ->
  In u ids /\
  any_due_today known_zone self clock (reminders_by_user reminders u)
  = inr false.
Proof.
  induction ids as [|a ids IH]; simpl; [tauto|].
  destruct (any_due_today known_zone self clock
              (reminders_by_user reminders a)) as [e|[]] eqn:E; simpl.
  - tauto.
  - intros H. destruct (IH H). auto.
  - destruct (status_round known_zone self clock reminders ids)
      as [sent r] eqn:Er. simpl in *.
    intros [<- | H]; [auto|]. destruct (IH H). auto.
Qed.

Lemma status_round_all (self : ReminderBot) (clock : Clock)
    (reminders : list Db.Reminder) (ids : list Z) :
  (forall r, In r reminders ->
             exists b, _reminder_due_today known_zone self clock r = inr b) ->
  status_round known_zone self clock reminders ids
  = (List.filter
       (fun u =>
          match any_due_today known_zone self clock
                              (reminders_by_user reminders u) with
          | inr false => true
          | _ => false
          end) ids,
     ret tt).
Proof.
  intros Hall. induction ids as [|a ids IH]; simpl; [reflexivity|].
  destruct (any_due_total self clock (reminders_by_user reminders a))
    as (b & Hb & _).
  { intros r Hr. apply reminders_by_user_In in Hr. now apply Hall. }
  rewrite Hb, IH. now destruct b.
Qed.

(** X3: [_daily_no_reminders_job] sends its message only to ids that
    [_get_all_user_ids] lists, and only to a user none of whose active
    reminders [_reminder_due_today] reports as due. *)
Theorem status_goes_only_to_users_with_nothing_due
    (self : ReminderBot) (clock : Clock) (users : list DbRest.User)
    (db : Db.Database) (u : Z) :
  In u (fst (_daily_no_reminders_job known_zone self clock users db)) ->
  In u (_get_all_user_ids users db (Some (Db.get_all_active_reminders db)))
  /\
  forall r, In r (Db.get_all_active_reminders db) ->
            _parse_user_id (Db.user_id r) = Some u ->
            _reminder_due_today known_zone self clock r = inr false.
Proof.
  unfold _daily_no_reminders_job. intros H.
  apply status_round_sent in H. destruct H as [Hin Hany].
  split; [exact Hin|]. intros r Hr Hu.
  apply (any_due_false _ _ _ Hany). now apply reminders_by_user_In.
Qed.

(** The owner of an active reminder whose frequency reads [daily] (in
    any letter case) is never sent the daily status message. *)
Theorem daily_owner_gets_no_status
    (self : ReminderBot) (clock : Clock) (users : list DbRest.User)
    (db : Db.Database) (r : Db.Reminder) (u : Z) :
  In r (Db.get_all_active_reminders db) ->
  Py.lower (Db.frequency r) = "daily" ->
  _parse_user_id (Db.user_id r) = Some u ->
  ~ In u (fst (_daily_no_reminders_job known_zone self clock users db)).
Proof.
  intros Hr Hf Hu Hin. unfold _daily_no_reminders_job in Hin.
  apply status_round_sent in Hin. destruct Hin as [_ Hany].
  assert (Hd : _reminder_due_today known_zone self clock r = inr false).
  { apply (any_due_false _ _ _ Hany). now apply reminders_by_user_In. }
  unfold _reminder_due_today in Hd. rewrite Hf in Hd. discriminate.
Qed.

(** X4: when [_reminder_due_today] raises on no active reminder, the daily
    status job ends normally, messages nobody twice, and messages every
    listed user none of whose active reminders is due. *)
Theorem status_reaches_every_user_with_nothing_due
    (self : ReminderBot) (clock : Clock) (users : list DbRest.User)
    (db : Db.Database) :
  (forall r, In r (Db.get_all_active_reminders db) ->
             exists b, _reminder_due_today known_zone self clock r = inr b) ->
  let out := _daily_no_reminders_job known_zone self clock users db in
  snd out = ret tt /\
  List.NoDup (fst out) /\
  forall u,
    In u (_get_all_user_ids users db
                            (Some (Db.get_all_active_reminders db))) ->
    (forall r, In r (Db.get_all_active_reminders db) ->
               _parse_user_id (Db.user_id r) = Some u ->
               _reminder_due_today known_zone self clock r = inr false) ->
    In u (fst out).
Proof.
  intros Hall out. subst out. unfold _daily_no_reminders_job.
  rewrite (status_round_all _ _ _ _ Hall). cbn [fst snd].
  split; [reflexivity|]. split.
  - apply List.NoDup_filter, sorted_NoDup, sorted_set_sorted.
  - intros u Hu Hnone. apply filter_In. split; [exact Hu|].
    destruct (any_due_total self clock
                (reminders_by_user (Db.get_all_active_reminders db) u))
      as (b & Hb & Hiff).
    { intros r Hr. apply reminders_by_user_In in Hr. now apply Hall. }
    rewrite Hb. destruct b; [|reflexivity].
    assert (true = false); [|discriminate].
    apply Hiff. intros r Hr. apply reminders_by_user_In in Hr.
    now apply Hnone.
Qed.

End Zones.

End StatusFacts.

(** ** Due today *)

Module DueFacts.

Import Cal Bot.

Lemma next_month_cases (now : datetime) :
  1 <= month now <= 12 ->
  (next_year now = year now /\ next_month now = month now + 1 /\
   month now < 12) \/
  (next_year now = year now + 1 /\ next_month now = 1 /\ month now = 12).
Proof.
  unfold next_year, next_month. destruct (Z.eqb_spec (month now) 12); lia.
Qed.

Lemma same_date_false (y m d y' m' d' : Z) :
  y <> y' \/ m <> m' \/ d <> d' ->
  (y =? y') && (m =? m') && (d =? d') = false.
Proof.
  intros H. destruct (Z.eqb_spec y y'), (Z.eqb_spec m m'),
    (Z.eqb_spec d d'); simpl; auto; lia.
Qed.

Lemma prev_day_fields (dt : datetime) :
  (1 < day dt ->
   year (prev_day dt) = year dt /\ month (prev_day dt) = month dt /\
   day (prev_day dt) = day dt - 1) /\
  (day dt <= 1 -> 1 < month dt ->
   year (prev_day dt) = year dt /\ month (prev_day dt) = month dt - 1 /\
   day (prev_day dt) = monthrange_last (year dt) (month dt - 1)) /\
  (day dt <= 1 -> month dt <= 1 ->
   year (prev_day dt) = year dt - 1 /\ month (prev_day dt) = 12 /\
   day (prev_day dt) = 31).
Proof.
  unfold prev_day.
  destruct (Z.ltb_spec 1 (day dt)); [cbn [year month day]; lia|].
  destruct (Z.ltb_spec 1 (month dt)); cbn [year month day]; lia.
Qed.

Lemma days_before_next_month (ne : datetime) (y m d : Z) :
  (year ne = y /\ month ne = m + 1 /\ m < 12) \/
  (year ne = y + 1 /\ month ne = 1 /\ m = 12) ->
  1 <= y -> 1 <= m <= 12 -> 1 <= d <= monthrange_last y m ->
  1 <= day ne <= 31 -> day ne = d \/ 28 <= day ne ->
  (1 <= year (prev_day ne) /\
   (year (prev_day ne) <> y \/ month (prev_day ne) <> m \/
    day (prev_day ne) <> d)) /\
  (1 <= year (prev_day (prev_day ne)) /\
   (year (prev_day (prev_day ne)) <> y \/
    month (prev_day (prev_day ne)) <> m \/
    day (prev_day (prev_day ne)) <> d)).
Proof.
  intros Hc Hy Hm Hd HD HD'.
  pose proof (CalFacts.monthrange_last_bounds y m) as B0.
  pose proof (CalFacts.monthrange_last_bounds (year ne) (month ne - 1)) as B1.
  pose proof (CalFacts.monthrange_last_bounds
                (year (prev_day ne)) (month (prev_day ne) - 1)) as B2.
  destruct (prev_day_fields ne) as (Fa & Fb & Fc).
  destruct (prev_day_fields (prev_day ne)) as (Ga & Gb & Gc).
  assert (S1 : 1 <= year (prev_day ne) /\
   (year (prev_day ne) <> y \/ month (prev_day ne) <> m \/
    day (prev_day ne) <> d)).
  { destruct (Z.lt_ge_cases 1 (day ne)) as [L|L].
    - specialize (Fa L). clear Fb Fc Ga Gb Gc. lia.
    - destruct (Z.lt_ge_cases 1 (month ne)) as [L'|L'].
      + specialize (Fb ltac:(lia) L'). clear Fa Fc Ga Gb Gc. lia.
      + specialize (Fc ltac:(lia) ltac:(lia)). clear Fa Fb Ga Gb Gc. lia. }
  split; [exact S1|].
  destruct (Z.lt_ge_cases 1 (day (prev_day ne))) as [K|K].
  - specialize (Ga K). clear Gb Gc.
    destruct (Z.lt_ge_cases 1 (day ne)) as [L|L].
    + specialize (Fa L). clear Fb Fc. lia.
    + destruct (Z.lt_ge_cases 1 (month ne)) as [L'|L'].
      * specialize (Fb ltac:(lia) L'). clear Fa Fc.
        destruct Fb as (F1 & F2 & F3). destruct Ga as (G1 & G2 & G3).
        rewrite G1, G2, G3, F1, F2, F3.
        destruct Hc as [(C1 & C2 & C3)|(C1 & C2 & C3)]; [|lia].
        rewrite C1, C2 in *. replace (m + 1 - 1) with m in * by lia. lia.
      * specialize (Fc ltac:(lia) ltac:(lia)). clear Fa Fb. lia.
  - destruct (Z.lt_ge_cases 1 (day ne)) as [L|L].
    + specialize (Fa L). clear Fb Fc.
      destruct (Z.lt_ge_cases 1 (month (prev_day ne))) as [K'|K'].
      * specialize (Gb K K'). clear Ga Gc. 
        destruct Fa as (F1 & F2 & F3). destruct Gb as (G1 & G2 & G3).
        rewrite G1, G2, G3. rewrite F1, F2 in *.
        destruct Hc as [(C1 & C2 & C3)|(C1 & C2 & C3)]; [|lia].
        rewrite C1, C2 in *. replace (m + 1 - 1) with m in * by lia. lia.
      * specialize (Gc K K'). clear Ga Gb. lia.
    + destruct (Z.lt_ge_cases 1 (month ne)) as [L'|L'].
      * specialize (Fb ltac:(lia) L'). lia.
      * specialize (Fc ltac:(lia) ltac:(lia)). lia.
Qed.

Section Zones.

Variable known_zone : string -> bool.
Variable cron_text : string -> string -> bool.

(** The next event once this month's candidate has passed. *)
Lemma next_event_rolled (self : ReminderBot) (clock : Clock)
    (reminder : Db.Reminder) (name : string) (d hour minute : Z) :
  Db.timezone reminder = Some name -> known_zone name = true ->
  notify_hm self = (hour, minute) ->
  0 <= hour <= 23 -> 0 <= minute <= 59 ->
  Db.day reminder = Some (VInt d) -> 1 <= d <= 31 ->
  valid (clock (TZ name)) = true -> year (clock (TZ name)) < MAXYEAR ->
  leb {| year := year (clock (TZ name)); month := month (clock (TZ name));
         day := Z.min d (monthrange_last (year (clock (TZ name)))
                                         (month (clock (TZ name))));
         hour := hour; minute := minute; second := 0; microsecond := 0 |}
      (clock (TZ name)) = true ->
  _compute_next_month_event known_zone self clock reminder
  = inr {| year := next_year (clock (TZ name));
           month := next_month (clock (TZ name));
           day := Z.min d (monthrange_last (next_year (clock (TZ name)))
                                           (next_month (clock (TZ name))));
           hour := hour; minute := minute; second := 0; microsecond := 0 |}.
Proof.
  intros Htz Hk Hhm Hh Hm Hday Hd Hv Hy Hle.
  unfold _compute_next_month_event, pytz_timezone.
  rewrite Htz, Hhm, Hday. cbn [Py.bind default from_option id].
  rewrite Hk. cbn [Py.bind Py.ret].
  rewrite (TriggerFacts.clamped_candidate (clock (TZ name)) d hour minute)
    by (auto; lia).
  cbn [Py.bind]. rewrite Hle.
  cbn [Py.bind Py.as_index Py.as_number Py.ret year month].
  apply CalFacts.valid_spec in Hv.
  fold (next_month (clock (TZ name))).
  replace (year (clock (TZ name))
           + (if month (clock (TZ name)) =? 12 then 1 else 0))
    with (next_year (clock (TZ name)))
    by (unfold next_year; destruct (month (clock (TZ name)) =? 12); lia).
  destruct (next_month_cases (clock (TZ name))) as [C | C]; [lia|..];
    pose proof (CalFacts.monthrange_last_bounds
                  (next_year (clock (TZ name)))
                  (next_month (clock (TZ name)))) as Hb;
    rewrite CalFacts.replace_valid; try reflexivity;
    apply CalFacts.valid_spec; unfold MAXYEAR in *; simpl; lia.
Qed.

(** X5: on the very day of the month a monthly (or once) reminder names,
    from its notification time on, [_reminder_due_today] answers that the
    reminder is not due today: the next event it looks at is already next
    month's. *)
Theorem not_due_once_todays_notification_time_has_passed
    (self : ReminderBot) (clock : Clock) (reminder : Db.Reminder)
    (name : string) (hour minute : Z) :
  Db.timezone reminder = Some name -> known_zone name = true ->
  notify_hm self = (hour, minute) ->
  0 <= hour <= 23 -> 0 <= minute <= 59 ->
  Py.lower (Db.frequency reminder) = "monthly" \/
  Py.lower (Db.frequency reminder) = "once" ->
  valid (clock (TZ name)) = true -> year (clock (TZ name)) < MAXYEAR ->
  Db.day reminder = Some (VInt (day (clock (TZ name)))) ->
  hour * 60 + minute
    <= Cal.hour (clock (TZ name)) * 60 + Cal.minute (clock (TZ name)) ->
  _reminder_due_today known_zone self clock reminder = ret false.
Proof.
  intros Htz Hk Hhm Hh Hm Hf Hv Hy Hday Hpast.
  set (now := clock (TZ name)) in *.
  pose proof Hv as Hv'. apply CalFacts.valid_spec in Hv'.
  pose proof (CalFacts.monthrange_last_bounds (year now) (month now)) as Hb.
  assert (Hle : leb {| year := year now; month := month now;
                       day := Z.min (day now)
                                    (monthrange_last (year now) (month now));
                       hour := hour; minute := minute; second := 0;
                       microsecond := 0 |} now = true).
  { rewrite Z.min_l by lia. unfold leb, compare. cbn [year month day Cal.hour
      Cal.minute second microsecond]. rewrite !Z.compare_refl. cbn [lex].
    destruct (Z.compare_spec hour (Cal.hour now)) as [E|E|E]; cbn [lex];
      [|reflexivity|lia].
    destruct (Z.compare_spec minute (Cal.minute now)) as [E'|E'|E'];
      cbn [lex]; [|reflexivity|lia].
    destruct (Z.compare_spec 0 (second now)) as [E2|E2|E2]; cbn [lex];
      [|reflexivity|lia].
    destruct (Z.compare_spec 0 (microsecond now)); [reflexivity..|lia]. }
  pose proof (next_event_rolled self clock reminder name (day now) hour
                minute Htz Hk Hhm Hh Hm Hday ltac:(lia) Hv Hy Hle) as Hne.
  fold now in Hne.
  pose proof (CalFacts.monthrange_last_bounds (next_year now)
                (next_month now)) as Hb'.
  pose proof (next_month_cases now ltac:(lia)) as Hcases.
  set (D := Z.min (day now)
                  (monthrange_last (next_year now) (next_month now))) in *.
  assert (HD : 1 <= D <= 31 /\ (D = day now \/ 28 <= D)) by (subst D; lia).
  set (y' := next_year now) in *. set (m' := next_month now) in *.
  clearbody D y' m'.
  remember {| year := y'; month := m'; day := D; hour := hour;
              minute := minute; second := 0; microsecond := 0 |}
    as ne eqn:Ene.
  unfold _reminder_due_today, pytz_timezone.
  rewrite Htz. cbn [default from_option id]. rewrite Hk. fold now.
  assert (Hbody :
    (try! d1 <- minus_days ne 1 ;;
     try! d2 <- minus_days ne 2 ;;
     ret (existsb
            (fun d => match d, date now with
                      | (y, m, dd), (y0, m0, dd0) =>
                          (y =? y0) && (m =? m0) && (dd =? dd0)
                      end)
            [date ne; date d1; date d2])) = ret false).
  { assert (H0 : y' <> year now \/ m' <> month now \/ D <> day now) by lia.
    assert (Hne3 : year ne = y' /\ month ne = m' /\ day ne = D)
      by (rewrite Ene; auto).
    destruct Hne3 as (Ey & Em & Ed).
    destruct (days_before_next_month ne (year now) (month now) (day now))
      as [H1 H2]; try lia.
    destruct H1 as [Hy1 H1], H2 as [Hy2 H2].
    unfold minus_days.
    change (Nat.iter 1 prev_day ne) with (prev_day ne).
    change (Nat.iter 2 prev_day ne) with (prev_day (prev_day ne)).
    destruct (Z.leb_spec MINYEAR (year (prev_day ne)));
      [|unfold MINYEAR in *; lia].
    destruct (Z.leb_spec MINYEAR (year (prev_day (prev_day ne))));
      [|unfold MINYEAR in *; lia].
    cbn [Py.bind Py.ret]. f_equal.
    unfold date. cbn [existsb].
    rewrite (same_date_false _ _ _ _ _ _ H1).
    rewrite (same_date_false _ _ _ _ _ _ H2).
    rewrite Ey, Em, Ed.
    rewrite (same_date_false _ _ _ _ _ _ H0). reflexivity. }
  destruct Hf as [-> | ->]; cbn [String.eqb Ascii.eqb Bool.eqb orb];
    rewrite Hne; exact Hbody.
Qed.

End Zones.

End DueFacts.

(** ** The window, to the minute *)

Module WindowFacts.

Import Cal Bot BotRest.

(** A reading compared with the same day at [h:mi:00]. *)
Lemma leb_time_of_day (now : datetime) (h mi : Z) :
  0 <= second now -> 0 <= microsecond now ->
  0 <= mi <= 59 -> 0 <= minute now <= 59 ->
  leb {| year := year now; month := month now; day := day now;
         hour := h; minute := mi; second := 0; microsecond := 0 |} now
  = (h * 60 + mi <=? hour now * 60 + minute now).
Proof.
  intros Hs Hus Hmi Hm. unfold leb, compare.
  cbn [year month day hour minute second microsecond].
  rewrite !Z.compare_refl. cbn [lex].
  destruct (Z.compare_spec h (hour now)); cbn [lex];
    [|symmetry; apply Z.leb_le; lia|symmetry; apply Z.leb_gt; lia].
  destruct (Z.compare_spec mi (minute now)); cbn [lex];
    [|symmetry; apply Z.leb_le; lia|symmetry; apply Z.leb_gt; lia].
  destruct (Z.compare_spec 0 (second now)); cbn [lex];
    [|symmetry; apply Z.leb_le; lia|lia].
  destruct (Z.compare_spec 0 (microsecond now));
    [symmetry; apply Z.leb_le; lia..|lia].
Qed.

Lemma ltb_time_of_day (now : datetime) (h mi : Z) :
  0 <= second now -> 0 <= microsecond now ->
  0 <= mi <= 59 -> 0 <= minute now <= 59 ->
  ltb now {| year := year now; month := month now; day := day now;
             hour := h; minute := mi; second := 0; microsecond := 0 |}
  = (hour now * 60 + minute now <? h * 60 + mi).
Proof.
  intros Hs Hus Hmi Hm. unfold ltb, compare.
  cbn [year month day hour minute second microsecond].
  rewrite !Z.compare_refl. cbn [lex].
  destruct (Z.compare_spec (hour now) h); cbn [lex];
    [|symmetry; apply Z.ltb_lt; lia|symmetry; apply Z.ltb_ge; lia].
  destruct (Z.compare_spec (minute now) mi); cbn [lex];
    [|symmetry; apply Z.ltb_lt; lia|symmetry; apply Z.ltb_ge; lia].
  destruct (Z.compare_spec (second now) 0); cbn [lex];
    [|lia|symmetry; apply Z.ltb_ge; lia].
  destruct (Z.compare_spec (microsecond now) 0);
    [symmetry; apply Z.ltb_ge; lia|lia|symmetry; apply Z.ltb_ge; lia].
Qed.

(** The window test on a well-formed reading and window. *)
Lemma window_test (self : ReminderBot) (clock : Clock) (sh sm eh em : Z) :
  debug_always_on self = false ->
  active_start_hm self = (sh, sm) -> active_end_hm self = (eh, em) ->
  0 <= sh <= 23 -> 0 <= sm <= 59 -> 0 <= eh <= 23 -> 0 <= em <= 59 ->
  valid (clock (vn_tz self)) = true ->
  _is_active_hours self clock
  = ret ((sh * 60 + sm
            <=? hour (clock (vn_tz self)) * 60 + minute (clock (vn_tz self)))
         && (hour (clock (vn_tz self)) * 60 + minute (clock (vn_tz self))
               <? eh * 60 + em)).
Proof.
  intros Hdbg Hs He Hsh Hsm Heh Hem Hv.
  unfold _is_active_hours. rewrite Hdbg, Hs, He.
  set (now := clock (vn_tz self)) in *.
  apply CalFacts.valid_spec in Hv.
  rewrite !CalFacts.replace_valid
    by (apply CalFacts.valid_spec; simpl; lia).
  cbn [Py.bind default from_option id]. unfold Py.ret. f_equal.
  rewrite leb_time_of_day, ltb_time_of_day by lia. reflexivity.
Qed.

(** X6: outside debug mode, on a well-formed clock reading and window,
    [_is_active_hours] holds exactly from the start minute on and before
    the end minute; seconds do not matter. *)
Theorem active_from_start_minute_until_end_minute
    (self : ReminderBot) (clock : Clock) (sh sm eh em : Z) :
  debug_always_on self = false ->
  active_start_hm self = (sh, sm) -> active_end_hm self = (eh, em) ->
  0 <= sh <= 23 -> 0 <= sm <= 59 -> 0 <= eh <= 23 -> 0 <= em <= 59 ->
  valid (clock (vn_tz self)) = true ->
  exists b,
    _is_active_hours self clock = ret b /\
    (b = true <->
     sh * 60 + sm
       <= hour (clock (vn_tz self)) * 60 + minute (clock (vn_tz self))
       < eh * 60 + em).
Proof.
  intros Hdbg Hs He Hsh Hsm Heh Hem Hv.
  eexists. split; [now apply (window_test self clock sh sm eh em)|].
  rewrite andb_true_iff, Z.leb_le, Z.ltb_lt. reflexivity.
Qed.

(** X7: [_pre_sleep_hm] is a time of day, one minute before the end of the
    window, the minute before midnight when the window ends at 00:00. *)
Theorem pre_sleep_is_one_minute_before_the_end
    (self : ReminderBot) (eh em : Z) :
  active_end_hm self = (eh, em) -> 0 <= eh <= 23 -> 0 <= em <= 59 ->
  0 <= fst (_pre_sleep_hm self) <= 23 /\
  0 <= snd (_pre_sleep_hm self) <= 59 /\
  fst (_pre_sleep_hm self) * 60 + snd (_pre_sleep_hm self)
  = (eh * 60 + em - 1) mod 1440.
Proof.
  intros He Heh Hem. unfold _pre_sleep_hm. rewrite He.
  destruct (Z.eqb_spec em 0) as [-> | Hne]; cbn [fst snd].
  - pose proof (Z.mod_pos_bound (eh - 1) 24 ltac:(lia)) as Hb.
    repeat split; try lia.
    destruct (Z.eq_dec eh 0) as [-> | Hz]; [reflexivity|].
    rewrite (Z.mod_small (eh - 1) 24) by lia.
    rewrite Z.mod_small by lia. lia.
  - repeat split; try lia. rewrite Z.mod_small by lia. lia.
Qed.

(** X8: whenever the window is not empty, the minute [_pre_sleep_hm]
    names lies inside it: the notice that the bot is about to stop is
    sent while [_is_active_hours] still holds. *)
Theorem pre_sleep_notice_falls_inside_the_window
    (self : ReminderBot) (clock : Clock) (sh sm eh em : Z) :
  debug_always_on self = false ->
  active_start_hm self = (sh, sm) -> active_end_hm self = (eh, em) ->
  0 <= sh <= 23 -> 0 <= sm <= 59 -> 0 <= eh <= 23 -> 0 <= em <= 59 ->
  sh * 60 + sm < eh * 60 + em ->
  valid (clock (vn_tz self)) = true ->
  (hour (clock (vn_tz self)), minute (clock (vn_tz self)))
  = _pre_sleep_hm self ->
  _is_active_hours self clock = ret true.
Proof.
  intros Hdbg Hs He Hsh Hsm Heh Hem Hne Hv Hpre.
  rewrite (window_test self clock sh sm eh em) by assumption.
  unfold _pre_sleep_hm in Hpre. rewrite He in Hpre.
  unfold Py.ret. f_equal. apply andb_true_iff.
  rewrite Z.leb_le, Z.ltb_lt.
  destruct (Z.eqb_spec em 0) as [-> | Hz]; injection Hpre as -> ->.
  - rewrite Z.mod_small by lia. lia.
  - lia.
Qed.

(** X9: [_sleep_job] run on a reading at or after the end minute, or
    before the start minute, closes a running receive loop, and does so
    exactly once however often it is run. *)
Theorem sleep_job_outside_window_closes_the_loop
    (self : ReminderBot) (clock clock' : Clock) (st : Polling)
    (sh sm eh em : Z) :
  debug_always_on self = false ->
  active_start_hm self = (sh, sm) -> active_end_hm self = (eh, em) ->
  0 <= sh <= 23 -> 0 <= sm <= 59 -> 0 <= eh <= 23 -> 0 <= em <= 59 ->
  valid (clock (vn_tz self)) = true ->
  eh * 60 + em
    <= hour (clock (vn_tz self)) * 60 + minute (clock (vn_tz self)) \/
  hour (clock (vn_tz self)) * 60 + minute (clock (vn_tz self))
    < sh * 60 + sm ->
  running st = true ->
  _sleep_job self clock st = set_running false StopPolling st /\
  running (_sleep_job self clock st) = false /\
  events (_sleep_job self clock st) = events st ++ [StopPolling] /\
  _sleep_job self clock' (_sleep_job self clock st)
  = _sleep_job self clock st.
Proof.
  intros Hdbg Hs He Hsh Hsm Heh Hem Hv Hout Hrun.
  assert (E : _sleep_job self clock st = set_running false StopPolling st).
  { unfold _sleep_job, _stop_polling_if_needed. rewrite Hrun. cbn [negb].
    rewrite (window_test self clock sh sm eh em) by assumption.
    replace (_ && _) with false; [reflexivity|].
    symmetry. apply andb_false_iff. rewrite Z.leb_gt, Z.ltb_ge. lia. }
  rewrite E. repeat split; reflexivity.
Qed.

(** X10: [_wake_job] leaves the receive loop open whatever the clock reads,
    opens it only when it was closed, and running it again changes
    nothing. *)
Theorem wake_job_opens_once
    (self : ReminderBot) (clock clock' : Clock) (st : Polling) :
  running (_wake_job self clock st) = true /\
  transitions (events (_wake_job self clock st))
  = transitions (events st) ++ (if running st then [] else [StartPolling]) /\
  _wake_job self clock' (_wake_job self clock st) = _wake_job self clock st.
Proof.
  assert (R : running (_wake_job self clock st) = true).
  { unfold _wake_job. destruct (running st) eqn:E.
    - unfold _start_polling_if_needed. now rewrite E.
    - now apply PollingFacts.start_when_stopped. }
  split; [exact R|]. split.
  - unfold _wake_job. destruct (running st) eqn:E.
    + unfold _start_polling_if_needed. rewrite E. cbn [snd].
      now rewrite app_nil_r.
    + now apply PollingFacts.start_when_stopped.
  - unfold _wake_job at 1. unfold _start_polling_if_needed. now rewrite R.
Qed.

(** X11: the inactivity waiter closes a running receive loop only on a
    reading that is at or past the last activity plus
    [inactivity_minutes] and on which [_is_active_hours] is false. *)
Theorem waiter_closes_only_after_the_deadline_outside_the_window
    (self : ReminderBot) (clocks : list Clock) (st : Polling) :
  running st = true ->
  running (_inactivity_countdown self clocks st) = false ->
  exists clock last deadline,
    In clock clocks /\
    last_activity_vn st = Some last /\
    plus_minutes last (inactivity_minutes self) = inr deadline /\
    leb deadline (clock (vn_tz self)) = true /\
    _is_active_hours self clock = ret false /\
    _inactivity_countdown self clocks st
    = task_done (set_running false StopPolling st).
Proof.
  intros Hrun.
  induction clocks as [|clock clocks IH]; cbn [_inactivity_countdown].
  - congruence.
  - destruct (last_activity_vn st) as [last|] eqn:El;
      [|cbn [running task_done]; congruence].
    destruct (plus_minutes last (inactivity_minutes self))
      as [e|deadline] eqn:Ed; [cbn [running task_done]; congruence|].
    destruct (leb deadline (clock (vn_tz self))) eqn:Ele.
    + unfold _stop_polling_if_needed. rewrite Hrun. cbn [negb].
      destruct (_is_active_hours self clock) as [e|[]] eqn:Ea; cbn [snd];
        try (cbn [running task_done]; congruence).
      intros _. exists clock, last, deadline.
      repeat split; auto. now left.
    + destruct (_is_active_hours self clock) as [e|[]] eqn:Ea;
        try (cbn [running task_done]; congruence).
      intros H. destruct (IH H) as (c & l & d & Hin & Hl & Hd & Hle & Hact & E).
      exists c, l, d. repeat split; auto. now right.
Qed.

(** X12: an activity registered outside the window arms one waiter; the
    waiter leaves the state alone on every reading before the activity
    plus [inactivity_minutes], and on the first later reading outside
    the window it closes the running receive loop. *)
Theorem activity_keeps_the_loop_open_for_inactivity_minutes
    (self : ReminderBot) (at_activity late : Clock) (early : list Clock)
    (st : Polling) (deadline : datetime) :
  running st = true ->
  _is_active_hours self at_activity = ret false ->
  plus_minutes (at_activity (vn_tz self)) (inactivity_minutes self)
  = inr deadline ->
  Forall (fun c => leb deadline (c (vn_tz self)) = false /\
                   _is_active_hours self c = ret false) early ->
  leb deadline (late (vn_tz self)) = true ->
  _is_active_hours self late = ret false ->
  let st1 := snd (_register_activity self at_activity st) in
  inactivity_task st1 = Some Pending /\
  last_activity_vn st1 = Some (at_activity (vn_tz self)) /\
  _inactivity_countdown self early st1 = st1 /\
  _inactivity_countdown self (early ++ [late]) st1
  = task_done (set_running false StopPolling st1).
Proof.
  intros Hrun Hout Hd Hearly Hlate Hout' st1.
  assert (E1 : st1 = _schedule_inactivity_timer
                       {| running := running st;
                          last_activity_vn := Some (at_activity (vn_tz self));
                          inactivity_task := inactivity_task st;
                          peek_offset := peek_offset st;
                          events := events st |}).
  { subst st1. unfold _register_activity. now rewrite Hout. }
  assert (Hl : last_activity_vn st1 = Some (at_activity (vn_tz self))).
  { rewrite E1. unfold _schedule_inactivity_timer, cancel_pending.
    cbn [inactivity_task]. now destruct (inactivity_task st) as [[]|]. }
  assert (Hr : running st1 = true).
  { rewrite E1. unfold _schedule_inactivity_timer, cancel_pending.
    cbn [inactivity_task]. now destruct (inactivity_task st) as [[]|]. }
  assert (Hstep : forall tail,
             _inactivity_countdown self (early ++ tail) st1
             = _inactivity_countdown self tail st1).
  { intros tail. induction Hearly as [|c early [Hc1 Hc2] _ IH];
      [reflexivity|].
    cbn [app _inactivity_countdown]. rewrite Hl, Hd, Hc1, Hc2. exact IH. }
  split; [now rewrite E1|]. split; [exact Hl|]. split.
  - rewrite <- (app_nil_r early) at 1. now rewrite Hstep.
  - rewrite Hstep. cbn [_inactivity_countdown]. rewrite Hl, Hd, Hlate.
    unfold _stop_polling_if_needed. now rewrite Hr, Hout'.
Qed.

End WindowFacts.

(** ** Users and send history *)

Module UserFacts.

Import DbRest.

Lemma known_user_app (a b : list User) (user_id : Z) :
  known_user (a ++ b) user_id = known_user a user_id || known_user b user_id.
Proof. unfold known_user. apply existsb_app. Qed.

Lemma shown_normalises (v : PyVal) (user_id : Z) :
  Py.str v = Py.Z_to_string user_id -> _normalize_user_id v = Some user_id.
Proof.
  intros H.
  pose proof (ParsingFacts.int_of_Z_to_string user_id) as Hi.
  rewrite <- H in Hi.
  destruct v as [|[]|z|s]; cbn [Py.str _normalize_user_id] in *.
  - vm_compute in Hi. discriminate.
  - vm_compute in Hi. discriminate.
  - vm_compute in Hi. discriminate.
  - f_equal. now apply ParsingFacts.Z_to_string_inj.
  - exact Hi.
Qed.

Lemma find_user_known (users : list User) (user_id : Z) (i : nat) :
  find_user (Py.Z_to_string user_id) users = Some i ->
  known_user users user_id = true.
Proof.
  revert i. induction users as [|u users IH]; intros i; cbn [find_user];
    [discriminate|].
  unfold known_user. cbn [existsb].
  destruct (String.eqb_spec (Py.str (id u)) (Py.Z_to_string user_id))
    as [E|E].
  - intros _. rewrite (shown_normalises _ _ E), Z.eqb_refl. reflexivity.
  - destruct (find_user (Py.Z_to_string user_id) users) as [j|];
      [|discriminate].
    intros _. apply orb_true_iff. right. exact (IH j eq_refl).
Qed.

Lemma find_user_app (q : string) (a b : list User) :
  find_user q (a ++ b)
  = match find_user q a with
    | Some i => Some i
    | None => (fun j => (length a + j)%nat) <$> find_user q b
    end.
Proof.
  induction a as [|u a IH]; cbn [app find_user length].
  - now destruct (find_user q b).
  - destruct (String.eqb (Py.str (id u)) q); [reflexivity|].
    rewrite IH. destruct (find_user q a); [reflexivity|].
    now destruct (find_user q b).
Qed.

Lemma find_user_lookup (q : string) (users : list User) (i : nat) :
  find_user q users = Some i ->
  exists u, users !! i = Some u /\ Py.str (id u) = q.
Proof.
  revert i. induction users as [|u users IH]; intros i; cbn [find_user];
    [discriminate|].
  destruct (String.eqb_spec (Py.str (id u)) q) as [E|E].
  - intros [= <-]. exists u. auto.
  - destruct (find_user q users) as [j|]; [|discriminate].
    intros [= <-]. exact (IH j eq_refl).
Qed.

Lemma find_user_alter (q : string) (f : User -> User) (i : nat)
    (users : list User) :
  (forall u, id (f u) = id u) ->
  find_user q (alter f i users) = find_user q users.
Proof.
  intros Hf. revert i. induction users as [|u users IH]; intros i;
    [reflexivity|].
  destruct i as [|i]; cbn [alter list_alter find_user].
  - now rewrite Hf.
  - change (list_alter f i users) with (alter f i users). now rewrite IH.
Qed.

(** X13: [add_user] never touches the rows already in the sheet, makes the
    user known, and a second call for the same user adds nothing. *)
Theorem add_user_adds_at_most_once
    (users : list User) (user_id : Z) (first_name stamp : string)
    (first_name' stamp' : string) :
  (exists tail, add_user users user_id first_name stamp = users ++ tail) /\
  known_user (add_user users user_id first_name stamp) user_id = true /\
  add_user (add_user users user_id first_name stamp) user_id
           first_name' stamp'
  = add_user users user_id first_name stamp.
Proof.
  assert (K : known_user (add_user users user_id first_name stamp) user_id
              = true).
  { unfold add_user. destruct (known_user users user_id) eqn:E; [exact E|].
    rewrite known_user_app, E. unfold known_user.
    cbn [existsb _normalize_user_id id]. now rewrite Z.eqb_refl. }
  split; [|split; [exact K|]].
  - unfold add_user. destruct (known_user users user_id).
    + exists []. now rewrite app_nil_r.
    + eexists. reflexivity.
  - unfold add_user at 1. now rewrite K.
Qed.

(** X14: a user [add_user] has just added is found by [get_user_timezone],
    which answers the default zone the row was written with. *)
Theorem new_user_starts_in_the_default_zone
    (users : list User) (user_id : Z) (first_name stamp : string) :
  known_user users user_id = false ->
  get_user_timezone (add_user users user_id first_name stamp) user_id
  = Some "Asia/Ho_Chi_Minh".
Proof.
  intros Hk. unfold add_user, get_user_timezone. rewrite Hk.
  rewrite find_user_app.
  destruct (find_user (Py.Z_to_string user_id) users) as [i|] eqn:E.
  - apply find_user_known in E. congruence.
  - cbn [find_user id Py.str]. rewrite String.eqb_refl.
    cbn [fmap option_fmap option_map].
    rewrite Nat.add_0_r, lookup_app_r by lia.
    rewrite Nat.sub_diag. reflexivity.
Qed.

(** X15: after [set_user_timezone] stored a non-blank zone for a user the
    sheet shows, [get_user_timezone] answers that zone; for a user the
    sheet does not show, the call stores nothing and the answer is UTC. *)
Theorem stored_zone_is_read_back
    (users : list User) (user_id : Z) (tz : string) :
  tz <> "" ->
  get_user_timezone (set_user_timezone users user_id tz) user_id
  = match find_user (Py.Z_to_string user_id) users with
    | Some _ => Some tz
    | None => Some "UTC"
    end /\
  (find_user (Py.Z_to_string user_id) users = None ->
   set_user_timezone users user_id tz = users).
Proof.
  intros Htz. unfold set_user_timezone, get_user_timezone.
  destruct (find_user (Py.Z_to_string user_id) users) as [i|] eqn:E.
  - split; [|discriminate].
    rewrite find_user_alter by reflexivity. rewrite E.
    destruct (find_user_lookup _ _ _ E) as (u & Hu & _).
    rewrite list_lookup_alter_eq, Hu.
    cbn [fmap option_fmap option_map timezone].
    destruct (String.eqb_spec tz ""); [contradiction | reflexivity].
  - rewrite E. auto.
Qed.

(** X16: [set_user_timezone] for one user leaves what [get_user_timezone]
    answers for every other user. *)
Theorem other_users_zone_is_kept
    (users : list User) (user_id other : Z) (tz : string) :
  other <> user_id ->
  get_user_timezone (set_user_timezone users user_id tz) other
  = get_user_timezone users other.
Proof.
  intros Hne. unfold set_user_timezone.
  destruct (find_user (Py.Z_to_string user_id) users) as [i|] eqn:E;
    [|reflexivity].
  unfold get_user_timezone. rewrite find_user_alter by reflexivity.
  destruct (find_user (Py.Z_to_string other) users) as [j|] eqn:E';
    [|reflexivity].
  destruct (find_user_lookup _ _ _ E) as (u & Hu & Su).
  destruct (find_user_lookup _ _ _ E') as (u' & Hu' & Su').
  rewrite list_lookup_alter_ne; [reflexivity|].
  intros ->. rewrite Hu in Hu'. injection Hu' as <-.
  rewrite Su in Su'. apply ParsingFacts.Z_to_string_inj in Su'. congruence.
Qed.

End UserFacts.

Module HistoryFacts.

Import Db Bot.

Lemma update_keeps_logs (db : Database) (rid : PyVal) (updates : Dict) :
  logs_sheet (snd (update_reminder db rid updates)) = logs_sheet db.
Proof.
  unfold update_reminder.
  destruct (find_row _ _) as [i|]; [|reflexivity]. cbn [snd].
  revert db. induction updates as [|[k v] updates IH]; intros db;
    [reflexivity|].
  cbn [fold_left fst snd]. rewrite IH.
  now destruct (index_of k headers).
Qed.

Lemma delete_keeps_logs (db : Database) (rid : PyVal) :
  logs_sheet (snd (delete_reminder db rid)) = logs_sheet db.
Proof.
  unfold delete_reminder. now destruct (find_row _ _).
Qed.

Lemma logged_row (db : Database) (rid uid : PyVal) (stamp : string) :
  logs_sheet (log_reminder_sent db rid uid stamp)
  = logs_sheet db ++ [mkLogRow rid stamp uid].
Proof. unfold log_reminder_sent. now rewrite update_keeps_logs. Qed.

Lemma history_app (db : Database) (rid : PyVal) (row : LogRow)
    (logs : list LogRow) :
  logs_sheet db = logs ++ [row] ->
  DbRest.get_reminder_history db rid
  = List.filter
      (fun log =>
         String.eqb (Py.strip (Py.str (log_reminder_id log)))
                    (Py.strip (Py.str rid))) logs
    ++ (if String.eqb (Py.strip (Py.str (log_reminder_id row)))
                      (Py.strip (Py.str rid))
        then [row] else []).
Proof.
  intros H. unfold DbRest.get_reminder_history. rewrite H, List.filter_app.
  reflexivity.
Qed.

Lemma history_after_log (db : Database) (rid uid other : PyVal)
    (stamp : string) :
  DbRest.get_reminder_history (log_reminder_sent db rid uid stamp) other
  = DbRest.get_reminder_history db other
    ++ (if String.eqb (Py.strip (Py.str rid)) (Py.strip (Py.str other))
        then [mkLogRow rid stamp uid] else []).
Proof.
  rewrite (history_app _ other _ _ (logged_row db rid uid stamp)).
  reflexivity.
Qed.

(** X17: [log_reminder_sent] for a reminder with a number as id appends one
    row to the history [get_reminder_history] returns under that number
    (the asked id is compared as stripped text) and leaves the history
    under every other id as it was. *)
Theorem logging_extends_the_history_of_that_reminder_only
    (db : Database) (n : Z) (uid other : PyVal) (stamp : string) :
  DbRest.get_reminder_history (log_reminder_sent db (VInt n) uid stamp)
                              other
  = DbRest.get_reminder_history db other
    ++ (if String.eqb (Py.Z_to_string n) (Py.strip (Py.str other))
        then [mkLogRow (VInt n) stamp uid] else []).
Proof.
  rewrite history_after_log, StringFacts.strip_number. reflexivity.
Qed.

Section Zones.

Variable known_zone : string -> bool.
Variable cron_text : string -> string -> bool.

(** X18: every notification [send_reminder_job] delivers for a reminder
    with a number as id is on record: the reminder's history grows by
    exactly the row of this send, also when the reminder itself is deleted
    by the same call; when the send fails nothing at all changes. *)
Theorem delivered_notice_is_on_record
    (self : ReminderBot) (clock : Clock) (stamp : string) (user_id : PyVal)
    (reminder : Reminder) (n : Z) (offset_days : nat) (w : World)
    (e : Exn) :
  id reminder = VInt n ->
  DbRest.get_reminder_history
    (Bot.db (send_reminder_job known_zone self clock (ret tt) stamp user_id
                               reminder offset_days w))
    (VInt n)
  = DbRest.get_reminder_history (Bot.db w) (VInt n)
    ++ [mkLogRow (VInt n) stamp user_id] /\
  length (sent (send_reminder_job known_zone self clock (ret tt) stamp
                                  user_id reminder offset_days w))
  = S (length (sent w)) /\
  send_reminder_job known_zone self clock (raise e) stamp user_id reminder
                    offset_days w = w.
Proof.
  intros Hid. rewrite <- Hid. split; [|split; [|reflexivity]].
  - assert (L : logs_sheet
                  (Bot.db (send_reminder_job known_zone self clock (ret tt)
                             stamp user_id reminder offset_days w))
                = logs_sheet (Bot.db w)
                  ++ [mkLogRow (id reminder) stamp user_id]).
    { unfold send_reminder_job. cbn [Py.ret].
      destruct (String.eqb (frequency reminder) "once"
                && (offset_days =? 0)%nat);
        destruct (String.eqb (frequency reminder) "monthly");
        try destruct (_compute_next_month_event _ _ _ _) as [?|ne];
        try destruct (Cal.minus_days _ _) as [?|dt];
        cbn [Bot.db]; rewrite ?delete_keeps_logs; apply logged_row. }
    rewrite (history_app _ _ _ _ L). cbn [log_reminder_id].
    rewrite String.eqb_refl. reflexivity.
  - unfold send_reminder_job. cbn [Py.ret].
    destruct (String.eqb (frequency reminder) "once"
              && (offset_days =? 0)%nat);
      destruct (String.eqb (frequency reminder) "monthly");
      try destruct (_compute_next_month_event _ _ _ _) as [?|ne];
      try destruct (Cal.minus_days _ _) as [?|dt];
      cbn [sent]; rewrite length_app; cbn [length]; lia.
Qed.

End Zones.

End HistoryFacts.

(** ** Accepted edits and the toggle *)

Module EditFacts.

Import Db Manager.

Lemma in_alter (f : Reminder -> Reminder) (i : nat) (rows : list Reminder)
    (r' : Reminder) :
  In r' (alter f i rows) ->
  In r' rows \/ exists r, In r rows /\ r' = f r.
Proof.
  revert i. induction rows as [|a rows IH]; intros i; [intros []|].
  destruct i as [|i]; cbn [alter list_alter].
  - intros [<- | H]; [right; exists a; split; [now left | reflexivity]|].
    left. now right.
  - change (list_alter f i rows) with (alter f i rows).
    intros [<- | H]; [left; now left|].
    destruct (IH _ H) as [H' | (r & Hr & ->)]; [left; now right|].
    right. exists r. split; [now right | reflexivity].
Qed.

Lemma update_one_cell (db : Database) (rid v : PyVal) (key : string)
    (col : nat) :
  index_of key headers = Some col ->
  reminders_sheet (snd (update_reminder db rid [(key, v)]))
  = match find_row (Py.strip (Py.str rid)) (reminders_sheet db) with
    | Some i => alter (set_cell key (Py.str v)) i (reminders_sheet db)
    | None => reminders_sheet db
    end.
Proof.
  intros Hc. unfold update_reminder.
  destruct (find_row _ _) as [i|]; [|reflexivity].
  cbn [snd fold_left fst]. now rewrite Hc.
Qed.

Lemma find_row_alter (q : string) (f : Reminder -> Reminder) (i : nat)
    (rows : list Reminder) :
  (forall r, id (f r) = id r) ->
  find_row q (alter f i rows) = find_row q rows.
Proof.
  intros Hf. revert i. induction rows as [|a rows IH]; intros i;
    [reflexivity|].
  destruct i as [|i]; cbn [alter list_alter find_row].
  - now rewrite Hf.
  - change (list_alter f i rows) with (alter f i rows). now rewrite IH.
Qed.

Lemma find_row_lookup (q : string) (rows : list Reminder) (i : nat) :
  find_row q rows = Some i ->
  exists r, rows !! i = Some r /\ Py.str (id r) = q.
Proof.
  revert i. induction rows as [|a rows IH]; intros i; cbn [find_row];
    [discriminate|].
  destruct (String.eqb_spec (Py.str (id a)) q) as [E|E].
  - intros [= <-]. exists a. auto.
  - destruct (find_row q rows) as [j|]; [|discriminate].
    intros [= <-]. exact (IH j eq_refl).
Qed.

(** With numbers in every id cell, [get_reminder] and the sheet's [find]
    look at the same row. *)
Lemma get_reminder_numeric (db : Database) (n : Z) :
  Forall (fun r => exists k, id r = VInt k) (reminders_sheet db) ->
  get_reminder db (VInt n)
  = match find_row (Py.Z_to_string n) (reminders_sheet db) with
    | Some i => reminders_sheet db !! i
    | None => None
    end.
Proof.
  unfold get_reminder. rewrite StringFacts.strip_number. cbn [Py.str].
  induction 1 as [|a rows [k Hk] _ IH]; [reflexivity|].
  cbn [List.find find_row]. rewrite Hk, StringFacts.strip_number.
  cbn [Py.str]. destruct (String.eqb _ _); [reflexivity|].
  rewrite IH. now destruct (find_row _ rows).
Qed.

(** X19: on a sheet whose activity cells all read as true in Python (the
    texts TRUE and FALSE both do), [toggle_reminder] never makes a
    reminder active: every reminder listed as active afterwards was listed
    before, and the cells still all read as true, so the same holds for
    every later toggle. *)
Theorem toggle_never_activates
    (db : Database) (user_id : Z) (reminder_id : PyVal) :
  (forall r, In r (reminders_sheet db) -> Py.truthy (active r) = true) ->
  (forall r, In r (reminders_sheet
                     (snd (toggle_reminder db user_id reminder_id))) ->
             Py.truthy (active r) = true) /\
  (forall r, In r (get_all_active_reminders
                     (snd (toggle_reminder db user_id reminder_id))) ->
             In r (get_all_active_reminders db)).
Proof.
  intros Hall. unfold toggle_reminder.
  destruct (get_reminder db reminder_id) as [r0|] eqn:Eg;
    [|split; auto].
  destruct (negb (Py.eqv (Db.user_id r0) (VInt user_id))); [split; auto|].
  assert (Hin : In r0 (reminders_sheet db)).
  { unfold get_reminder in Eg. now apply List.find_some in Eg. }
  rewrite (Hall r0 Hin). cbn [negb].
  unfold get_all_active_reminders.
  rewrite (update_one_cell db reminder_id (VBool false) "active" 7
             eq_refl).
  destruct (find_row _ _) as [i|]; [|split; auto].
  cbn [Py.str]. split.
  - intros r Hr. apply in_alter in Hr.
    destruct Hr as [Hr | (r1 & _ & ->)]; [auto | reflexivity].
  - intros r Hr. apply filter_In in Hr. destruct Hr as [Hr Ha].
    apply in_alter in Hr. destruct Hr as [Hr | (r1 & _ & ->)].
    + apply filter_In. auto.
    + discriminate.
Qed.

(** X20: on a sheet with numbers in the id cells, an edit of the time that
    [edit_reminder] accepts is stored: [get_reminder] then returns the
    same reminder with the new time and nothing else changed, and every
    other reminder is returned as before. *)
Theorem accepted_time_edit_is_stored
    (db : Database) (user_id n : Z) (r : Reminder) (t : string) :
  Forall (fun r => exists k, id r = VInt k) (reminders_sheet db) ->
  get_reminder db (VInt n) = Some r ->
  Py.eqv (Db.user_id r) (VInt user_id) = true ->
  _validate_time (VStr t) = true ->
  fst (edit_reminder db user_id (VInt n) [("time", VStr t)]) = true /\
  get_reminder (snd (edit_reminder db user_id (VInt n) [("time", VStr t)]))
               (VInt n)
  = Some (mkReminder (id r) (Db.user_id r) (text r) (day r) t
                     (frequency r) (timezone r) (active r) (created_at r)
                     (last_sent r)) /\
  forall k, k <> n ->
    get_reminder (snd (edit_reminder db user_id (VInt n)
                                     [("time", VStr t)])) (VInt k)
    = get_reminder db (VInt k).
Proof.
  intros Hnum Hg How Hv. unfold edit_reminder, not_owned, time_rejected,
    frequency_rejected. rewrite Hg, How.
  cbn [negb dict_get String.eqb Ascii.eqb Bool.eqb]. rewrite Hv.
  cbn [negb fst snd]. split; [reflexivity|].
  assert (Hnum' : Forall (fun r => exists k, id r = VInt k)
                    (reminders_sheet
                       (snd (update_reminder db (VInt n)
                                             [("time", VStr t)])))).
  { rewrite (update_one_cell db (VInt n) (VStr t) "time" 4 eq_refl).
    destruct (find_row _ _) as [i|]; [|exact Hnum].
    rewrite Forall_forall in *. intros r' Hr'.
    apply list_elem_of_In, in_alter in Hr'.
    destruct Hr' as [Hr' | (r1 & Hr1 & ->)];
      [now apply Hnum, list_elem_of_In|].
    apply list_elem_of_In, Hnum in Hr1. exact Hr1. }
  rewrite get_reminder_numeric in Hg by assumption.
  destruct (find_row (Py.Z_to_string n) (reminders_sheet db)) as [i|] eqn:Ef;
    [|discriminate].
  assert (Hrows :
    reminders_sheet (snd (update_reminder db (VInt n) [("time", VStr t)]))
    = alter (set_cell "time" t) i (reminders_sheet db)).
  { rewrite (update_one_cell db (VInt n) (VStr t) "time" 4 eq_refl).
    rewrite StringFacts.strip_number. cbn [Py.str]. now rewrite Ef. }
  split.
  - rewrite get_reminder_numeric by assumption. rewrite Hrows.
    rewrite find_row_alter by reflexivity. rewrite Ef.
    rewrite list_lookup_alter_eq, Hg. reflexivity.
  - intros k Hk. rewrite !get_reminder_numeric by assumption.
    rewrite Hrows, find_row_alter by reflexivity.
    destruct (find_row (Py.Z_to_string k) (reminders_sheet db)) as [j|]
      eqn:Ek; [|reflexivity].
    apply list_lookup_alter_ne. intros ->.
    destruct (find_row_lookup _ _ _ Ef) as (r1 & H1 & S1).
    destruct (find_row_lookup _ _ _ Ek) as (r2 & H2 & S2).
    rewrite H1 in H2. injection H2 as <-. rewrite S1 in S2.
    apply ParsingFacts.Z_to_string_inj in S2. congruence.
Qed.

End EditFacts.

(** ** Whose jobs a call touches *)

Module FrameFacts.

Import Cal Bot.

#[local] Arguments String.append !_ _ / : simpl nomatch.

(** A key is one of the three job ids of [reminder] or none of them. *)
Lemma foreign_dec (reminder : Db.Reminder) (key : string) :
  (forall offset, (offset <= 2)%nat ->
                  key <> offset_job_id reminder offset) \/
  exists offset, (offset <= 2)%nat /\ key = offset_job_id reminder offset.
Proof.
  destruct (decide (key = offset_job_id reminder 0)) as [->|H0];
    [right; exists 0%nat; auto|].
  destruct (decide (key = offset_job_id reminder 1)) as [->|H1];
    [right; exists 1%nat; auto|].
  destruct (decide (key = offset_job_id reminder 2)) as [->|H2];
    [right; exists 2%nat; auto|].
  left. intros [|[|[|o]]] Ho; auto. lia.
Qed.

Section Zones.

Variable known_zone : string -> bool.
Variable cron_text : string -> string -> bool.

Lemma offset_job_frame (reminder : Db.Reminder) (run_dt : datetime)
    (offset : nat) (s : gmap string Job) (key : string) :
  key <> offset_job_id reminder offset ->
  snd (_schedule_offset_job known_zone reminder run_dt offset s) !! key
  = s !! key.
Proof.
  intros Hk. unfold _schedule_offset_job.
  rewrite RegistryFacts.try_remove_job_delete.
  destruct (pytz_timezone known_zone _); cbn [snd]; unfold add_job;
    rewrite ?lookup_insert_ne by congruence;
    now rewrite lookup_delete_ne by congruence.
Qed.

Lemma once_jobs_frame (user_timezone : string) (reminder : Db.Reminder)
    (run_date : datetime) (s : gmap string Job) (key : string) :
  (forall offset, (offset <= 2)%nat ->
                  key <> offset_job_id reminder offset) ->
  snd (once_jobs known_zone user_timezone reminder run_date s) !! key
  = s !! key.
Proof.
  intros Hk. unfold once_jobs, add_job.
  pose proof (Hk 0%nat ltac:(lia)) as H0.
  pose proof (Hk 1%nat ltac:(lia)) as H1.
  pose proof (Hk 2%nat ltac:(lia)) as H2.
  destruct (DateTrigger_named known_zone run_date user_timezone);
    [reflexivity|].
  destruct (minus_days run_date 1); cbn [snd];
    [now rewrite lookup_insert_ne by congruence|].
  destruct (DateTrigger_named known_zone _ user_timezone); cbn [snd];
    [now rewrite lookup_insert_ne by congruence|].
  destruct (minus_days run_date 2); cbn [snd];
    [now rewrite !lookup_insert_ne by congruence|].
  destruct (DateTrigger_named known_zone _ user_timezone); cbn [snd];
    now rewrite !lookup_insert_ne by congruence.
Qed.

Lemma monthly_offsets_frame (self : ReminderBot) (clock : Clock)
    (reminder : Db.Reminder) (s : gmap string Job) (key : string) :
  (forall offset, (offset <= 2)%nat ->
                  key <> offset_job_id reminder offset) ->
  monthly_offsets known_zone self clock reminder s !! key = s !! key.
Proof.
  intros Hk. unfold monthly_offsets.
  pose proof (Hk 1%nat ltac:(lia)) as H1.
  pose proof (Hk 2%nat ltac:(lia)) as H2.
  destruct (_compute_next_month_event _ _ _ _) as [e|next_event];
    [reflexivity|].
  destruct (minus_days next_event 1) as [e|d1]; [reflexivity|].
  pose proof (offset_job_frame reminder d1 1 s key H1) as F1.
  destruct (_schedule_offset_job known_zone reminder d1 1 s) as [[e|[]] s1];
    cbn [snd] in F1; [exact F1|].
  destruct (minus_days next_event 2) as [e|d2]; [exact F1|].
  rewrite offset_job_frame by assumption. exact F1.
Qed.

Lemma schedule_frame (self : ReminderBot) (clock : Clock)
    (reminder : Db.Reminder) (s : gmap string Job) (key : string) :
  (forall offset, (offset <= 2)%nat ->
                  key <> offset_job_id reminder offset) ->
  snd (_schedule_single_reminder known_zone cron_text self clock reminder s) !! key
  = s !! key.
Proof.
  intros Hk. pose proof (Hk 0%nat ltac:(lia)) as H0.
  pose proof (SchedulingFacts.removed_others reminder s key Hk) as Hr.
  unfold _schedule_single_reminder.
  destruct (notify_hm self) as [hour minute].
  destruct (match pytz_timezone known_zone _ with
            | inl UnknownTimeZoneError => _
            | r => r
            end) as [e|tz]; [exact Hr|].
  destruct (String.eqb (Db.frequency reminder) "once").
  { destruct (once_run_date _ _ _ _) as [e|run_date].
    - destruct e; exact Hr.
    - pose proof (once_jobs_frame
                    (default "Asia/Ho_Chi_Minh" (Db.timezone reminder))
                    reminder run_date (remove_offset_jobs reminder s)
                    key Hk) as F.
      destruct (once_jobs _ _ _ _ _) as [[e|[]] s1]; cbn [snd] in F;
        [destruct e|]; cbn [snd]; congruence. }
  destruct (String.eqb (Db.frequency reminder) "daily").
  { destruct (new_CronTrigger _ _ _ _ _ _) as [e|t]; [exact Hr|].
    cbn [snd]. unfold add_job. now rewrite lookup_insert_ne by congruence. }
  destruct (String.eqb (Db.frequency reminder) "weekly").
  { destruct (new_CronTrigger _ _ _ _ _ _) as [e|t]; [exact Hr|].
    cbn [snd]. unfold add_job. now rewrite lookup_insert_ne by congruence. }
  destruct (String.eqb (Db.frequency reminder) "monthly"); [|exact Hr].
  destruct (new_CronTrigger _ _ _ _ _ _) as [e|t]; [exact Hr|].
  cbn [snd]. rewrite monthly_offsets_frame by assumption.
  unfold add_job. now rewrite lookup_insert_ne by congruence.
Qed.

Lemma own_add (reminder : Db.Reminder) (o : nat) (t : Trigger)
    (s : gmap string Job) :
  (o <= 2)%nat ->
  (forall offset job, (offset <= 2)%nat ->
     s !! offset_job_id reminder offset = Some job ->
     args job = (Db.user_id reminder, reminder, offset) /\
     misfire_grace_time job = 300) ->
  forall offset job, (offset <= 2)%nat ->
    add_job (offset_job_id reminder o)
            (mkJob t (Db.user_id reminder, reminder, o) 300) s
      !! offset_job_id reminder offset = Some job ->
    args job = (Db.user_id reminder, reminder, offset) /\
    misfire_grace_time job = 300.
Proof.
  intros Ho Hs offset job Hoff. unfold add_job.
  destruct (decide (o = offset)) as [->|Hne].
  - rewrite lookup_insert_eq. intros [= <-]. auto.
  - rewrite lookup_insert_ne; [now apply Hs|].
    intros E. now apply SchedulingFacts.offset_job_id_inj in E.
Qed.

Lemma own_offset_job (reminder : Db.Reminder) (run_dt : datetime)
    (o : nat) (s : gmap string Job) :
  (o <= 2)%nat ->
  (forall offset job, (offset <= 2)%nat ->
     s !! offset_job_id reminder offset = Some job ->
     args job = (Db.user_id reminder, reminder, offset) /\
     misfire_grace_time job = 300) ->
  forall offset job, (offset <= 2)%nat ->
    snd (_schedule_offset_job known_zone reminder run_dt o s)
      !! offset_job_id reminder offset = Some job ->
    args job = (Db.user_id reminder, reminder, offset) /\
    misfire_grace_time job = 300.
Proof.
  intros Ho Hs. unfold _schedule_offset_job.
  rewrite RegistryFacts.try_remove_job_delete.
  assert (Hd : forall offset job, (offset <= 2)%nat ->
            delete (offset_job_id reminder o) s
              !! offset_job_id reminder offset = Some job ->
            args job = (Db.user_id reminder, reminder, offset) /\
            misfire_grace_time job = 300).
  { intros offset job Hoff H. apply lookup_delete_Some in H.
    destruct H as [_ H]. now apply Hs. }
  destruct (pytz_timezone known_zone _); cbn [snd]; [exact Hd|].
  now apply own_add.
Qed.

Lemma own_once_jobs (user_timezone : string) (reminder : Db.Reminder)
    (run_date : datetime) (s : gmap string Job) :
  (forall offset job, (offset <= 2)%nat ->
     s !! offset_job_id reminder offset = Some job ->
     args job = (Db.user_id reminder, reminder, offset) /\
     misfire_grace_time job = 300) ->
  forall offset job, (offset <= 2)%nat ->
    snd (once_jobs known_zone user_timezone reminder run_date s)
      !! offset_job_id reminder offset = Some job ->
    args job = (Db.user_id reminder, reminder, offset) /\
    misfire_grace_time job = 300.
Proof.
  intros Hs. unfold once_jobs.
  destruct (DateTrigger_named known_zone run_date user_timezone) as [e|t0];
    [exact Hs|].
  pose proof (own_add reminder 0 t0 s ltac:(lia) Hs) as H0.
  destruct (minus_days run_date 1); cbn [snd]; [exact H0|].
  destruct (DateTrigger_named known_zone _ user_timezone) as [e|t1];
    cbn [snd]; [exact H0|].
  pose proof (own_add reminder 1 t1 _ ltac:(lia) H0) as H1.
  destruct (minus_days run_date 2); cbn [snd]; [exact H1|].
  destruct (DateTrigger_named known_zone _ user_timezone) as [e|t2];
    cbn [snd]; [exact H1|].
  exact (own_add reminder 2 t2 _ ltac:(lia) H1).
Qed.

Lemma own_monthly_offsets (self : ReminderBot) (clock : Clock)
    (reminder : Db.Reminder) (s : gmap string Job) :
  (forall offset job, (offset <= 2)%nat ->
     s !! offset_job_id reminder offset = Some job ->
     args job = (Db.user_id reminder, reminder, offset) /\
     misfire_grace_time job = 300) ->
  forall offset job, (offset <= 2)%nat ->
    monthly_offsets known_zone self clock reminder s
      !! offset_job_id reminder offset = Some job ->
    args job = (Db.user_id reminder, reminder, offset) /\
    misfire_grace_time job = 300.
Proof.
  intros Hs. unfold monthly_offsets.
  destruct (_compute_next_month_event _ _ _ _) as [e|next_event];
    [exact Hs|].
  destruct (minus_days next_event 1) as [e|d1]; [exact Hs|].
  pose proof (own_offset_job reminder d1 1 s ltac:(lia) Hs) as H1.
  destruct (_schedule_offset_job known_zone reminder d1 1 s) as [[e|[]] s1];
    cbn [snd] in H1; [exact H1|].
  destruct (minus_days next_event 2) as [e|d2]; [exact H1|].
  exact (own_offset_job reminder d2 2 s1 ltac:(lia) H1).
Qed.

(** X22: [_schedule_single_reminder] changes no registry entry other than
    the three job ids of its reminder, whatever branch it takes and also
    when it raises; and whatever it leaves under one of those three ids
    is a job that calls back with this reminder, its owner cell and the
    offset the id names, with a grace time of 300 seconds. *)
Theorem scheduling_touches_only_the_reminders_own_jobs
    (self : ReminderBot) (clock : Clock) (reminder : Db.Reminder)
    (s : gmap string Job) :
  (forall key,
     (forall offset, (offset <= 2)%nat ->
                     key <> offset_job_id reminder offset) ->
     snd (_schedule_single_reminder known_zone cron_text self clock reminder s) !! key
     = s !! key) /\
  (forall offset job, (offset <= 2)%nat ->
     snd (_schedule_single_reminder known_zone cron_text self clock reminder s)
       !! offset_job_id reminder offset = Some job ->
     args job = (Db.user_id reminder, reminder, offset) /\
     misfire_grace_time job = 300).
Proof.
  split; [exact (schedule_frame self clock reminder s)|].
  assert (Hr : forall offset job, (offset <= 2)%nat ->
            remove_offset_jobs reminder s
              !! offset_job_id reminder offset = Some job ->
            args job = (Db.user_id reminder, reminder, offset) /\
            misfire_grace_time job = 300).
  { intros offset job Hoff H.
    rewrite SchedulingFacts.removed_offsets in H by assumption.
    discriminate. }
  unfold _schedule_single_reminder.
  destruct (notify_hm self) as [hour minute].
  destruct (match pytz_timezone known_zone _ with
            | inl UnknownTimeZoneError => _
            | r => r
            end) as [e|tz]; [exact Hr|].
  destruct (String.eqb (Db.frequency reminder) "once").
  { destruct (once_run_date _ _ _ _) as [e|run_date].
    - destruct e; exact Hr.
    - pose proof (own_once_jobs
                    (default "Asia/Ho_Chi_Minh" (Db.timezone reminder))
                    reminder run_date _ Hr) as F.
      destruct (once_jobs _ _ _ _ _) as [[e|[]] s1]; cbn [snd] in F;
        [destruct e|]; exact F. }
  destruct (String.eqb (Db.frequency reminder) "daily").
  { destruct (new_CronTrigger _ _ _ _ _ _) as [e|t]; [exact Hr|].
    cbn [snd]. apply own_add; [lia | exact Hr]. }
  destruct (String.eqb (Db.frequency reminder) "weekly").
  { destruct (new_CronTrigger _ _ _ _ _ _) as [e|t]; [exact Hr|].
    cbn [snd]. apply own_add; [lia | exact Hr]. }
  destruct (String.eqb (Db.frequency reminder) "monthly"); [|exact Hr].
  destruct (new_CronTrigger _ _ _ _ _ _) as [e|t]; [exact Hr|].
  cbn [snd]. apply own_monthly_offsets. apply own_add; [lia | exact Hr].
Qed.

Lemma removed_after_schedule (self : ReminderBot) (clock : Clock)
    (reminder : Db.Reminder) (s : gmap string Job) :
  remove_offset_jobs reminder
    (snd (_schedule_single_reminder known_zone cron_text self clock reminder s))
  = remove_offset_jobs reminder s.
Proof.
  apply map_eq. intros key.
  destruct (foreign_dec reminder key) as [Hk | (o & Ho & ->)].
  - rewrite !SchedulingFacts.removed_others by assumption.
    now apply schedule_frame.
  - now rewrite !SchedulingFacts.removed_offsets.
Qed.

(** X23: scheduling a reminder again on the same clock reading gives the
    same registry and the same outcome as scheduling it once: the jobs of
    the first call are replaced, not added to. *)
Theorem scheduling_twice_is_scheduling_once
    (self : ReminderBot) (clock : Clock) (reminder : Db.Reminder)
    (s : gmap string Job) :
  _schedule_single_reminder known_zone cron_text self clock reminder
    (snd (_schedule_single_reminder known_zone cron_text self clock reminder s))
  = _schedule_single_reminder known_zone cron_text self clock reminder s.
Proof.
  unfold _schedule_single_reminder at 1.
  rewrite removed_after_schedule. reflexivity.
Qed.

End Zones.

(** *** Reminders with different numbers *)

Lemma uint_no_underscore (d : Decimal.uint) :
  ~ In "_"%char (list_ascii_of_string (NilEmpty.string_of_uint d)).
Proof.
  induction d; simpl; [tauto|..]; intros [H | H]; try discriminate; auto.
Qed.

Lemma Z_to_string_no_underscore (z : Z) :
  ~ In "_"%char (list_ascii_of_string (Py.Z_to_string z)).
Proof.
  unfold Py.Z_to_string, NilZero.string_of_int, NilZero.string_of_uint.
  destruct (Z.to_int z) as [d|d]; destruct d; simpl;
    intros H; repeat (destruct H as [H | H]; try discriminate);
    try contradiction; now apply uint_no_underscore in H.
Qed.

Lemma number_then_underscore (a b x y : string) :
  ~ In "_"%char (list_ascii_of_string a) ->
  ~ In "_"%char (list_ascii_of_string b) ->
  String.prefix (a +:+ String "_" x) (b +:+ String "_" y) = true -> a = b.
Proof.
  revert b. induction a as [|c a IH]; intros [|d b] Ha Hb;
    cbn [String.append String.prefix list_ascii_of_string In] in *.
  - reflexivity.
  - destruct (ascii_dec "_" d) as [<- | ?]; [tauto | discriminate].
  - destruct (ascii_dec c "_") as [-> | ?]; [tauto | discriminate].
  - destruct (ascii_dec c d) as [<- | ?]; [|discriminate].
    intros H. f_equal. apply IH; tauto.
Qed.

Lemma prefix_drop (p a b : string) :
  String.prefix (p +:+ a) (p +:+ b) = String.prefix a b.
Proof.
  induction p as [|c p IH]; [reflexivity|].
  cbn [String.append String.prefix].
  destruct (ascii_dec c c); [exact IH | congruence].
Qed.

Lemma other_number_not_prefixed (r1 r2 : Db.Reminder) (a b : Z) (o : nat) :
  Db.id r1 = VInt a -> Db.id r2 = VInt b -> a <> b ->
  Py.startswith (offset_job_id r2 o) (job_prefix r1) = false.
Proof.
  intros H1 H2 Hne. unfold Py.startswith, offset_job_id, job_id, job_prefix.
  rewrite H1, H2. cbn [Py.str].
  rewrite !StringFacts.append_assoc, prefix_drop.
  destruct (String.prefix _ _) eqn:E; [|reflexivity].
  change ("_dminus" +:+ Py.Z_to_string (Z.of_nat o))
    with (String "_" ("dminus" +:+ Py.Z_to_string (Z.of_nat o))) in E.
  apply number_then_underscore in E;
    auto using Z_to_string_no_underscore.
  now apply ParsingFacts.Z_to_string_inj in E.
Qed.

Lemma other_number_other_key (r1 r2 : Db.Reminder) (a b : Z) (o1 o2 : nat) :
  Db.id r1 = VInt a -> Db.id r2 = VInt b -> a <> b ->
  offset_job_id r2 o2 <> offset_job_id r1 o1.
Proof.
  intros H1 H2 Hne E.
  pose proof (other_number_not_prefixed r1 r2 a b o2 H1 H2 Hne) as P.
  rewrite E, RegistryFacts.offset_job_id_prefixed in P. discriminate.
Qed.

Section Zones.

Variable known_zone : string -> bool.
Variable cron_text : string -> string -> bool.

(** X24: reminders whose ids are different numbers never share a job:
    scheduling one, or firing any of its jobs (also the one that retires a
    once reminder and clears its jobs by prefix), leaves every job of the
    other in the registry as it was. *)
Theorem reminders_with_different_numbers_keep_their_jobs
    (self : ReminderBot) (clock : Clock) (send : result unit)
    (stamp : string) (user_id : PyVal) (r1 r2 : Db.Reminder) (a b : Z)
    (fired offset : nat) (s : gmap string Job) (w : World) :
  Db.id r1 = VInt a -> Db.id r2 = VInt b -> a <> b ->
  snd (_schedule_single_reminder known_zone cron_text self clock r1 s)
    !! offset_job_id r2 offset
  = s !! offset_job_id r2 offset /\
  scheduler (send_reminder_job known_zone self clock send stamp user_id r1
                               fired w)
    !! offset_job_id r2 offset
  = scheduler w !! offset_job_id r2 offset.
Proof.
  intros H1 H2 Hne. split.
  - apply schedule_frame. intros o _.
    exact (other_number_other_key r1 r2 a b o offset H1 H2 Hne).
  - unfold send_reminder_job. destruct send as [e|[]]; [reflexivity|].
    assert (Hretire :
      scheduler
        (if String.eqb (Db.frequency r1) "once" && (fired =? 0)%nat
         then {| db := snd (Db.delete_reminder
                              (Db.log_reminder_sent (db w) (Db.id r1)
                                                    user_id stamp)
                              (Db.id r1));
                 scheduler := remove_jobs_with_prefix (job_prefix r1)
                                                      (scheduler w);
                 sent := sent w ++
                         [mkNotification user_id
                            (if (fired =? 2)%nat then TwoDaysLeft
                             else if (fired =? 1)%nat then OneDayLeft
                             else DueToday)
                            (Db.text r1) (Db.frequency r1)] |}
         else {| db := Db.log_reminder_sent (db w) (Db.id r1) user_id stamp;
                 scheduler := scheduler w;
                 sent := sent w ++
                         [mkNotification user_id
                            (if (fired =? 2)%nat then TwoDaysLeft
                             else if (fired =? 1)%nat then OneDayLeft
                             else DueToday)
                            (Db.text r1) (Db.frequency r1)] |})
        !! offset_job_id r2 offset
      = scheduler w !! offset_job_id r2 offset).
    { destruct (_ && _); cbn [scheduler]; [|reflexivity].
      rewrite RegistryFacts.remove_jobs_with_prefix_lookup.
      now rewrite (other_number_not_prefixed r1 r2 a b offset). }
    cbn [db scheduler sent] in *.
    destruct (String.eqb (Db.frequency r1) "monthly"); [|exact Hretire].
    destruct (_compute_next_month_event _ _ _ _) as [e|next_event];
      [exact Hretire|].
    destruct (minus_days next_event fired) as [e|run_dt]; [exact Hretire|].
    cbn [scheduler]. rewrite offset_job_frame; [exact Hretire|].
    exact (other_number_other_key r1 r2 a b fired offset H1 H2 Hne).
Qed.

End Zones.

End FrameFacts.

(** ** What the creation dialogue hands on *)

Module DialogueFacts.

Import Cal Bot BotRest.

Lemma accept_day_spec (day_str : string) (d : Z) :
  accept_day day_str = Some d <->
  Py.int_of_string day_str = Some d /\ 1 <= d <= 31.
Proof.
  unfold accept_day. destruct (Py.int_of_string day_str) as [z|].
  - destruct (Z.leb_spec 1 z), (Z.leb_spec z 31); cbn [andb];
      split; try discriminate.
    + intros [= <-]. split; [reflexivity | lia].
    + intros [[= <-] _]. reflexivity.
    + intros [[= <-] ?]. lia.
    + intros [[= <-] ?]. lia.
    + intros [[= <-] ?]. lia.
  - split; [discriminate | intros [[=] _]].
Qed.

Lemma times_checked :
  forallb
    (fun h =>
       forallb
         (fun m =>
            Manager._validate_time
              (VStr (format_02d (Z.of_nat h) +:+ ":"
                     +:+ format_02d (Z.of_nat m)))
            && (String.length (format_02d (Z.of_nat h) +:+ ":"
                               +:+ format_02d (Z.of_nat m)) =? 5)%nat)
         (seq 0 60))
    (seq 0 24) = true.
Proof. vm_compute. reflexivity. Qed.

(** X27: the time text [_default_time_str] builds from a notification time
    of day has five characters and passes the manager's [_validate_time],
    so the time a new reminder is created with is one an edit would
    accept. *)
Theorem default_time_passes_the_time_check
    (self : ReminderBot) (hour minute : Z) :
  notify_hm self = (hour, minute) ->
  0 <= hour <= 23 -> 0 <= minute <= 59 ->
  Manager._validate_time (VStr (_default_time_str self)) = true /\
  String.length (_default_time_str self) = 5%nat.
Proof.
  intros Hhm Hh Hm. unfold _default_time_str. rewrite Hhm.
  pose proof times_checked as H. rewrite forallb_forall in H.
  specialize (H (Z.to_nat hour)).
  rewrite forallb_forall in H.
  specialize (H ltac:(apply in_seq; lia) (Z.to_nat minute)
                ltac:(apply in_seq; lia)).
  rewrite !Z2Nat.id in H by lia.
  apply andb_true_iff in H. destruct H as [H1 H2].
  split; [exact H1 | now apply Nat.eqb_eq].
Qed.

Section Zones.

Variable known_zone : string -> bool.
Variable cron_text : string -> string -> bool.

(** X28: a day the dialogue accepts is a number from 1 to 31, and for a
    reminder stored with such a day [_compute_next_month_event] always
    returns: a valid instant after the clock reading, on that day or on
    the last day of its month when the month is shorter. *)
Theorem accepted_day_always_has_a_next_event
    (self : ReminderBot) (clock : Clock) (reminder : Db.Reminder)
    (name day_str : string) (d hour minute : Z) :
  accept_day day_str = Some d ->
  Db.day reminder = Some (VInt d) ->
  Db.timezone reminder = Some name -> known_zone name = true ->
  notify_hm self = (hour, minute) ->
  0 <= hour <= 23 -> 0 <= minute <= 59 ->
  valid (clock (TZ name)) = true -> year (clock (TZ name)) < MAXYEAR ->
  1 <= d <= 31 /\
  exists next_event,
    _compute_next_month_event known_zone self clock reminder
      = inr next_event /\
    valid next_event = true /\
    ltb (clock (TZ name)) next_event = true /\
    day next_event
      = Z.min d (monthrange_last (year next_event) (month next_event)).
Proof.
  intros Ha Hday Htz Hk Hhm Hh Hm Hv Hy.
  apply accept_day_spec in Ha. destruct Ha as [_ Hd].
  split; [exact Hd|].
  assert (Hz : pytz_timezone known_zone
                 (default "Asia/Ho_Chi_Minh" (Db.timezone reminder))
               = inr (TZ name)).
  { rewrite Htz. unfold pytz_timezone. cbn [default from_option id].
    now rewrite Hk. }
  destruct (TriggerFacts.next_event_clamps known_zone self clock reminder
              (TZ name) d hour minute Hz Hhm Hh Hm Hday Hd Hv Hy)
    as (ne & H1 & H2 & H3 & H4).
  exists ne. auto.
Qed.

End Zones.

End DialogueFacts.

(** ** The start-up loop *)

Module LoopFacts.

Import Cal Bot BotRest.

Lemma add_agree (j : string) (job : Job) (s s' : gmap string Job)
    (key : string) :
  s !! key = s' !! key ->
  add_job j job s !! key = add_job j job s' !! key.
Proof.
  intros H. unfold add_job. destruct (decide (j = key)) as [->|Hn].
  - now rewrite !lookup_insert_eq.
  - now rewrite !lookup_insert_ne.
Qed.

Lemma remove_agree (j : string) (s s' : gmap string Job) (key : string) :
  s !! key = s' !! key ->
  try_remove_job j s !! key = try_remove_job j s' !! key.
Proof.
  intros H. rewrite !RegistryFacts.try_remove_job_delete.
  destruct (decide (j = key)) as [->|Hn].
  - now rewrite !lookup_delete_eq.
  - now rewrite !lookup_delete_ne.
Qed.

Section Zones.

Variable known_zone : string -> bool.
Variable cron_text : string -> string -> bool.

Lemma offset_job_agree (reminder : Db.Reminder) (run_dt : datetime)
    (offset : nat) (s s' : gmap string Job) (key : string) :
  s !! key = s' !! key ->
  fst (_schedule_offset_job known_zone reminder run_dt offset s)
  = fst (_schedule_offset_job known_zone reminder run_dt offset s') /\
  snd (_schedule_offset_job known_zone reminder run_dt offset s) !! key
  = snd (_schedule_offset_job known_zone reminder run_dt offset s') !! key.
Proof.
  intros H. unfold _schedule_offset_job.
  destruct (pytz_timezone known_zone _); cbn [fst snd];
    (split; [reflexivity|]); auto using add_agree, remove_agree.
Qed.

Lemma once_jobs_agree (user_timezone : string) (reminder : Db.Reminder)
    (run_date : datetime) (s s' : gmap string Job) (key : string) :
  s !! key = s' !! key ->
  fst (once_jobs known_zone user_timezone reminder run_date s)
  = fst (once_jobs known_zone user_timezone reminder run_date s') /\
  snd (once_jobs known_zone user_timezone reminder run_date s) !! key
  = snd (once_jobs known_zone user_timezone reminder run_date s') !! key.
Proof.
  intros H. unfold once_jobs.
  destruct (DateTrigger_named known_zone run_date user_timezone);
    cbn [fst snd]; [auto|].
  destruct (minus_days run_date 1); cbn [fst snd];
    [auto using add_agree|].
  destruct (DateTrigger_named known_zone _ user_timezone); cbn [fst snd];
    [auto using add_agree|].
  destruct (minus_days run_date 2); cbn [fst snd];
    [auto using add_agree|].
  destruct (DateTrigger_named known_zone _ user_timezone); cbn [fst snd];
    auto 6 using add_agree.
Qed.

Lemma monthly_offsets_agree (self : ReminderBot) (clock : Clock)
    (reminder : Db.Reminder) (s s' : gmap string Job) (key : string) :
  s !! key = s' !! key ->
  monthly_offsets known_zone self clock reminder s !! key
  = monthly_offsets known_zone self clock reminder s' !! key.
Proof.
  intros H. unfold monthly_offsets.
  destruct (_compute_next_month_event _ _ _ _) as [e|next_event]; [auto|].
  destruct (minus_days next_event 1) as [e|d1]; [auto|].
  destruct (offset_job_agree reminder d1 1 s s' key H) as [F1 F2].
  destruct (_schedule_offset_job known_zone reminder d1 1 s) as [r1 s1].
  destruct (_schedule_offset_job known_zone reminder d1 1 s') as [r1' s1'].
  cbn [fst snd] in F1, F2. subst r1'. destruct r1 as [e|[]]; [exact F2|].
  destruct (minus_days next_event 2) as [e|d2]; [exact F2|].
  now apply offset_job_agree.
Qed.

(** What a call leaves under a key, and how it ends, depends on the
    registry only through that key once the reminder's old jobs are
    dropped. *)
Lemma schedule_agree (self : ReminderBot) (clock : Clock)
    (reminder : Db.Reminder) (s s' : gmap string Job) (key : string) :
  remove_offset_jobs reminder s !! key
  = remove_offset_jobs reminder s' !! key ->
  fst (_schedule_single_reminder known_zone cron_text self clock reminder s)
  = fst (_schedule_single_reminder known_zone cron_text self clock reminder s') /\
  snd (_schedule_single_reminder known_zone cron_text self clock reminder s) !! key
  = snd (_schedule_single_reminder known_zone cron_text self clock reminder s') !! key.
Proof.
  intros H. unfold _schedule_single_reminder.
  destruct (notify_hm self) as [hour minute].
  destruct (match pytz_timezone known_zone _ with
            | inl UnknownTimeZoneError => _
            | r => r
            end) as [e|tz]; [auto|].
  destruct (String.eqb (Db.frequency reminder) "once").
  { destruct (once_run_date _ _ _ _) as [e|run_date].
    - destruct e; auto.
    - destruct (once_jobs_agree
                  (default "Asia/Ho_Chi_Minh" (Db.timezone reminder))
                  reminder run_date _ _ key H) as [F1 F2].
      destruct (once_jobs _ _ _ _ (remove_offset_jobs reminder s))
        as [r1 s1].
      destruct (once_jobs _ _ _ _ (remove_offset_jobs reminder s'))
        as [r1' s1'].
      cbn [fst snd] in F1, F2. subst r1'.
      destruct r1 as [e|[]]; [destruct e|]; auto. }
  destruct (String.eqb (Db.frequency reminder) "daily").
  { destruct (new_CronTrigger _ _ _ _ _ _) as [e|t]; [auto|].
    cbn [fst snd]. auto using add_agree. }
  destruct (String.eqb (Db.frequency reminder) "weekly").
  { destruct (new_CronTrigger _ _ _ _ _ _) as [e|t]; [auto|].
    cbn [fst snd]. auto using add_agree. }
  destruct (String.eqb (Db.frequency reminder) "monthly"); [|auto].
  destruct (new_CronTrigger _ _ _ _ _ _) as [e|t]; [auto|].
  cbn [fst snd]. auto using monthly_offsets_agree, add_agree.
Qed.

Lemma loop_frame (self : ReminderBot) (clock_at : nat -> Clock) (i : nat)
    (reminders : list Db.Reminder) (s : gmap string Job) (key : string) :
  (forall r offset, In r reminders -> (offset <= 2)%nat ->
                    key <> offset_job_id r offset) ->
  snd (schedule_loop known_zone cron_text self clock_at i reminders s) !! key
  = s !! key.
Proof.
  revert i s. induction reminders as [|r rest IH]; intros i s Hk;
    [reflexivity|].
  cbn [schedule_loop].
  pose proof (FrameFacts.schedule_frame known_zone cron_text self (clock_at i) r s
                key (fun o Ho => Hk r o (or_introl eq_refl) Ho)) as F.
  destruct (_schedule_single_reminder known_zone cron_text self (clock_at i) r s)
    as [[e|[]] s1]; cbn [snd] in *; [exact F|].
  rewrite IH; [exact F|]. intros r' o Hr'. apply Hk. now right.
Qed.

Lemma ids_of_members (reminders : list Db.Reminder) (ids : list Z)
    (r : Db.Reminder) :
  map Db.id reminders = map VInt ids -> In r reminders ->
  exists k, In k ids /\ Db.id r = VInt k.
Proof.
  revert ids. induction reminders as [|a rest IH]; intros [|k ids];
    cbn [map]; try discriminate; [intros _ []|].
  intros [= Ha Hrest] [<- | Hr]; [exists k; split; [now left | exact Ha]|].
  destruct (IH ids Hrest Hr) as (k' & Hk' & E). exists k'. split; auto.
  now right.
Qed.

Lemma loop_each (self : ReminderBot) (clock_at : nat -> Clock)
    (reminders : list Db.Reminder) :
  forall (ids : list Z) (i : nat) (s s' : gmap string Job),
    map Db.id reminders = map VInt ids -> List.NoDup ids ->
    schedule_loop known_zone cron_text self clock_at i reminders s = (inr tt, s') ->
    forall j r offset,
      reminders !! j = Some r -> (offset <= 2)%nat ->
      s' !! offset_job_id r offset
      = snd (_schedule_single_reminder known_zone cron_text self
               (clock_at (i + j)%nat) r ∅) !! offset_job_id r offset.
Proof.
  induction reminders as [|r0 rest IH]; intros ids i s s' Hids Hnd Hrun j r
    offset Hj Ho; [discriminate|].
  destruct ids as [|k0 ids]; [discriminate|].
  cbn [map] in Hids. injection Hids as Hk0 Hids.
  apply List.NoDup_cons_iff in Hnd. destruct Hnd as [Hfresh Hnd].
  cbn [schedule_loop] in Hrun.
  destruct (_schedule_single_reminder known_zone cron_text self (clock_at i) r0 s)
    as [[e|[]] s1] eqn:E1; [discriminate|].
  destruct j as [|j]; cbn [lookup list_lookup] in Hj.
  - injection Hj as <-. rewrite Nat.add_0_r.
    replace s' with (snd (schedule_loop known_zone cron_text self clock_at (S i)
                            rest s1)) by now rewrite Hrun.
    rewrite loop_frame.
    + replace s1 with (snd (_schedule_single_reminder known_zone cron_text self
                              (clock_at i) r0 s)) by now rewrite E1.
      apply schedule_agree.
      now rewrite !SchedulingFacts.removed_offsets.
    + intros r' o Hr' _.
      destruct (ids_of_members rest ids r' Hids Hr') as (k & Hk & Ek).
      apply (FrameFacts.other_number_other_key r' r0 k k0 o offset Ek Hk0).
      intros ->. contradiction.
  - replace (i + S j)%nat with (S i + j)%nat by lia.
    now apply (IH ids (S i) s1 s').
Qed.

(** X25: when the loop of [schedule_reminders] runs to its end over active
    reminders whose ids are different numbers, the registry holds for each
    of them, under each of its three job ids, exactly what
    [_schedule_single_reminder] installs for that reminder alone on an
    empty registry; and, however the loop ends, an entry under a key that
    is no job id of an active reminder is left as it was, the jobs of
    reminders that are no longer active among them. *)
Theorem startup_schedules_every_active_reminder_as_if_alone
    (self : ReminderBot) (clock_at : nat -> Clock) (db : Db.Database)
    (ids : list Z) (s : gmap string Job) :
  map Db.id (Db.get_all_active_reminders db) = map VInt ids ->
  List.NoDup ids ->
  (fst (schedule_reminders known_zone cron_text self clock_at db s) = inr tt ->
   forall i r offset,
     Db.get_all_active_reminders db !! i = Some r -> (offset <= 2)%nat ->
     snd (schedule_reminders known_zone cron_text self clock_at db s)
       !! offset_job_id r offset
     = snd (_schedule_single_reminder known_zone cron_text self (clock_at i) r ∅)
         !! offset_job_id r offset) /\
  (forall key,
     (forall r offset, In r (Db.get_all_active_reminders db) ->
                       (offset <= 2)%nat ->
                       key <> offset_job_id r offset) ->
     snd (schedule_reminders known_zone cron_text self clock_at db s) !! key
     = s !! key).
Proof.
  intros Hids Hnd. unfold schedule_reminders. split.
  - intros Hok i r offset Hi Ho.
    destruct (schedule_loop known_zone cron_text self clock_at 0
                (Db.get_all_active_reminders db) s) as [res s'] eqn:E.
    cbn [fst snd] in *. subst res.
    exact (loop_each self clock_at _ ids 0%nat s s' Hids Hnd E i r offset
             Hi Ho).
  - intros key Hk. now apply loop_frame.
Qed.

(** X26: a firing that is neither the due notice of a [once] reminder nor
    a firing of a [monthly] reminder retires nothing: the registry is
    the same afterwards and the sheet shows the same reminder ids. *)
Theorem other_firings_retire_nothing
    (self : ReminderBot) (clock : Clock) (send : result unit)
    (stamp : string) (user_id : PyVal) (reminder : Db.Reminder)
    (offset_days : nat) (w : World) :
  Db.frequency reminder <> "monthly" ->
  Db.frequency reminder <> "once" \/ offset_days <> 0%nat ->
  scheduler (send_reminder_job known_zone self clock send stamp user_id
                               reminder offset_days w)
  = scheduler w /\
  map (fun r => Py.str (Db.id r))
      (Db.reminders_sheet
         (db (send_reminder_job known_zone self clock send stamp user_id
                                reminder offset_days w)))
  = map (fun r => Py.str (Db.id r)) (Db.reminders_sheet (db w)).
Proof.
  intros Hm Ho. unfold send_reminder_job.
  destruct send as [e|[]]; [auto|].
  apply String.eqb_neq in Hm. rewrite Hm.
  assert (E : String.eqb (Db.frequency reminder) "once"
              && (offset_days =? 0)%nat = false).
  { apply andb_false_iff. destruct Ho as [Ho | Ho].
    - left. now apply String.eqb_neq.
    - right. now apply Nat.eqb_neq. }
  rewrite E. cbn [scheduler db]. split; [reflexivity|].
  apply StoreFacts.log_keeps_ids.
Qed.

End Zones.

End LoopFacts.

(** ** Listed and yet refused *)

Module OwnerFacts.

(** X21: of the reminders [get_user_reminders] lists for a user, the
    ownership test the manager applies before an edit, a deletion or a
    toggle passes those whose owner cell holds an integer or a boolean and
    refuses those whose owner cell holds text: such a reminder is listed
    and cannot be changed. (A cell that holds a fraction is not among the
    values modelled and the statement says nothing about it.) *)
Theorem listed_reminder_is_refused_when_owner_cell_is_text
    (db : Db.Database) (user_id : Z) (r : Db.Reminder) :
  In r (DbRest.get_user_reminders db user_id) ->
  In r (Db.reminders_sheet db) /\
  ((exists s, Db.user_id r = VStr s) ->
   Manager.not_owned (Some r) user_id = true /\
   forall (rid : PyVal) (updates : Db.Dict),
     Db.get_reminder db rid = Some r ->
     Manager.edit_reminder db user_id rid updates = (false, db)) /\
  ((exists z, Db.user_id r = VInt z) \/ (exists b, Db.user_id r = VBool b) ->
   Manager.not_owned (Some r) user_id = false).
Proof.
  unfold DbRest.get_user_reminders. intros H. apply filter_In in H.
  destruct H as [Hin H]. split; [exact Hin|].
  unfold Manager.not_owned.
  destruct (Db.user_id r) as [|b|z|s] eqn:Eu;
    cbn [DbRest._normalize_user_id] in H.
  - discriminate.
  - split; [intros [s [=]]|]. intros _.
    unfold Py.eqv. cbn [Py.as_number]. now rewrite H.
  - split; [intros [s [=]]|]. intros _.
    unfold Py.eqv. cbn [Py.as_number]. now rewrite H.
  - split; [|intros [[z [=]] | [b [=]]]]. intros _.
    split; [reflexivity|]. intros rid updates Hg.
    unfold Manager.edit_reminder. rewrite Hg.
    unfold Manager.not_owned. rewrite Eu. reflexivity.
Qed.

End OwnerFacts.

(** ** Concrete runs *)

Module Instances.

Import Cal Bot BotRest.

Lemma status_goes_only_to_users_with_nothing_due_witness :
  In 200 (_get_all_user_ids MoreSamples.users MoreSamples.book
            (Some (Db.get_all_active_reminders MoreSamples.book))) /\
  forall r,
    In r (Db.get_all_active_reminders MoreSamples.book) ->
    _parse_user_id (Db.user_id r) = Some 200 ->
    _reminder_due_today Samples.zones Samples.bot
      (Samples.reads (mkdt 2024 5 10 9 0 0 0)) r = inr false.
Proof.
  apply (StatusFacts.status_goes_only_to_users_with_nothing_due
           Samples.zones Samples.bot
           (Samples.reads (mkdt 2024 5 10 9 0 0 0))
           MoreSamples.users MoreSamples.book 200).
  vm_compute. left. reflexivity.
Defined.

Lemma status_reaches_every_user_with_nothing_due_witness :
  snd (_daily_no_reminders_job Samples.zones Samples.bot
         (Samples.reads (mkdt 2024 5 10 9 0 0 0))
         MoreSamples.users MoreSamples.book) = ret tt /\
  List.NoDup (fst (_daily_no_reminders_job Samples.zones Samples.bot
                     (Samples.reads (mkdt 2024 5 10 9 0 0 0))
                     MoreSamples.users MoreSamples.book)) /\
  forall u,
    In u (_get_all_user_ids MoreSamples.users MoreSamples.book
            (Some (Db.get_all_active_reminders MoreSamples.book))) ->
    (forall r, In r (Db.get_all_active_reminders MoreSamples.book) ->
               _parse_user_id (Db.user_id r) = Some u ->
               _reminder_due_today Samples.zones Samples.bot
                 (Samples.reads (mkdt 2024 5 10 9 0 0 0)) r = inr false) ->
    In u (fst (_daily_no_reminders_job Samples.zones Samples.bot
                 (Samples.reads (mkdt 2024 5 10 9 0 0 0))
                 MoreSamples.users MoreSamples.book)).
Proof.
  apply (StatusFacts.status_reaches_every_user_with_nothing_due
           Samples.zones Samples.bot
           (Samples.reads (mkdt 2024 5 10 9 0 0 0))
           MoreSamples.users MoreSamples.book).
  intros r Hr. vm_compute in Hr.
  destruct Hr as [<- | [<- | [<- | []]]].
  - exists false. reflexivity.
  - exists true. reflexivity.
  - exists false. reflexivity.
Defined.

Lemma not_due_once_todays_notification_time_has_passed_witness :
  _reminder_due_today Samples.zones Samples.bot
    (Samples.reads (mkdt 2024 5 15 7 35 0 0))
    (Samples.reminder 15 "monthly" "UTC") = ret false.
Proof.
  apply (DueFacts.not_due_once_todays_notification_time_has_passed
           Samples.zones Samples.bot
           (Samples.reads (mkdt 2024 5 15 7 35 0 0))
           (Samples.reminder 15 "monthly" "UTC") "UTC" 7 35);
    try reflexivity; try (left; reflexivity);
    try (unfold MAXYEAR; cbn; lia).
Defined.

Lemma active_from_start_minute_until_end_minute_witness :
  exists b,
    _is_active_hours Samples.bot
      (Samples.reads (mkdt 2024 5 14 7 39 59 999999)) = ret b /\
    (b = true <-> 7 * 60 + 30 <= 7 * 60 + 39 < 7 * 60 + 40).
Proof.
  apply (WindowFacts.active_from_start_minute_until_end_minute
           Samples.bot (Samples.reads (mkdt 2024 5 14 7 39 59 999999))
           7 30 7 40);
    try reflexivity; lia.
Defined.

Lemma pre_sleep_is_one_minute_before_the_end_witness :
  0 <= fst (_pre_sleep_hm Samples.bot) <= 23 /\
  0 <= snd (_pre_sleep_hm Samples.bot) <= 59 /\
  fst (_pre_sleep_hm Samples.bot) * 60 + snd (_pre_sleep_hm Samples.bot)
  = (7 * 60 + 40 - 1) mod 1440.
Proof.
  apply (WindowFacts.pre_sleep_is_one_minute_before_the_end
           Samples.bot 7 40); try reflexivity; lia.
Defined.

Lemma pre_sleep_notice_falls_inside_the_window_witness :
  _is_active_hours Samples.bot (Samples.reads (mkdt 2024 5 14 7 39 0 0))
  = ret true.
Proof.
  apply (WindowFacts.pre_sleep_notice_falls_inside_the_window
           Samples.bot (Samples.reads (mkdt 2024 5 14 7 39 0 0))
           7 30 7 40);
    try reflexivity; lia.
Defined.

Lemma sleep_job_outside_window_closes_the_loop_witness :
  _sleep_job Samples.bot (Samples.reads (mkdt 2024 5 14 7 40 0 0))
             Samples.awake
  = set_running false StopPolling Samples.awake /\
  running (_sleep_job Samples.bot (Samples.reads (mkdt 2024 5 14 7 40 0 0))
                      Samples.awake) = false /\
  events (_sleep_job Samples.bot (Samples.reads (mkdt 2024 5 14 7 40 0 0))
                     Samples.awake)
  = events Samples.awake ++ [StopPolling] /\
  _sleep_job Samples.bot (Samples.reads (mkdt 2024 5 14 7 40 15 0))
    (_sleep_job Samples.bot (Samples.reads (mkdt 2024 5 14 7 40 0 0))
                Samples.awake)
  = _sleep_job Samples.bot (Samples.reads (mkdt 2024 5 14 7 40 0 0))
               Samples.awake.
Proof.
  apply (WindowFacts.sleep_job_outside_window_closes_the_loop
           Samples.bot (Samples.reads (mkdt 2024 5 14 7 40 0 0))
           (Samples.reads (mkdt 2024 5 14 7 40 15 0)) Samples.awake
           7 30 7 40);
    try reflexivity; try lia.
  left. vm_compute. discriminate.
Defined.

Lemma waiter_closes_only_after_the_deadline_outside_the_window_witness :
  exists clock last deadline,
    In clock [Samples.reads (mkdt 2024 5 14 22 2 30 0);
              Samples.reads (mkdt 2024 5 14 22 3 0 0)] /\
    last_activity_vn MoreSamples.active_at_22 = Some last /\
    plus_minutes last (inactivity_minutes Samples.bot) = inr deadline /\
    leb deadline (clock (vn_tz Samples.bot)) = true /\
    _is_active_hours Samples.bot clock = ret false /\
    _inactivity_countdown Samples.bot
      [Samples.reads (mkdt 2024 5 14 22 2 30 0);
       Samples.reads (mkdt 2024 5 14 22 3 0 0)] MoreSamples.active_at_22
    = task_done (set_running false StopPolling MoreSamples.active_at_22).
Proof.
  apply (WindowFacts.waiter_closes_only_after_the_deadline_outside_the_window
           Samples.bot
           [Samples.reads (mkdt 2024 5 14 22 2 30 0);
            Samples.reads (mkdt 2024 5 14 22 3 0 0)]
           MoreSamples.active_at_22); reflexivity.
Defined.

Lemma activity_keeps_the_loop_open_for_inactivity_minutes_witness :
  let st1 :=
    snd (_register_activity Samples.bot
           (Samples.reads (mkdt 2024 5 14 22 0 0 0)) Samples.awake) in
  inactivity_task st1 = Some Pending /\
  last_activity_vn st1 = Some (mkdt 2024 5 14 22 0 0 0) /\
  _inactivity_countdown Samples.bot
    [Samples.reads (mkdt 2024 5 14 22 0 30 0);
     Samples.reads (mkdt 2024 5 14 22 2 59 999999)] st1 = st1 /\
  _inactivity_countdown Samples.bot
    ([Samples.reads (mkdt 2024 5 14 22 0 30 0);
      Samples.reads (mkdt 2024 5 14 22 2 59 999999)]
     ++ [Samples.reads (mkdt 2024 5 14 22 3 0 0)]) st1
  = task_done (set_running false StopPolling st1).
Proof.
  apply (WindowFacts.activity_keeps_the_loop_open_for_inactivity_minutes
           Samples.bot (Samples.reads (mkdt 2024 5 14 22 0 0 0))
           (Samples.reads (mkdt 2024 5 14 22 3 0 0))
           [Samples.reads (mkdt 2024 5 14 22 0 30 0);
            Samples.reads (mkdt 2024 5 14 22 2 59 999999)]
           Samples.awake (mkdt 2024 5 14 22 3 0 0));
    try reflexivity.
  repeat constructor.
Defined.

Lemma new_user_starts_in_the_default_zone_witness :
  DbRest.get_user_timezone
    (DbRest.add_user MoreSamples.users 300 "Chi" "2024-05-10T09:00:00") 300
  = Some "Asia/Ho_Chi_Minh".
Proof.
  apply (UserFacts.new_user_starts_in_the_default_zone
           MoreSamples.users 300 "Chi" "2024-05-10T09:00:00").
  reflexivity.
Defined.

Lemma stored_zone_is_read_back_witness :
  DbRest.get_user_timezone
    (DbRest.set_user_timezone MoreSamples.users 200 "Europe/Paris") 200
  = match DbRest.find_user (Py.Z_to_string 200) MoreSamples.users with
    | Some _ => Some "Europe/Paris"
    | None => Some "UTC"
    end /\
  (DbRest.find_user (Py.Z_to_string 200) MoreSamples.users = None ->
   DbRest.set_user_timezone MoreSamples.users 200 "Europe/Paris"
   = MoreSamples.users).
Proof.
  apply (UserFacts.stored_zone_is_read_back MoreSamples.users 200
           "Europe/Paris").
  discriminate.
Defined.

Lemma other_users_zone_is_kept_witness :
  DbRest.get_user_timezone
    (DbRest.set_user_timezone MoreSamples.users 200 "Europe/Paris") 100
  = DbRest.get_user_timezone MoreSamples.users 100.
Proof.
  apply (UserFacts.other_users_zone_is_kept MoreSamples.users 200 100
           "Europe/Paris").
  lia.
Defined.

Lemma toggle_never_activates_witness :
  (forall r,
      In r (Db.reminders_sheet
              (snd (Manager.toggle_reminder MoreSamples.book 100 (VInt 8)))) ->
      Py.truthy (Db.active r) = true) /\
  (forall r,
      In r (Db.get_all_active_reminders
              (snd (Manager.toggle_reminder MoreSamples.book 100 (VInt 8)))) ->
      In r (Db.get_all_active_reminders MoreSamples.book)).
Proof.
  apply (EditFacts.toggle_never_activates MoreSamples.book 100 (VInt 8)).
  intros r Hr. vm_compute in Hr.
  destruct Hr as [<- | [<- | [<- | []]]]; reflexivity.
Defined.

Lemma accepted_time_edit_is_stored_witness :
  fst (Manager.edit_reminder MoreSamples.book 100 (VInt 8)
                             [("time", VStr "06:05")]) = true /\
  Db.get_reminder
    (snd (Manager.edit_reminder MoreSamples.book 100 (VInt 8)
                                [("time", VStr "06:05")])) (VInt 8)
  = Some (Db.mkReminder (VInt 8) (VInt 100) "water" (Some (VInt 3)) "06:05"
                        "daily" (Some "UTC") (VStr "TRUE")
                        "2024-02-01T00:00:00" "") /\
  forall k, k <> 8 ->
    Db.get_reminder
      (snd (Manager.edit_reminder MoreSamples.book 100 (VInt 8)
                                  [("time", VStr "06:05")])) (VInt k)
    = Db.get_reminder MoreSamples.book (VInt k).
Proof.
  apply (EditFacts.accepted_time_edit_is_stored MoreSamples.book 100 8
           Samples.other "06:05"); try reflexivity.
  repeat constructor; eexists; reflexivity.
Defined.

Lemma reminders_with_different_numbers_keep_their_jobs_witness :
  snd (_schedule_single_reminder Samples.zones Samples.expressions Samples.bot
         (Samples.reads (mkdt 2024 5 15 7 35 0 0))
         (Samples.reminder 15 "once" "UTC")
         (scheduler (Samples.world "once")))
    !! offset_job_id Samples.other 0
  = scheduler (Samples.world "once") !! offset_job_id Samples.other 0 /\
  scheduler (send_reminder_job Samples.zones Samples.bot
               (Samples.reads (mkdt 2024 5 15 7 35 0 0)) (ret tt)
               "2024-05-15T07:35:00" (VInt 100)
               (Samples.reminder 15 "once" "UTC") 0 (Samples.world "once"))
    !! offset_job_id Samples.other 0
  = scheduler (Samples.world "once") !! offset_job_id Samples.other 0.
Proof.
  apply (FrameFacts.reminders_with_different_numbers_keep_their_jobs
           Samples.zones Samples.expressions Samples.bot
           (Samples.reads (mkdt 2024 5 15 7 35 0 0)) (ret tt)
           "2024-05-15T07:35:00" (VInt 100)
           (Samples.reminder 15 "once" "UTC") Samples.other 7 8);
    try reflexivity; lia.
Defined.

Lemma default_time_passes_the_time_check_witness :
  Manager._validate_time (VStr (_default_time_str Samples.bot)) = true /\
  String.length (_default_time_str Samples.bot) = 5%nat.
Proof.
  apply (DialogueFacts.default_time_passes_the_time_check Samples.bot 7 35);
    try reflexivity; lia.
Defined.

Lemma accepted_day_always_has_a_next_event_witness :
  1 <= 31 <= 31 /\
  exists next_event,
    _compute_next_month_event Samples.zones Samples.bot
      (Samples.reads (mkdt 2024 4 10 9 0 0 0))
      (Samples.reminder 31 "monthly" "UTC") = inr next_event /\
    valid next_event = true /\
    ltb (mkdt 2024 4 10 9 0 0 0) next_event = true /\
    day next_event
    = Z.min 31 (monthrange_last (year next_event) (month next_event)).
Proof.
  apply (DialogueFacts.accepted_day_always_has_a_next_event
           Samples.zones Samples.bot
           (Samples.reads (mkdt 2024 4 10 9 0 0 0))
           (Samples.reminder 31 "monthly" "UTC") "UTC" " 31 " 31 7 35);
    try reflexivity; try lia.
Defined.

Lemma delivered_notice_is_on_record_witness :
  DbRest.get_reminder_history
    (db (send_reminder_job Samples.zones Samples.bot
           (Samples.reads (mkdt 2024 5 15 7 35 0 0)) (ret tt)
           "2024-05-15T07:35:00" (VInt 100)
           (Samples.reminder 15 "once" "UTC") 0 (Samples.world "once")))
    (VInt 7)
  = DbRest.get_reminder_history (db (Samples.world "once")) (VInt 7)
    ++ [Db.mkLogRow (VInt 7) "2024-05-15T07:35:00" (VInt 100)] /\
  length (sent (send_reminder_job Samples.zones Samples.bot
                  (Samples.reads (mkdt 2024 5 15 7 35 0 0)) (ret tt)
                  "2024-05-15T07:35:00" (VInt 100)
                  (Samples.reminder 15 "once" "UTC") 0
                  (Samples.world "once")))
  = S (length (sent (Samples.world "once"))) /\
  send_reminder_job Samples.zones Samples.bot
    (Samples.reads (mkdt 2024 5 15 7 35 0 0)) (raise TelegramError)
    "2024-05-15T07:35:00" (VInt 100) (Samples.reminder 15 "once" "UTC") 0
    (Samples.world "once")
  = Samples.world "once".
Proof.
  apply (HistoryFacts.delivered_notice_is_on_record
           Samples.zones Samples.bot
           (Samples.reads (mkdt 2024 5 15 7 35 0 0))
           "2024-05-15T07:35:00" (VInt 100)
           (Samples.reminder 15 "once" "UTC") 7 0 (Samples.world "once")
           TelegramError).
  reflexivity.
Defined.

Lemma listed_reminder_is_refused_when_owner_cell_is_text_witness :
  In MoreSamples.typed (Db.reminders_sheet MoreSamples.typed_book) /\
  ((exists s, Db.user_id MoreSamples.typed = VStr s) ->
   Manager.not_owned (Some MoreSamples.typed) 100 = true /\
   forall (rid : PyVal) (updates : Db.Dict),
     Db.get_reminder MoreSamples.typed_book rid = Some MoreSamples.typed ->
     Manager.edit_reminder MoreSamples.typed_book 100 rid updates
     = (false, MoreSamples.typed_book)) /\
  ((exists z, Db.user_id MoreSamples.typed = VInt z) \/
   (exists b, Db.user_id MoreSamples.typed = VBool b) ->
   Manager.not_owned (Some MoreSamples.typed) 100 = false).
Proof.
  apply (OwnerFacts.listed_reminder_is_refused_when_owner_cell_is_text
           MoreSamples.typed_book 100 MoreSamples.typed).
  vm_compute. right. left. reflexivity.
Defined.

Lemma startup_schedules_every_active_reminder_as_if_alone_witness :
  fst (schedule_reminders Samples.zones Samples.expressions Samples.bot
         (fun _ => Samples.reads (mkdt 2024 5 10 9 0 0 0))
         MoreSamples.book ∅) = inr tt /\
  (fst (schedule_reminders Samples.zones Samples.expressions Samples.bot
          (fun _ => Samples.reads (mkdt 2024 5 10 9 0 0 0))
          MoreSamples.book ∅) = inr tt ->
   forall i r offset,
     Db.get_all_active_reminders MoreSamples.book !! i = Some r ->
     (offset <= 2)%nat ->
     snd (schedule_reminders Samples.zones Samples.expressions Samples.bot
            (fun _ => Samples.reads (mkdt 2024 5 10 9 0 0 0))
            MoreSamples.book ∅) !! offset_job_id r offset
     = snd (_schedule_single_reminder Samples.zones Samples.expressions Samples.bot
              (Samples.reads (mkdt 2024 5 10 9 0 0 0)) r ∅)
         !! offset_job_id r offset) /\
  (forall key,
     (forall r offset, In r (Db.get_all_active_reminders MoreSamples.book) ->
                       (offset <= 2)%nat ->
                       key <> offset_job_id r offset) ->
     snd (schedule_reminders Samples.zones Samples.expressions Samples.bot
            (fun _ => Samples.reads (mkdt 2024 5 10 9 0 0 0))
            MoreSamples.book ∅) !! key
     = (∅ : gmap string Job) !! key).
Proof.
  split; [vm_compute; reflexivity|].
  apply (LoopFacts.startup_schedules_every_active_reminder_as_if_alone
           Samples.zones Samples.expressions Samples.bot
           (fun _ => Samples.reads (mkdt 2024 5 10 9 0 0 0))
           MoreSamples.book [7; 8; 9] ∅).
  - reflexivity.
  - repeat constructor; cbn [In]; lia.
Defined.

Lemma other_firings_retire_nothing_witness :
  scheduler (send_reminder_job Samples.zones Samples.bot
               (Samples.reads (mkdt 2024 5 11 7 35 0 0)) (ret tt)
               "2024-05-11T07:35:00" (VInt 100) Samples.other 0
               (Samples.world "once"))
  = scheduler (Samples.world "once") /\
  map (fun r => Py.str (Db.id r))
      (Db.reminders_sheet
         (db (send_reminder_job Samples.zones Samples.bot
                (Samples.reads (mkdt 2024 5 11 7 35 0 0)) (ret tt)
                "2024-05-11T07:35:00" (VInt 100) Samples.other 0
                (Samples.world "once"))))
  = map (fun r => Py.str (Db.id r))
        (Db.reminders_sheet (db (Samples.world "once"))).
Proof.
  apply (LoopFacts.other_firings_retire_nothing
           Samples.zones Samples.bot
           (Samples.reads (mkdt 2024 5 11 7 35 0 0)) (ret tt)
           "2024-05-11T07:35:00" (VInt 100) Samples.other 0
           (Samples.world "once")).
  - discriminate.
  - left. discriminate.
Defined.

Lemma once_three_jobs_witness :
  let s' :=
    snd (_schedule_single_reminder Samples.zones Samples.expressions Samples.bot
           (Samples.reads (mkdt 2024 5 10 9 0 0 0))
           (Samples.reminder 15 "once" "UTC") ∅) in
  installed_offsets (Samples.reminder 15 "once" "UTC") s' = [0; 1; 2]%nat /\
  trigger <$> s' !! offset_job_id (Samples.reminder 15 "once" "UTC") 0
    = Some (DateTrigger (mkdt 2024 5 15 7 35 0 0) (TZ "UTC")) /\
  trigger <$> s' !! offset_job_id (Samples.reminder 15 "once" "UTC") 1
    = Some (DateTrigger (prev_day (mkdt 2024 5 15 7 35 0 0)) (TZ "UTC")) /\
  trigger <$> s' !! offset_job_id (Samples.reminder 15 "once" "UTC") 2
    = Some (DateTrigger (prev_day (prev_day (mkdt 2024 5 15 7 35 0 0)))
                        (TZ "UTC")).
Proof.
  apply (SchedulingFacts.once_three_jobs
           Samples.zones Samples.expressions Samples.bot
           (Samples.reads (mkdt 2024 5 10 9 0 0 0))
           (Samples.reminder 15 "once" "UTC") ∅ "UTC"
           (mkdt 2024 5 15 7 35 0 0));
    reflexivity.
Defined.

Lemma monthly_three_jobs_witness :
  let s' :=
    snd (_schedule_single_reminder Samples.zones Samples.expressions Samples.bot
           (Samples.reads (mkdt 2024 5 10 9 0 0 0))
           (Samples.reminder 15 "monthly" "UTC") ∅) in
  installed_offsets (Samples.reminder 15 "monthly" "UTC") s'
  = [0; 1; 2]%nat /\
  trigger <$> s' !! offset_job_id (Samples.reminder 15 "monthly" "UTC") 0
    = Some (CronTrigger (fst (notify_hm Samples.bot))
                        (snd (notify_hm Samples.bot)) None
                        (Some (default (VStr "*")
                                 (Db.day (Samples.reminder 15 "monthly"
                                                           "UTC"))))
                        (TZ "UTC")) /\
  trigger <$> s' !! offset_job_id (Samples.reminder 15 "monthly" "UTC") 1
    = Some (DateTrigger (prev_day (mkdt 2024 5 15 7 35 0 0)) (TZ "UTC")) /\
  trigger <$> s' !! offset_job_id (Samples.reminder 15 "monthly" "UTC") 2
    = Some (DateTrigger (prev_day (prev_day (mkdt 2024 5 15 7 35 0 0)))
                        (TZ "UTC")).
Proof.
  apply (SchedulingFacts.monthly_three_jobs
           Samples.zones Samples.expressions Samples.bot
           (Samples.reads (mkdt 2024 5 10 9 0 0 0))
           (Samples.reminder 15 "monthly" "UTC") ∅ "UTC"
           (mkdt 2024 5 15 7 35 0 0));
    reflexivity.
Defined.

End Instances.

(** ** Where the code departs from the specification

    Each statement evaluates the code at one input. *)

Module Divergences.

Import Cal Bot.

(** C1: a monthly reminder due on the 15th whose one-day-before job fires
    on 2024-05-14 at 07:35:00. The callback finds the occurrence of the
    15th still ahead, so it re-installs the offset-1 job at the occurrence
    minus one day, which is the instant that has just fired and not a
    later one. *)
Theorem monthly_pre_due_job_rearmed_at_fired_instant :
  let fired := mkdt 2024 5 14 7 35 0 0 in
  let reminder := Samples.reminder 15 "monthly" "UTC" in
  let before := Samples.world "monthly" in
  let after :=
    send_reminder_job Samples.zones Samples.bot (Samples.reads fired)
                      (ret tt) "2024-05-14T07:35:00" (VInt 100) reminder 1
                      before in
  trigger <$> scheduler before !! offset_job_id reminder 1
    = Some (DateTrigger fired (TZ "UTC")) /\
  _compute_next_month_event Samples.zones Samples.bot (Samples.reads fired)
                            reminder
    = inr (mkdt 2024 5 15 7 35 0 0) /\
  trigger <$> scheduler after !! offset_job_id reminder 1
    = Some (DateTrigger fired (TZ "UTC")) /\
  ltb fired fired = false.
Proof. vm_compute. repeat split. Qed.

(** C2: a [once] reminder for the 31st scheduled on 2024-01-31 at 09:00,
    after the notification time. The day exists in January and the
    candidate has passed, but moving the candidate to February keeps day 31
    and raises before the clamp is reached: no instant is computed and no
    job is installed. *)
Theorem once_passed_day_not_rolled_into_shorter_month :
  let now := mkdt 2024 1 31 9 0 0 0 in
  let reminder := Samples.reminder 31 "once" "UTC" in
  valid_date 2024 1 31 = true /\
  leb (mkdt 2024 1 31 7 35 0 0) now = true /\
  once_run_date now (Db.day reminder) 7 35 = raise ValueError /\
  _schedule_single_reminder Samples.zones Samples.expressions Samples.bot (Samples.reads now)
                            reminder ∅
    = (ret tt, ∅).
Proof. vm_compute. repeat split. Qed.

(** C3: a reminder for the 31st handled on 2024-04-10 at 09:00. The
    monthly next-occurrence computation clamps to April 30; the [once]
    path raises on the same day and schedules nothing. *)
Theorem once_path_does_not_clamp :
  let now := mkdt 2024 4 10 9 0 0 0 in
  _compute_next_month_event Samples.zones Samples.bot (Samples.reads now)
                            (Samples.reminder 31 "monthly" "UTC")
    = inr (mkdt 2024 4 30 7 35 0 0) /\
  once_run_date now (Db.day (Samples.reminder 31 "once" "UTC")) 7 35
    = raise ValueError /\
  _schedule_single_reminder Samples.zones Samples.expressions Samples.bot (Samples.reads now)
                            (Samples.reminder 31 "once" "UTC") ∅
    = (ret tt, ∅).
Proof. vm_compute. repeat split. Qed.

(** C4: after scheduling on 2024-04-10 at 09:00, a [once] reminder for the
    31st holds no job key, and a [monthly] reminder whose zone name does
    not resolve holds the offset-0 key only. *)
Theorem scheduled_job_keys_can_be_fewer_than_three :
  let clock := Samples.reads (mkdt 2024 4 10 9 0 0 0) in
  installed_offsets (Samples.reminder 31 "once" "UTC")
    (snd (_schedule_single_reminder Samples.zones Samples.expressions Samples.bot clock
            (Samples.reminder 31 "once" "UTC") ∅))
    = [] /\
  installed_offsets (Samples.reminder 15 "monthly" "Mars/Olympus")
    (snd (_schedule_single_reminder Samples.zones Samples.expressions Samples.bot clock
            (Samples.reminder 15 "monthly" "Mars/Olympus") ∅))
    = [0%nat].
Proof. vm_compute. repeat split. Qed.

(** C8: a reminder for the 15th whose stored zone name does not resolve,
    handled on 2024-05-14 at 09:00. The next-occurrence computation raises
    instead of using the default zone; scheduling a [once] reminder
    installs nothing and a [monthly] one only its offset-0 job; the
    due-today test answers no, where the same reminder in a zone that
    resolves is due. *)
Theorem unknown_zone_is_not_defaulted_everywhere :
  let clock := Samples.reads (mkdt 2024 5 14 9 0 0 0) in
  let lost := Samples.reminder 15 "monthly" "Mars/Olympus" in
  Samples.zones "Mars/Olympus" = false /\
  _compute_next_month_event Samples.zones Samples.bot clock lost
    = raise UnknownTimeZoneError /\
  installed_offsets (Samples.reminder 15 "once" "Mars/Olympus")
    (snd (_schedule_single_reminder Samples.zones Samples.expressions Samples.bot clock
            (Samples.reminder 15 "once" "Mars/Olympus") ∅))
    = [] /\
  installed_offsets lost
    (snd (_schedule_single_reminder Samples.zones Samples.expressions Samples.bot clock lost ∅))
    = [0%nat] /\
  _reminder_due_today Samples.zones Samples.bot clock lost = ret false /\
  _reminder_due_today Samples.zones Samples.bot clock
                      (Samples.reminder 15 "monthly" "UTC") = ret true.
Proof. vm_compute. repeat split. Qed.

End Divergences.
